(** * BOM reconciliation core: classifier, normalizer, knowledge store, matcher

    A shallow embedding of
      - [backend/database/knowledge_base.py]  (class [KnowledgeBase]),
      - [backend/database/item_matcher.py]    (class [ItemMatcher]),
      - [backend/agents/extraction_agent.py]  (class [ExtractionAgent]),
    with the properties the specification states about them.

    Conventions.  A Python [str] is a list of characters; a character is an
    [ascii] read as the code point 0..255 (Latin-1), and the character
    predicates below are Python's on those code points.  A Python [float] is a
    binary64 primitive float.  [None] is [None]. *)

From Stdlib Require Import Ascii String.
From Stdlib Require Import List Bool Arith ZArith NArith Lia.
From Stdlib Require Import Floats Uint63.
From Stdlib Require Import Sorted Permutation.
Import ListNotations.

Set Implicit Arguments.
#[local] Set Warnings "-register-all,-inexact-float".

(* ================================================================== *)
(** ** Python strings *)
(* ================================================================== *)

Module PyStr.

Definition pystr := list ascii.

(** A literal. *)
Definition str (s : string) : pystr := list_ascii_of_string s.

Definition code (c : ascii) : N := N_of_ascii c.

Definition between (lo hi n : N) : bool := (N.leb lo n && N.leb n hi)%bool.

(** [str.isspace] on one character: TAB..CR, FS..US, SPACE, NEL, NBSP. *)
Definition isspace (c : ascii) : bool :=
  let n := code c in
  (between 9 13 n || between 28 32 n || N.eqb n 133 || N.eqb n 160)%bool.

(** [str.isalnum] on one character: digits, letters, and the Latin-1
    letters and numerics. *)
Definition isalnum (c : ascii) : bool :=
  let n := code c in
  (between 48 57 n || between 65 90 n || between 97 122 n
   || N.eqb n 170 || N.eqb n 178 || N.eqb n 179 || N.eqb n 181
   || N.eqb n 185 || N.eqb n 186 || between 188 190 n
   || between 192 214 n || between 216 246 n || between 248 255 n)%bool.

(** [str.lower] on one character. *)
Definition lower_char (c : ascii) : ascii :=
  let n := code c in
  if (between 65 90 n || between 192 214 n || between 216 222 n)%bool
  then ascii_of_N (n + 32) else c.

Definition lower (s : pystr) : pystr := map lower_char s.

Fixpoint lstrip (s : pystr) : pystr :=
  match s with
  | c :: s' => if isspace c then lstrip s' else s
  | [] => []
  end.

Definition rstrip (s : pystr) : pystr := rev (lstrip (rev s)).

(** [str.strip()] *)
Definition strip (s : pystr) : pystr := rstrip (lstrip s).

(** [str.split()] with no separator: the maximal runs of non-whitespace
    characters, in order. *)
Fixpoint split (s : pystr) : list pystr :=
  match s with
  | [] => []
  | c :: s' =>
      if isspace c then split s'
      else match s' with
           | [] => [[c]]
           | d :: _ =>
               if isspace d then [c] :: split s'
               else match split s' with
                    | w :: ws => (c :: w) :: ws
                    | [] => [[c]]
                    end
           end
  end.

(** [sep.join(ws)] *)
Fixpoint join (sep : pystr) (ws : list pystr) : pystr :=
  match ws with
  | [] => []
  | w :: ws' =>
      match ws' with
      | [] => w
      | _ :: _ => w ++ sep ++ join sep ws'
      end
  end.

Fixpoint eqb (s t : pystr) : bool :=
  match s, t with
  | [], [] => true
  | c :: s', d :: t' => (Ascii.eqb c d && eqb s' t')%bool
  | _, _ => false
  end.

(** The separator of [text.split('\n\n')] and ['\n\n'.join(...)]. *)
Definition newline : ascii := "010"%char.

Definition blank_line : pystr := [newline; newline].

(** Put a character in front of the first string of a list. *)
Definition cons_first (c : ascii) (l : list pystr) : list pystr :=
  match l with
  | w :: ws => (c :: w) :: ws
  | [] => [[c]]
  end.

(** [s.split('\n\n')]: the text is cut at every two line feeds, read from
    the left; the pieces may be empty, and there is always one. *)
Fixpoint split_blank_lines (s : pystr) : list pystr :=
  match s with
  | [] => [[]]
  | c :: s' =>
      match s' with
      | d :: s'' =>
          if (Ascii.eqb c newline && Ascii.eqb d newline)%bool
          then [] :: split_blank_lines s''
          else cons_first c (split_blank_lines s')
      | [] => [[c]]
      end
  end.

(** Truthiness of a string: non-empty. *)
Definition nonempty (s : pystr) : bool :=
  match s with [] => false | _ :: _ => true end.

(** [x in seen] for a set of strings kept as a list. *)
Definition mem (x : pystr) (seen : list pystr) : bool := existsb (eqb x) seen.

End PyStr.

Import PyStr.

(* ================================================================== *)
(** ** Normalizer ([KnowledgeBase.normalize_material_name]) *)
(* ================================================================== *)

Module Normalizer.

Definition space : pystr := str " ".

(** The generator expression
    [char for char in normalized if char.isalnum() or char.isspace()]. *)
Definition keep_char (c : ascii) : bool := (isalnum c || isspace c)%bool.

Definition normalize_material_name (material_name : option pystr) : pystr :=
  match material_name with
  | None => []
  | Some [] => []
  | Some name =>
      let normalized := strip (lower name) in
      let normalized := filter keep_char normalized in
      join space (split normalized)
  end.

(** The Normalizer as the specification words it, step by step. *)
Definition normalize_spec (x : pystr) : pystr :=
  join space (split (filter keep_char (strip (lower x)))).

End Normalizer.

Import Normalizer.

(* ================================================================== *)
(** ** Conversion to float ([float(x)]) *)
(* ================================================================== *)

Module PyFloat.

(** The whitespace [float] strips from a string: the ASCII whitespace and,
    of the other Latin-1 characters, NEL and NBSP.  (The separators FS..US,
    which [str.isspace] accepts, are not stripped.) *)
Definition float_space (c : ascii) : bool :=
  let n := code c in
  (between 9 13 n || N.eqb n 32 || N.eqb n 133 || N.eqb n 160)%bool.

Fixpoint lstrip_float (s : pystr) : pystr :=
  match s with
  | c :: s' => if float_space c then lstrip_float s' else s
  | [] => []
  end.

Definition strip_float (s : pystr) : pystr :=
  rev (lstrip_float (rev (lstrip_float s))).

(** The digits [0] to [9]; [float] reads no other Latin-1 character as a
    digit. *)
Definition ascii_digit (c : ascii) : bool := between 48 57 (code c).

Definition digit_value (c : ascii) : Z := (Z.of_N (code c) - 48)%Z.

(** The digit groups of PEP 515: an underscore is dropped when it stands
    between two digits and refused anywhere else.  [prev_digit] tells whether
    the character before [s] is a digit. *)
Fixpoint remove_underscores (prev_digit : bool) (s : pystr) : option pystr :=
  match s with
  | [] => Some []
  | c :: s' =>
      if Ascii.eqb c "_"%char then
        match s' with
        | d :: _ =>
            if (prev_digit && ascii_digit d)%bool then remove_underscores false s'
            else None
        | [] => None
        end
      else
        match remove_underscores (ascii_digit c) s' with
        | Some t => Some (c :: t)
        | None => None
        end
  end.

(** The longest prefix of digits, and the rest. *)
Fixpoint span_digits (s : pystr) : pystr * pystr :=
  match s with
  | c :: s' =>
      if ascii_digit c then let '(ds, rest) := span_digits s' in (c :: ds, rest)
      else ([], s)
  | [] => ([], [])
  end.

Definition digits_value (ds : pystr) : Z :=
  fold_left (fun acc c => (10 * acc + digit_value c)%Z) ds 0%Z.

(** An optional sign: whether it is a minus, and the rest. *)
Definition split_sign (s : pystr) : bool * pystr :=
  match s with
  | c :: s' =>
      if Ascii.eqb c "-"%char then (true, s')
      else if Ascii.eqb c "+"%char then (false, s')
      else (false, s)
  | [] => (false, [])
  end.

(** The binary64 number nearest to [m * 10^e] for a natural number [m], ties
    to even, with the sign [negative]; a number too large becomes an
    infinity.  For a negative [e] the quotient is computed to more than 64
    bits and its last bit records whether digits were cut off, so that it is
    rounded once. *)
Definition of_decimal (negative : bool) (m e : Z) : float :=
  let signed (z : Z) : Z := if negative then (- z)%Z else z in
  SF2Prim
    (if (0 <=? e)%Z then
       binary_normalize prec emax (signed (m * 10 ^ e)%Z) 0 negative
     else
       let d := (10 ^ (- e))%Z in
       let s := (64 + Z.log2_up d)%Z in
       let n := (m * 2 ^ s)%Z in
       let sticky := if (n mod d =? 0)%Z then 0%Z else 1%Z in
       binary_normalize prec emax (signed (2 * (n / d) + sticky)%Z)
         (- (s + 1))%Z negative).

(** The exponent part: nothing, or [e] or [E], an optional sign and at least
    one digit.  [None] when something else follows the mantissa. *)
Definition exponent_of (s : pystr) : option Z :=
  match s with
  | [] => Some 0%Z
  | c :: s' =>
      if (Ascii.eqb c "e"%char || Ascii.eqb c "E"%char)%bool then
        let '(negative, s1) := split_sign s' in
        let '(ds, rest) := span_digits s1 in
        match ds, rest with
        | _ :: _, [] =>
            Some (if negative then (- digits_value ds)%Z else digits_value ds)
        | _, _ => None
        end
      else None
  end.

(** [float(s)] for a string: surrounding whitespace is stripped, digit groups
    are read, and what remains is a sign followed by [inf], [infinity] or
    [nan] in any case, or by a decimal number with at least one digit in
    front of or behind the point.  [None] stands for ValueError. *)
Definition float_of_str (s : pystr) : option float :=
  match remove_underscores false (strip_float s) with
  | None => None
  | Some t =>
      let '(negative, t1) := split_sign t in
      let word := lower t1 in
      if (PyStr.eqb word (str "inf") || PyStr.eqb word (str "infinity"))%bool
      then Some (if negative then neg_infinity else infinity)
      else if PyStr.eqb word (str "nan") then Some nan
      else
        let '(int_digits, t2) := span_digits t1 in
        let '(frac_digits, t3) :=
          match t2 with
          | c :: t' => if Ascii.eqb c "."%char then span_digits t' else ([], t2)
          | [] => ([], [])
          end in
        match int_digits ++ frac_digits with
        | [] => None
        | _ :: _ =>
            match exponent_of t3 with
            | Some e =>
                Some (of_decimal negative
                        (digits_value (int_digits ++ frac_digits))
                        (e - Z.of_nat (length frac_digits)))
            | None => None
            end
        end
  end.

(** [float(n)] for an [int]: the nearest binary64 number, ties to even;
    [None] stands for OverflowError. *)
Definition float_of_int (z : Z) : option float :=
  match binary_normalize prec emax z 0 false with
  | S754_infinity _ => None
  | sf => Some (SF2Prim sf)
  end.

End PyFloat.

Import PyFloat.

(* ================================================================== *)
(** ** JSON values and dictionaries ([json.loads] output) *)
(* ================================================================== *)

Module Json.

Inductive JValue : Type :=
| JNull
| JBool (b : bool)
| JInt (z : Z)
| JFloat (f : float)
| JStr (s : pystr)
| JList (l : list JValue)
| JDict (d : list (pystr * JValue)).

Definition dict := list (pystr * JValue).

(** Python truthiness, [bool(v)]. *)
Definition truthy (v : JValue) : bool :=
  match v with
  | JNull => false
  | JBool b => b
  | JInt z => negb (Z.eqb z 0)
  | JFloat f => negb (PrimFloat.eqb f 0%float)
  | JStr s => nonempty s
  | JList l => match l with [] => false | _ :: _ => true end
  | JDict d => match d with [] => false | _ :: _ => true end
  end.

(** [d.get(key, default)] *)
Fixpoint dict_get (d : dict) (key : pystr) (default : JValue) : JValue :=
  match d with
  | [] => default
  | (k, v) :: d' => if PyStr.eqb k key then v else dict_get d' key default
  end.

(** [d.get(key)] tells a missing key from a present one only through [JNull]. *)
Definition dict_get_opt (d : dict) (key : pystr) : JValue := dict_get d key JNull.

(** [float(v)]; [None] stands for TypeError, ValueError or OverflowError. *)
Definition py_float (v : JValue) : option float :=
  match v with
  | JBool b => Some (if b then 1%float else 0%float)
  | JInt z => float_of_int z
  | JFloat f => Some f
  | JStr s => float_of_str s
  | JNull | JList _ | JDict _ => None
  end.

End Json.

Import Json.

(* ================================================================== *)
(** ** Classifier ([ExtractionAgent._classify_material]) *)
(* ================================================================== *)

Module ExtractionAgent.

(** Modelled from the spec: the enumerations [QAClassificationLabel],
    [ConfidenceLevel] and [ActionPathRAG] are declared in [models/schemas],
    which is not part of the sources at hand.  The members below are the ones
    the classifier refers to; the specification counts 13 labels and names
    these ten. *)
Inductive QAClassificationLabel : Type :=
| CONSUMABLE_WITH_PN_SPEC_QTY
| CONSUMABLE_WITH_PN_QTY
| CONSUMABLE_NO_QTY
| CONSUMABLE_NO_PN
| CONSUMABLE_OBSOLETE_PN
| CONSUMABLE_PN_MISMATCH
| VENDOR_KIT_NO_PN
| VENDOR_NAME_ONLY
| PRE_ASSEMBLED_KIT
| NO_CONSUMABLE_MENTIONED.

Inductive ConfidenceLevel : Type := HIGH | MEDIUM | LOW.

Inductive ActionPathRAG : Type := GREEN | AMBER | RED.

(** The dictionary [_classify_material] returns. *)
Record Classification : Type := mkClassification {
  label : QAClassificationLabel;
  cls_confidence_level : ConfidenceLevel;
  action_path : ActionPathRAG;
  reasoning : string
}.

Definition _classify_material (material_data : dict) : Classification :=
  let has_consumable :=
    truthy (dict_get material_data (str "consumable_jigs_tools") (JBool false)) in
  let has_pn := truthy (dict_get_opt material_data (str "part_number")) in
  let has_qty := truthy (dict_get_opt material_data (str "quantity")) in
  let has_specs := truthy (dict_get_opt material_data (str "specifications")) in
  let has_vendor := truthy (dict_get_opt material_data (str "vendor_name")) in
  let has_kit :=
    truthy (dict_get material_data (str "kit_available") (JBool false)) in
  let pn_mismatch :=
    truthy (dict_get material_data (str "pn_mismatch") (JBool false)) in
  let obsolete_pn :=
    truthy (dict_get material_data (str "obsolete_pn") (JBool false)) in
  if has_consumable && has_pn && has_qty && has_specs then
    mkClassification CONSUMABLE_WITH_PN_SPEC_QTY HIGH GREEN
      "Consumable with PN, specifications, and quantity - Auto-Register"
  else if has_consumable && has_pn && has_qty then
    mkClassification CONSUMABLE_WITH_PN_QTY HIGH GREEN
      "Consumable with PN and quantity - Auto-Register"
  else if has_consumable && has_pn && negb has_qty then
    mkClassification CONSUMABLE_NO_QTY MEDIUM AMBER
      "Consumable with PN but no quantity - Auto with Flag"
  else if has_consumable && negb has_pn then
    mkClassification CONSUMABLE_NO_PN LOW RED
      "Consumable mentioned but no part number - Human Intervention Required"
  else if obsolete_pn then
    mkClassification CONSUMABLE_OBSOLETE_PN LOW RED
      "Obsolete part number detected - Human Intervention Required"
  else if pn_mismatch then
    mkClassification CONSUMABLE_PN_MISMATCH LOW RED
      "Part number mismatch detected - Human Intervention Required"
  else if has_vendor && has_kit && negb has_pn then
    mkClassification VENDOR_KIT_NO_PN LOW RED
      "Vendor and kit mentioned but no PN - Human Intervention Required"
  else if has_vendor && negb has_consumable then
    mkClassification VENDOR_NAME_ONLY MEDIUM AMBER
      "Only vendor name mentioned - Auto with Flag"
  else if has_kit then
    mkClassification PRE_ASSEMBLED_KIT MEDIUM AMBER
      "Pre-assembled kit mentioned - Auto with Flag"
  else
    mkClassification NO_CONSUMABLE_MENTIONED LOW RED
      "No clear consumable/jigs/tools mentioned - Human Intervention Required".

(** *** The decision table of the specification *)

(** The presence flags a material is classified by. *)
Record Flags : Type := mkFlags {
  consumable_jigs_tools : bool;
  has_part_number : bool;
  has_quantity : bool;
  has_specifications : bool;
  has_vendor : bool;
  kit_available : bool;
  pn_mismatch : bool;
  obsolete_pn : bool
}.

Definition flags_of (material_data : dict) : Flags :=
  {| consumable_jigs_tools :=
       truthy (dict_get material_data (str "consumable_jigs_tools") (JBool false));
     has_part_number := truthy (dict_get_opt material_data (str "part_number"));
     has_quantity := truthy (dict_get_opt material_data (str "quantity"));
     has_specifications :=
       truthy (dict_get_opt material_data (str "specifications"));
     has_vendor := truthy (dict_get_opt material_data (str "vendor_name"));
     kit_available :=
       truthy (dict_get material_data (str "kit_available") (JBool false));
     pn_mismatch :=
       truthy (dict_get material_data (str "pn_mismatch") (JBool false));
     obsolete_pn :=
       truthy (dict_get material_data (str "obsolete_pn") (JBool false)) |}.

Definition Outcome : Type :=
  (QAClassificationLabel * ConfidenceLevel * ActionPathRAG)%type.

Definition outcome_of (c : Classification) : Outcome :=
  (label c, cls_confidence_level c, action_path c).

(** Rules 1 to 9 as the table lists them: a condition on the flags and the
    outcome it selects.  Rule 10 is the default. *)
Definition decision_table : list ((Flags -> bool) * Outcome) :=
  [ (fun f => consumable_jigs_tools f && has_part_number f && has_quantity f
              && has_specifications f,
     (CONSUMABLE_WITH_PN_SPEC_QTY, HIGH, GREEN));
    (fun f => consumable_jigs_tools f && has_part_number f && has_quantity f
              && negb (has_specifications f),
     (CONSUMABLE_WITH_PN_QTY, HIGH, GREEN));
    (fun f => consumable_jigs_tools f && has_part_number f
              && negb (has_quantity f),
     (CONSUMABLE_NO_QTY, MEDIUM, AMBER));
    (fun f => consumable_jigs_tools f && negb (has_part_number f),
     (CONSUMABLE_NO_PN, LOW, RED));
    (fun f => obsolete_pn f, (CONSUMABLE_OBSOLETE_PN, LOW, RED));
    (fun f => pn_mismatch f, (CONSUMABLE_PN_MISMATCH, LOW, RED));
    (fun f => has_vendor f && kit_available f && negb (has_part_number f),
     (VENDOR_KIT_NO_PN, LOW, RED));
    (fun f => has_vendor f && negb (consumable_jigs_tools f),
     (VENDOR_NAME_ONLY, MEDIUM, AMBER));
    (fun f => kit_available f, (PRE_ASSEMBLED_KIT, MEDIUM, AMBER)) ].

Definition default_outcome : Outcome := (NO_CONSUMABLE_MENTIONED, LOW, RED).

(** First matching rule wins. *)
Fixpoint first_match (rules : list ((Flags -> bool) * Outcome)) (f : Flags)
  : Outcome :=
  match rules with
  | [] => default_outcome
  | (cond, out) :: rest => if cond f then out else first_match rest f
  end.

Definition classify_spec (f : Flags) : Outcome := first_match decision_table f.

Definition ten_outcomes : list Outcome :=
  map snd decision_table ++ [default_outcome].

(* ================================================================== *)
(** ** Extracted materials and their deduplication ([ExtractionAgent]) *)
(* ================================================================== *)

(** Modelled from the spec: the model class [ExtractedMaterial] is declared in
    [models/schemas], which is not part of the sources at hand.  Its fields are
    the keyword arguments [_create_enhanced_material] passes: the name, the
    confidence score, the four classification results, and the remaining
    attributes, which are read from [material_data] one by one and are kept
    here as that dictionary. *)
Record ExtractedMaterial : Type := mkExtractedMaterial {
  name : pystr;
  confidence_score : float;
  attributes : dict;
  confidence_level : ConfidenceLevel;
  action_path_rag : ActionPathRAG;
  classification_label : QAClassificationLabel;
  classification_reasoning : string
}.

(** [material_data.get("name", "Unknown Material")]; a name that is not a
    string is refused by the model class, which raises. *)
Definition material_name_of (material_data : dict) : option pystr :=
  match dict_get material_data (str "name") (JStr (str "Unknown Material")) with
  | JStr s => Some s
  | _ => None
  end.

(** [float(material_data.get("confidence_score", 0.5))]: a score that is
    null, a list or a dictionary, or a string that is not a number, raises. *)
Definition confidence_score_of_data (material_data : dict) : option float :=
  py_float (dict_get material_data (str "confidence_score") (JFloat 0.5%float)).

(** [_create_enhanced_material]: the material is classified when it is
    created.  [None] stands for the exception, raised by the conversion of
    the confidence score or by the model class. *)
Definition _create_enhanced_material (material_data : dict)
  : option ExtractedMaterial :=
  let classification_result := _classify_material material_data in
  match confidence_score_of_data material_data with
  | Some score =>
      match material_name_of material_data with
      | Some n =>
          Some {| name := n;
                  confidence_score := score;
                  attributes := material_data;
                  confidence_level := cls_confidence_level classification_result;
                  action_path_rag := action_path classification_result;
                  classification_label := label classification_result;
                  classification_reasoning := reasoning classification_result |}
      | None => None
      end
  | None => None
  end.

(** The demo material (its free-text attributes [context], [source_section]
    and [ai_engine_processing] are left out of the dictionary). *)
Definition _create_demo_materials_chunk_enhanced : list ExtractedMaterial :=
  [ {| name := str "M6x20mm Hex Bolt";
       confidence_score := 0.95%float;
       attributes :=
         [ (str "category", JStr (str "fasteners"));
           (str "specifications",
            JDict [ (str "size", JStr (str "M6x20mm"));
                    (str "type", JStr (str "hex bolt"));
                    (str "material", JStr (str "stainless steel")) ]);
           (str "confidence_score", JFloat 0.95%float);
           (str "qc_process_step", JStr (str "Assembly Step 3"));
           (str "consumable_jigs_tools", JBool true);
           (str "part_number", JStr (str "BOLT-M6-20-SS"));
           (str "quantity", JFloat 4%float);
           (str "unit_of_measure", JStr (str "pieces")) ];
       confidence_level := HIGH;
       action_path_rag := GREEN;
       classification_label := CONSUMABLE_WITH_PN_QTY;
       classification_reasoning :=
         "Demo: Consumable with PN and quantity - Auto-Register" |} ].

(** All-or-nothing traversal: the first exception aborts the loop. *)
Fixpoint create_all (materials_data : list dict)
  : option (list ExtractedMaterial) :=
  match materials_data with
  | [] => Some []
  | d :: rest =>
      match _create_enhanced_material d, create_all rest with
      | Some m, Some ms => Some (m :: ms)
      | _, _ => None
      end
  end.

(** [_extract_from_chunk_enhanced], given what the text-generation service
    answered for the chunk: [None] when the client is unavailable, the call
    fails, or the answer is not JSON for a sequence of dictionaries;
    otherwise the dictionaries of the parsed answer.  Every failure, also
    that of creating one material, falls back to the demo materials for the
    whole chunk. *)
Definition _extract_from_chunk_enhanced (answer : option (list dict))
  : list ExtractedMaterial :=
  match answer with
  | None => _create_demo_materials_chunk_enhanced
  | Some materials_data =>
      match create_all materials_data with
      | Some materials => materials
      | None => _create_demo_materials_chunk_enhanced
      end
  end.

(** [name_key = material.name.lower().strip()] *)
Definition name_key (material : ExtractedMaterial) : pystr :=
  strip (lower (name material)).

(** The loop of [_deduplicate_materials], with the set [seen_names] as the
    list of keys met so far. *)
Fixpoint dedup_loop (materials : list ExtractedMaterial) (seen_names : list pystr)
  : list ExtractedMaterial :=
  match materials with
  | [] => []
  | material :: rest =>
      let key := name_key material in
      if mem key seen_names then dedup_loop rest seen_names
      else material :: dedup_loop rest (key :: seen_names)
  end.

Definition _deduplicate_materials (materials : list ExtractedMaterial)
  : list ExtractedMaterial :=
  dedup_loop materials [].

(** Steps 2 and 3 of [process_translated_content]: the materials of every
    chunk are created (and classified), gathered, and only then
    deduplicated. *)
Definition all_materials (answers : list (option (list dict)))
  : list ExtractedMaterial :=
  List.concat (map _extract_from_chunk_enhanced answers).



(** The loop of [_split_into_extraction_chunks]. *)
Fixpoint chunk_loop (max_chunk_size : nat) (sections : list pystr)
    (current_chunk : list pystr) (current_length : nat) : list pystr :=
  match sections with
  | [] =>
      match current_chunk with
      | [] => []
      | _ :: _ => [join blank_line current_chunk]
      end
  | section :: rest =>
      if Nat.ltb max_chunk_size (current_length + length section)
         && match current_chunk with [] => false | _ :: _ => true end
      then join blank_line current_chunk
           :: chunk_loop max_chunk_size rest [section] (length section)
      else chunk_loop max_chunk_size rest (current_chunk ++ [section])
             (current_length + length section)
  end.

Definition _split_into_extraction_chunks (text : pystr) (max_chunk_size : nat)
  : list pystr :=
  if Nat.leb (length text) max_chunk_size then [text]
  else chunk_loop max_chunk_size (split_blank_lines text) [] 0.

Definition label_eq_dec :
  forall a b : QAClassificationLabel, {a = b} + {a <> b}.
Proof. decide equality. Defined.

Definition is_path (p : ActionPathRAG) (m : ExtractedMaterial) : bool :=
  match p, action_path_rag m with
  | GREEN, GREEN | AMBER, AMBER | RED, RED => true
  | _, _ => false
  end.

(** [breakdown[label_name] = breakdown.get(label_name, 0) + 1].  The key is
    the text "Label " followed by the value of the label; different labels
    have different values, so the dictionary is kept by label, in the order
    the keys were first set. *)
Fixpoint bump (l : QAClassificationLabel)
    (breakdown : list (QAClassificationLabel * nat))
  : list (QAClassificationLabel * nat) :=
  match breakdown with
  | [] => [(l, 1)]
  | (k, n) :: rest =>
      if label_eq_dec k l then (k, S n) :: rest else (k, n) :: bump l rest
  end.

(** The dictionary [_generate_classification_summary] returns. *)
Record ClassificationSummary : Type := mkClassificationSummary {
  total_materials : nat;
  green_materials : nat;
  amber_materials : nat;
  red_materials : nat;
  classification_breakdown : list (QAClassificationLabel * nat)
}.

(** [sum(1 for m in materials if ...)] *)
Definition count_if (A : Type) (p : A -> bool) (l : list A) : nat :=
  length (filter p l).

Definition _generate_classification_summary (materials : list ExtractedMaterial)
  : ClassificationSummary :=
  match materials with
  | [] =>
      {| total_materials := 0; green_materials := 0; amber_materials := 0;
         red_materials := 0; classification_breakdown := [] |}
  | _ :: _ =>
      {| total_materials := length materials;
         green_materials := count_if (is_path GREEN) materials;
         amber_materials := count_if (is_path AMBER) materials;
         red_materials := count_if (is_path RED) materials;
         classification_breakdown :=
           fold_left (fun breakdown material =>
                        bump (classification_label material) breakdown)
             materials [] |}
  end.

(** The dictionary [_calculate_confidence_distribution] returns. *)
Record ConfidenceDistribution : Type := mkConfidenceDistribution {
  high : nat;
  medium : nat;
  low : nat
}.

Section Distribution.

(** How the score of a material is read: the agent reads the field
    [confidence_score]. *)
Variable confidence_score_of : ExtractedMaterial -> float.

Definition _calculate_confidence_distribution (materials : list ExtractedMaterial)
  : ConfidenceDistribution :=
  match materials with
  | [] => {| high := 0; medium := 0; low := 0 |}
  | _ :: _ =>
      {| high :=
           count_if (fun m => PrimFloat.leb 0.8 (confidence_score_of m)) materials;
         medium :=
           count_if (fun m => PrimFloat.leb 0.6 (confidence_score_of m)
                              && PrimFloat.ltb (confidence_score_of m) 0.8)
             materials;
         low :=
           count_if (fun m => PrimFloat.ltb (confidence_score_of m) 0.6) materials |}
  end.

End Distribution.

End ExtractionAgent.

(* ================================================================== *)
(** ** Python numbers *)
(* ================================================================== *)

Module PyNum.

(** [float(n)] for a length or a row count (exact below 2^53). *)
Definition of_nat (n : nat) : float :=
  PrimFloat.of_uint63 (Uint63.of_Z (Z.of_nat n)).

(** [a / b] on two counts: true division, the quotient rounded once. *)
Definition truediv (a b : nat) : float := PrimFloat.div (of_nat a) (of_nat b).

(** [min(a, b)]: the first of the smallest. *)
Definition py_min (a b : float) : float := if PrimFloat.ltb b a then b else a.

(** A number that is either an [int] or a [float]. *)
Inductive number : Type :=
| PyInt (z : Z)
| PyFloat (f : float).

(** [max(l, key=...)]: the first of the largest, found by one left-to-right
    pass that replaces the running maximum on a strictly greater key. *)
Fixpoint max_from (A : Type) (key : A -> float) (best : A) (l : list A) : A :=
  match l with
  | [] => best
  | x :: l' =>
      if PrimFloat.ltb (key best) (key x) then max_from key x l'
      else max_from key best l'
  end.

Definition py_max (A : Type) (key : A -> float) (l : list A) : option A :=
  match l with
  | [] => None
  | x :: l' => Some (max_from key x l')
  end.

(** [sorted(l, key=..., reverse=True)]: descending, and stable (elements with
    equal keys keep the order they have in [l]). *)
Fixpoint insert_desc (A : Type) (key : A -> float) (x : A) (l : list A)
  : list A :=
  match l with
  | [] => [x]
  | y :: l' =>
      if PrimFloat.ltb (key x) (key y) then y :: insert_desc key x l'
      else x :: l
  end.

Fixpoint sorted_reverse (A : Type) (key : A -> float) (l : list A) : list A :=
  match l with
  | [] => []
  | x :: l' => insert_desc key x (sorted_reverse key l')
  end.

End PyNum.

Import PyNum.

(* ================================================================== *)
(** ** Knowledge store ([KnowledgeBase]) *)
(* ================================================================== *)

Module KnowledgeBase.

(** The dictionaries handed to [add_items] and to the matcher.  A field holds
    what [item.get(key)] reads; for [qa_material_name], [qa_excerpt] and
    [category] a missing key reads as the empty string. *)
Record Item : Type := mkItem {
  qa_material_name : pystr;
  part_number : option pystr;
  vendor_name : option pystr;
  qa_classification_label : option Z;
  qa_confidence_level : option pystr;
  qc_process_step : option pystr;
  unit_of_measure : option pystr;
  quantity : option float;
  consumable_jigs_tools : bool;
  qa_excerpt : pystr;
  category : pystr
}.

(** A row of table [items].  The eleven columns [add_items] copies from the
    item it is given ([material_name], [part_number], ..., [category]) are
    kept as that item; [created_at] and [updated_at] are seconds. *)
Record ItemRow : Type := mkItemRow {
  id : Z;
  source_item : Item;
  normalized_name : pystr;
  created_at : nat;
  updated_at : nat;
  workflow_id : option pystr;
  source_document : option pystr
}.

Definition material_name (r : ItemRow) : pystr := qa_material_name (source_item r).

(** A row of table [item_matches]. *)
Record MatchRow : Type := mkMatchRow {
  mr_id : Z;
  original_item_id : option Z;
  matched_item_id : option Z;
  mr_confidence_score : option float;
  mr_match_type : option pystr;
  mr_supplier_description : option pystr;
  mr_supplier_part_number : option pystr;
  mr_reasoning : option pystr;
  mr_created_at : nat;
  mr_workflow_id : option pystr
}.

(** The database file: both tables in rowid order, and the counter SQLite
    keeps for the AUTOINCREMENT key of [items]. *)
Record Store : Type := mkStore {
  items : list ItemRow;
  item_matches : list MatchRow;
  items_seq : Z
}.

Definition empty_store : Store :=
  {| items := []; item_matches := []; items_seq := 0 |}.

(** What the environment does to one call: nothing, or make the database
    step with the given number raise (step 0 is [sqlite3.connect]). *)
Inductive Fault : Type :=
| NoFault
| RaiseAt (step : nat).

Definition raises (fault : Fault) (step : nat) : bool :=
  match fault with
  | NoFault => false
  | RaiseAt k => Nat.eqb k step
  end.

Definition max_id (rows : list ItemRow) : Z :=
  fold_right (fun r m => Z.max (id r) m) 0%Z rows.

(** AUTOINCREMENT: one more than the largest key the table ever had. *)
Definition next_id (db : Store) : Z :=
  (Z.max (items_seq db) (max_id (items db)) + 1)%Z.

(** One [INSERT INTO items]; [now] is CURRENT_TIMESTAMP. *)
Definition insert_item (now : nat) (item : Item) (workflow : option pystr)
    (document : option pystr) (db : Store) : Store * Z :=
  let normalized := normalize_material_name (Some (qa_material_name item)) in
  let new_id := next_id db in
  let row := {| id := new_id;
                source_item := item;
                normalized_name := normalized;
                created_at := now;
                updated_at := now;
                workflow_id := workflow;
                source_document := document |} in
  ({| items := items db ++ [row];
      item_matches := item_matches db;
      items_seq := new_id |}, new_id).

(** The [for item in items] loop of [add_items], from its [k]-th iteration
    on: [clock k] is CURRENT_TIMESTAMP at the [k]-th INSERT of the call, which
    is database step [k + 1].  [None] stands for the exception. *)
Fixpoint insert_loop (fault : Fault) (clock : nat -> nat) (k : nat)
    (batch : list Item) (workflow : option pystr) (document : option pystr)
    (db : Store) : option (Store * list Z) :=
  match batch with
  | [] => Some (db, [])
  | item :: rest =>
      if raises fault (S k) then None
      else
        let '(db1, new_id) := insert_item (clock k) item workflow document db in
        match insert_loop fault clock (S k) rest workflow document db1 with
        | Some (db2, added_ids) => Some (db2, new_id :: added_ids)
        | None => None
        end
  end.

(** [add_items]: the new store, the list returned, and whether an error was
    logged.  Nothing is committed before the last INSERT, so an exception
    leaves the store as it was. *)
Definition add_items (fault : Fault) (clock : nat -> nat) (batch : list Item)
    (workflow : option pystr) (document : option pystr) (db : Store)
  : Store * list Z * bool :=
  match batch with
  | [] => (db, [], false)
  | _ :: _ =>
      if raises fault 0 then (db, [], true)
      else
        match insert_loop fault clock 0 batch workflow document db with
        | Some (db', added_ids) =>
            if raises fault (S (length batch)) then (db, [], true)
            else (db', added_ids, false)
        | None => (db, [], true)
        end
  end.

Inductive MatchType : Type := Exact | Fuzzy | PartNumber | Description.

(** The dictionaries [find_similar_items] returns: a row of [items] with the
    two keys [match_type] and [confidence_score] added. *)
Record KBMatch : Type := mkKBMatch {
  kb_row : ItemRow;
  kb_match_type : MatchType;
  kb_confidence_score : float
}.

(** [ORDER BY created_at DESC].  Rows created in the same second stay in
    rowid order, the order in which SQLite hands them out (SQL itself leaves
    it open). *)
Fixpoint insert_newest (r : ItemRow) (l : list ItemRow) : list ItemRow :=
  match l with
  | [] => [r]
  | y :: l' =>
      if Nat.ltb (created_at r) (created_at y) then y :: insert_newest r l'
      else r :: l
  end.

Fixpoint order_by_created_at_desc (l : list ItemRow) : list ItemRow :=
  match l with
  | [] => []
  | r :: l' => insert_newest r (order_by_created_at_desc l')
  end.

(** [SELECT * FROM items WHERE normalized_name = ? ORDER BY created_at DESC
    LIMIT 5] *)
Definition select_exact (normalized_query : pystr) (db : Store) : list ItemRow :=
  firstn 5
    (order_by_created_at_desc
       (filter (fun r => PyStr.eqb (normalized_name r) normalized_query)
          (items db))).

Definition as_exact (r : ItemRow) : KBMatch :=
  {| kb_row := r; kb_match_type := Exact; kb_confidence_score := 1%float |}.

(** [find_similar_items]: the list returned and whether an error was logged.
    The SELECT is database step 1. *)
Definition find_similar_items (fault : Fault) (material : option pystr)
    (db : Store) : list KBMatch * bool :=
  if raises fault 0 then ([], true)
  else
    let normalized_query := normalize_material_name material in
    if nonempty normalized_query then
      if raises fault 1 then ([], true)
      else (map as_exact (select_exact normalized_query db), false)
    else ([], false).

(** The dictionary [get_processing_stats] returns. *)
Record Stats : Type := mkStats {
  total_items : nat;
  total_workflows : nat;
  total_matches : nat;
  unique_matched_items : nat;
  match_rate : number
}.

Definition pystr_eq_dec : forall s t : pystr, {s = t} + {s <> t} :=
  list_eq_dec Ascii.ascii_dec.

(** The non-NULL values of a column. *)
Fixpoint non_null (A : Type) (l : list (option A)) : list A :=
  match l with
  | [] => []
  | Some x :: l' => x :: non_null l'
  | None :: l' => non_null l'
  end.

(** [COUNT(DISTINCT column)], which skips NULL. *)
Definition count_distinct (A : Type) (eq_dec : forall x y : A, {x = y} + {x <> y})
    (column : list (option A)) : nat :=
  length (nodup eq_dec (non_null column)).

Definition zero_stats : Stats :=
  {| total_items := 0; total_workflows := 0; total_matches := 0;
     unique_matched_items := 0; match_rate := PyInt 0 |}.

(** [get_processing_stats]; its four SELECTs are database steps 1 to 4. *)
Definition get_processing_stats (fault : Fault) (db : Store) : Stats :=
  if raises fault 0 || raises fault 1 || raises fault 2 || raises fault 3
     || raises fault 4
  then zero_stats
  else
    let total_items := length (items db) in
    let total_workflows :=
      count_distinct pystr_eq_dec (map workflow_id (items db)) in
    let total_matches := length (item_matches db) in
    let unique_matched_items :=
      count_distinct Z.eq_dec (map original_item_id (item_matches db)) in
    {| total_items := total_items;
       total_workflows := total_workflows;
       total_matches := total_matches;
       unique_matched_items := unique_matched_items;
       match_rate :=
         if Nat.ltb 0 total_items
         then PyFloat (truediv unique_matched_items total_items * 100)%float
         else PyInt 0 |}.

(** [clear_all_data]; the two DELETEs are database steps 1 and 2 and the
    commit is step 3.  The AUTOINCREMENT counter outlives the rows. *)
Definition clear_all_data (fault : Fault) (db : Store) : Store :=
  if raises fault 0 || raises fault 1 || raises fault 2 || raises fault 3
  then db
  else {| items := [];
          item_matches := [];
          items_seq := Z.max (items_seq db) (max_id (items db)) |}.

(** The route [GET /api/knowledge-base/stats] of [routers/knowledge_base.py]:
    [None] is the case where the knowledge base could not be created. *)
Definition get_knowledge_base_stats (fault : Fault) (knowledge_base : option Store)
  : Stats :=
  match knowledge_base with
  | Some db => get_processing_stats fault db
  | None => zero_stats
  end.

End KnowledgeBase.

(* ================================================================== *)
(** ** Matcher ([ItemMatcher]) *)
(* ================================================================== *)

Module ItemMatcher.

Import KnowledgeBase.

(** A row of the supplier BOM: what [supplier_item.get('description', '')]
    and [supplier_item.get('part_number', '')] read. *)
Record SupplierItem : Type := mkSupplierItem {
  description : pystr;
  sup_part_number : option pystr
}.

(** The dictionaries [_find_supplier_matches] returns. *)
Record Candidate : Type := mkCandidate {
  supplier_description : pystr;
  supplier_part_number : option pystr;
  confidence_score : float;
  match_type : MatchType
}.

(** Truthiness of an optional string. *)
Definition present (s : option pystr) : bool :=
  match s with
  | Some t => nonempty t
  | None => false
  end.

(** [a == b] on optional strings. *)
Definition opt_eqb (a b : option pystr) : bool :=
  match a, b with
  | Some s, Some t => PyStr.eqb s t
  | None, None => true
  | _, _ => false
  end.

(** [set(words)], as the list of the distinct words. *)
Fixpoint set_of (words : list pystr) : list pystr :=
  match words with
  | [] => []
  | w :: rest => if mem w rest then set_of rest else w :: set_of rest
  end.

(** [s & t] *)
Definition intersection (s t : list pystr) : list pystr :=
  filter (fun w => mem w t) s.

(** The body of the loop of [_find_supplier_matches] up to the threshold
    test: the confidence of one supplier item.  [material_name] is already
    lower-cased. *)
Definition confidence_of (material_name : pystr) (part_number : option pystr)
    (supplier_item : SupplierItem) : float :=
  let supplier_desc := lower (description supplier_item) in
  let supplier_part := sup_part_number supplier_item in
  if present part_number && present supplier_part
     && opt_eqb part_number supplier_part
  then 0.95%float
  else if nonempty material_name && nonempty supplier_desc then
    let common_words :=
      intersection (set_of (split material_name)) (set_of (split supplier_desc)) in
    match common_words with
    | _ :: _ =>
        let word_match_ratio :=
          truediv (length common_words)
            (Nat.max (length (split material_name)) (length (split supplier_desc))) in
        py_min 0.9%float (word_match_ratio * 0.8)%float
    | [] => 0%float
    end
  else 0%float.

Definition candidate_of (confidence : float) (supplier_item : SupplierItem)
  : Candidate :=
  {| supplier_description := description supplier_item;
     supplier_part_number := sup_part_number supplier_item;
     confidence_score := confidence;
     match_type :=
       if PrimFloat.ltb 0.9%float confidence then PartNumber else Description |}.

(** The list [matches] before it is sorted. *)
Fixpoint supplier_loop (material_name : pystr) (part_number : option pystr)
    (supplier_bom : list SupplierItem) : list Candidate :=
  match supplier_bom with
  | [] => []
  | supplier_item :: rest =>
      let confidence := confidence_of material_name part_number supplier_item in
      if PrimFloat.ltb 0.3%float confidence
      then candidate_of confidence supplier_item
           :: supplier_loop material_name part_number rest
      else supplier_loop material_name part_number rest
  end.

Definition _find_supplier_matches (item : Item) (supplier_bom : list SupplierItem)
  : list Candidate :=
  let material_name := lower (qa_material_name item) in
  let part_number := part_number item in
  sorted_reverse confidence_score
    (supplier_loop material_name part_number supplier_bom).

Inductive BestSource : Type := from_knowledge_base | from_supplier_bom.

(** The dictionary [_select_best_match] returns when it is not empty; only
    the knowledge-base branches set [id]. *)
Record BestMatch : Type := mkBestMatch {
  bm_id : option Z;
  bm_supplier_description : pystr;
  bm_supplier_part_number : option pystr;
  bm_confidence_score : float;
  bm_match_type : MatchType;
  bm_match_source : BestSource
}.

Definition is_exact (m : KBMatch) : bool :=
  match kb_match_type m with
  | Exact => true
  | _ => false
  end.

Definition best_of_kb (m : KBMatch) (confidence : float) (mt : MatchType)
  : BestMatch :=
  {| bm_id := Some (id (kb_row m));
     bm_supplier_description := material_name (kb_row m);
     bm_supplier_part_number := part_number (source_item (kb_row m));
     bm_confidence_score := confidence;
     bm_match_type := mt;
     bm_match_source := from_knowledge_base |}.

Definition best_of_supplier (c : Candidate) : BestMatch :=
  {| bm_id := None;
     bm_supplier_description := supplier_description c;
     bm_supplier_part_number := supplier_part_number c;
     bm_confidence_score := confidence_score c;
     bm_match_type := match_type c;
     bm_match_source := from_supplier_bom |}.

(** The fall-back of [_select_best_match] once no supplier candidate was
    returned: the best knowledge-base candidate at the fixed confidence 0.6,
    or the empty dictionary. *)
Definition fallback_kb (kb_matches : list KBMatch) : option BestMatch :=
  match py_max kb_confidence_score kb_matches with
  | Some best_kb => Some (best_of_kb best_kb 0.6%float Fuzzy)
  | None => None
  end.

(** [_select_best_match]; [None] is the empty dictionary. *)
Definition _select_best_match (item : Item) (kb_matches : list KBMatch)
    (supplier_matches : list Candidate) : option BestMatch :=
  match find is_exact kb_matches with
  | Some kb_match => Some (best_of_kb kb_match 0.9%float Exact)
  | None =>
      match py_max confidence_score supplier_matches with
      | Some best_supplier =>
          if PrimFloat.ltb 0.7%float (confidence_score best_supplier)
          then Some (best_of_supplier best_supplier)
          else fallback_kb kb_matches
      | None => fallback_kb kb_matches
      end
  end.

Inductive MatchSource : Type := hybrid | knowledge_base | supplier_bom | no_match.

Definition _determine_match_source (kb_matches : list KBMatch)
    (supplier_matches : list Candidate) : MatchSource :=
  match kb_matches, supplier_matches with
  | _ :: _, _ :: _ => hybrid
  | _ :: _, [] => knowledge_base
  | [], _ :: _ => supplier_bom
  | [], [] => no_match
  end.

(** The sentences of [_generate_match_reasoning], each with the confidence
    it prints.  A best match carries the source [knowledge_base] or
    [supplier_bom] only, so the two remaining sentences are never produced. *)
Inductive MatchReasoning : Type :=
| NoSuitableMatch
| ExactKnowledgeBase (confidence : float)
| SimilarKnowledgeBase (confidence : float)
| CurrentSupplierBOM (confidence : float).

Definition _generate_match_reasoning (kb_matches : list KBMatch)
    (supplier_matches : list Candidate) (best_match : option BestMatch)
  : MatchReasoning :=
  match best_match with
  | None => NoSuitableMatch
  | Some b =>
      match bm_match_source b with
      | from_knowledge_base =>
          match bm_match_type b with
          | Exact => ExactKnowledgeBase (bm_confidence_score b)
          | _ => SimilarKnowledgeBase (bm_confidence_score b)
          end
      | from_supplier_bom => CurrentSupplierBOM (bm_confidence_score b)
      end
  end.

(** One element of [enhanced_matches]: the item and the keys added to it. *)
Record MatchResult : Type := mkMatchResult {
  res_item : Item;
  knowledge_base_matches : nat;
  supplier_matches_count : nat;
  has_previous_match : bool;
  match_source : MatchSource;
  res_confidence_score : float;
  res_supplier_description : pystr;
  res_supplier_part_number : option pystr;
  res_reasoning : MatchReasoning
}.

(** The body of the loop of [match_items_with_knowledge_base] for the item
    at position [i]: the knowledge-base candidates it is matched against and
    the result built from them.  [find_fault i] is what the environment does
    to the [i]-th call of [find_similar_items]. *)
Definition match_one (find_fault : nat -> Fault) (supplier_bom : list SupplierItem)
    (db : Store) (i : nat) (item : Item) : list KBMatch * MatchResult :=
  let material := qa_material_name item in
  let kb_matches := fst (find_similar_items (find_fault i) (Some material) db) in
  let supplier_matches := _find_supplier_matches item supplier_bom in
  let best_match := _select_best_match item kb_matches supplier_matches in
  let reasoning := _generate_match_reasoning kb_matches supplier_matches best_match in
  (kb_matches,
   {| res_item := item;
      knowledge_base_matches := length kb_matches;
      supplier_matches_count := length supplier_matches;
      has_previous_match := Nat.ltb 0 (length kb_matches);
      match_source := _determine_match_source kb_matches supplier_matches;
      res_confidence_score :=
        match best_match with
        | Some b => bm_confidence_score b
        | None => 0%float
        end;
      res_supplier_description :=
        match best_match with
        | Some b => bm_supplier_description b
        | None => []
        end;
      res_supplier_part_number :=
        match best_match with
        | Some b => bm_supplier_part_number b
        | None => Some []
        end;
      res_reasoning := reasoning |}).

Fixpoint match_loop (find_fault : nat -> Fault) (supplier_bom : list SupplierItem)
    (db : Store) (i : nat) (extracted_items : list Item)
  : list (list KBMatch * MatchResult) :=
  match extracted_items with
  | [] => []
  | item :: rest =>
      match_one find_fault supplier_bom db i item
      :: match_loop find_fault supplier_bom db (S i) rest
  end.

(** [match_items_with_knowledge_base] with, next to each result, the
    knowledge-base candidates it was computed from: the whole batch is added
    to the store first, and every item is then looked up in the store that
    results.  The first two components are the store afterwards and
    [new_item_ids]. *)
Definition match_trace (add_fault : Fault) (find_fault : nat -> Fault)
    (clock : nat -> nat) (extracted_items : list Item)
    (supplier_bom : list SupplierItem) (workflow : pystr) (db : Store)
  : Store * list Z * list (list KBMatch * MatchResult) :=
  let '(db', new_item_ids, _) :=
    add_items add_fault clock extracted_items (Some workflow) None db in
  (db', new_item_ids, match_loop find_fault supplier_bom db' 0 extracted_items).

Definition match_items_with_knowledge_base (add_fault : Fault)
    (find_fault : nat -> Fault) (clock : nat -> nat)
    (extracted_items : list Item) (supplier_bom : list SupplierItem)
    (workflow : pystr) (db : Store) : list MatchResult :=
  map snd
    (snd (match_trace add_fault find_fault clock extracted_items supplier_bom
            workflow db)).

(** *** The supplier score as the specification words it *)

(** Case-folded whitespace tokens. *)
Definition tokens (s : pystr) : list pystr := split (lower s).

Definition confidence_spec (item : Item) (supplier : SupplierItem) : float :=
  let common :=
    length (intersection (set_of (tokens (qa_material_name item)))
                         (set_of (tokens (description supplier)))) in
  if present (part_number item) && present (sup_part_number supplier)
     && opt_eqb (part_number item) (sup_part_number supplier)
  then 0.95%float
  else if Nat.ltb 0 common then
    py_min 0.9%float
      (truediv common
         (Nat.max (length (tokens (qa_material_name item)))
                  (length (tokens (description supplier)))) * 0.8)%float
  else 0%float.

End ItemMatcher.

(* ================================================================== *)
(** ** Notions used in the statements *)
(* ================================================================== *)

(** A word: a non-empty run of characters none of which is whitespace. *)
Definition word (w : pystr) : Prop :=
  w <> [] /\ Forall (fun c => isspace c = false) w.

(** A string that is empty or starts with whitespace ends the word before it. *)
Definition boundary (t : pystr) : Prop :=
  match t with
  | [] => True
  | d :: _ => isspace d = true
  end.

(** The characters the Normalizer lets through and leaves as they are. *)
Definition settled (c : ascii) : Prop := keep_char c = true /\ lower_char c = c.

(** A quantity that is the number zero. *)
Definition is_zero (v : JValue) : bool :=
  match v with
  | JInt z => Z.eqb z 0
  | JFloat f => PrimFloat.eqb f 0%float
  | _ => false
  end.

(** The dictionary with [key] set to [null]. *)
Definition without (key : string) (material_data : dict) : dict :=
  (str key, JNull) :: material_data.

(** A material of the demo document that is also flagged obsolete. *)
Definition bolt_flagged_obsolete : dict :=
  [ (str "name", JStr (str "M6x20mm Hex Bolt"));
    (str "part_number", JStr (str "BOLT-M6-20-SS"));
    (str "quantity", JInt 4);
    (str "consumable_jigs_tools", JBool true);
    (str "specifications", JDict [ (str "size", JStr (str "M6x20mm")) ]);
    (str "obsolete_pn", JBool true) ].

(** A consumable with a part number and quantity 0. *)
Definition bolt_without_quantity : dict :=
  [ (str "part_number", JStr (str "BOLT-M6-20-SS"));
    (str "quantity", JInt 0);
    (str "consumable_jigs_tools", JBool true) ].

(** A material that has exactly the given flags. *)
Definition material_with (f : ExtractionAgent.Flags) : dict :=
  [ (str "consumable_jigs_tools", JBool (ExtractionAgent.consumable_jigs_tools f));
    (str "part_number", JBool (ExtractionAgent.has_part_number f));
    (str "quantity", JBool (ExtractionAgent.has_quantity f));
    (str "specifications", JBool (ExtractionAgent.has_specifications f));
    (str "vendor_name", JBool (ExtractionAgent.has_vendor f));
    (str "kit_available", JBool (ExtractionAgent.kit_available f));
    (str "pn_mismatch", JBool (ExtractionAgent.pn_mismatch f));
    (str "obsolete_pn", JBool (ExtractionAgent.obsolete_pn f)) ].




(** A chunk whose second material has no usable confidence score. *)
Definition null_score : list (option (list dict)) :=
  [ Some [ [ (str "name", JStr (str "washer")) ];
           [ (str "name", JStr (str "nut"));
             (str "confidence_score", JNull) ] ] ].

(** The place of a float that is not NaN in the order of the floats: its
    class (negative infinity, negative, zero, positive, positive infinity),
    then exponent and mantissa, compared lexicographically. *)
Definition rank (f : spec_float) : Z * Z * Z :=
  match f with
  | S754_zero _ => (0, 0, 0)
  | S754_infinity true => (-2, 0, 0)
  | S754_infinity false => (2, 0, 0)
  | S754_finite true m e => (-1, - e, Zneg m)
  | S754_finite false m e => (1, e, Zpos m)
  | S754_nan => (0, 0, 0)
  end%Z.

Definition lex_lt (a b : Z * Z * Z) : Prop :=
  let '(a1, a2, a3) := a in
  let '(b1, b2, b3) := b in
  (a1 < b1 \/ (a1 = b1 /\ (a2 < b2 \/ (a2 = b2 /\ a3 < b3))))%Z.

Definition is_number (f : spec_float) : Prop := f <> S754_nan.



(** Both part numbers are non-empty and equal. *)
Definition same_part_number (item : KnowledgeBase.Item)
    (supplier : ItemMatcher.SupplierItem) : bool :=
  ItemMatcher.present (KnowledgeBase.part_number item)
  && ItemMatcher.present (ItemMatcher.sup_part_number supplier)
  && ItemMatcher.opt_eqb (KnowledgeBase.part_number item)
       (ItemMatcher.sup_part_number supplier).

(** The candidates of the supplier items that score above 0.3, in the order
    of the supplier BOM. *)
Definition scored_candidates (item : KnowledgeBase.Item)
    (supplier_bom : list ItemMatcher.SupplierItem) : list ItemMatcher.Candidate :=
  map (fun s => ItemMatcher.candidate_of (ItemMatcher.confidence_spec item s) s)
    (filter (fun s => PrimFloat.ltb 0.3%float (ItemMatcher.confidence_spec item s))
       supplier_bom).

(** A candidate of [l] that no candidate of [l] outscores. *)
Definition highest (A : Type) (key : A -> float) (l : list A) (m : A) : Prop :=
  In m l /\ forall x, In x l -> PrimFloat.ltb (key m) (key x) = false.

(** What a best match reports, key by key. *)
Definition reports (b : ItemMatcher.BestMatch) (row_id : option Z)
    (description : pystr) (part : option pystr) (confidence : float)
    (type : KnowledgeBase.MatchType) (source : ItemMatcher.BestSource) : Prop :=
  ItemMatcher.bm_id b = row_id /\
  ItemMatcher.bm_supplier_description b = description /\
  ItemMatcher.bm_supplier_part_number b = part /\
  ItemMatcher.bm_confidence_score b = confidence /\
  ItemMatcher.bm_match_type b = type /\
  ItemMatcher.bm_match_source b = source.

(** The first candidate of type EXACT of a list. *)
Definition first_exact (kb_matches : list KnowledgeBase.KBMatch)
    (k : KnowledgeBase.KBMatch) : Prop :=
  exists before after,
    kb_matches = before ++ k :: after /\
    KnowledgeBase.kb_match_type k = KnowledgeBase.Exact /\
    Forall (fun x => KnowledgeBase.kb_match_type x <> KnowledgeBase.Exact) before.

(** The rows of [items] whose normalized name is [q], in rowid order. *)
Definition same_name_rows (q : pystr) (db : KnowledgeBase.Store)
  : list KnowledgeBase.ItemRow :=
  filter (fun r => PyStr.eqb (KnowledgeBase.normalized_name r) q)
    (KnowledgeBase.items db).

(** No row is older than a later one. *)
Definition newest_first (l : list KnowledgeBase.ItemRow) : Prop :=
  StronglySorted
    (fun a b => KnowledgeBase.created_at b <= KnowledgeBase.created_at a) l.

(** The rows behind the dictionaries [find_similar_items] returns. *)
Definition rows_found (fault : KnowledgeBase.Fault) (material : option pystr)
    (db : KnowledgeBase.Store) : list KnowledgeBase.ItemRow :=
  map KnowledgeBase.kb_row
    (fst (KnowledgeBase.find_similar_items fault material db)).

(** The store a call of [add_items] leaves, and the ids it returns. *)
Definition store_after (fault : KnowledgeBase.Fault) (clock : nat -> nat)
    (batch : list KnowledgeBase.Item) (workflow document : option pystr)
    (db : KnowledgeBase.Store) : KnowledgeBase.Store :=
  fst (fst (KnowledgeBase.add_items fault clock batch workflow document db)).

Definition ids_returned (fault : KnowledgeBase.Fault) (clock : nat -> nat)
    (batch : list KnowledgeBase.Item) (workflow document : option pystr)
    (db : KnowledgeBase.Store) : list Z :=
  snd (fst (KnowledgeBase.add_items fault clock batch workflow document db)).

Definition error_logged (fault : KnowledgeBase.Fault) (clock : nat -> nat)
    (batch : list KnowledgeBase.Item) (workflow document : option pystr)
    (db : KnowledgeBase.Store) : bool :=
  snd (KnowledgeBase.add_items fault clock batch workflow document db).

(** The row [add_items] writes for the item at position [i] of the batch:
    it is in the store afterwards, carries the [i]-th id returned, and holds
    the item, its normalized name and the workflow. *)
Definition row_of_position (db' : KnowledgeBase.Store) (ids : list Z)
    (workflow : option pystr) (i : nat) (item : KnowledgeBase.Item)
    (row : KnowledgeBase.ItemRow) : Prop :=
  In row (KnowledgeBase.items db') /\
  nth_error ids i = Some (KnowledgeBase.id row) /\
  KnowledgeBase.source_item row = item /\
  KnowledgeBase.normalized_name row
  = normalize_material_name (Some (KnowledgeBase.qa_material_name item)) /\
  KnowledgeBase.workflow_id row = workflow.

(** *** Sample data *)

(** An item that has a name and nothing else. *)
Definition named (n : string) : KnowledgeBase.Item :=
  {| KnowledgeBase.qa_material_name := str n;
     KnowledgeBase.part_number := None;
     KnowledgeBase.vendor_name := None;
     KnowledgeBase.qa_classification_label := None;
     KnowledgeBase.qa_confidence_level := None;
     KnowledgeBase.qc_process_step := None;
     KnowledgeBase.unit_of_measure := None;
     KnowledgeBase.quantity := None;
     KnowledgeBase.consumable_jigs_tools := false;
     KnowledgeBase.qa_excerpt := [];
     KnowledgeBase.category := [] |}.

Definition wf1 : option pystr := Some (str "wf-1").

(** One second passes between two INSERTs. *)
Definition ticking (k : nat) : nat := k.

(** A batch of two materials. *)
Definition two_materials : list KnowledgeBase.Item :=
  [named "Hex Bolt"; named "Washer"].

(** All INSERTs of a call happen within the second [t]. *)
Definition within_second (t : nat) (k : nat) : nat := t.

(** A batch of six materials of the same name, and the empty store after
    it was inserted by one call, within one second. *)
Definition six_bolts : list KnowledgeBase.Item :=
  [named "bolt"; named "bolt"; named "bolt"; named "bolt"; named "bolt";
   named "bolt"].

Definition six_bolts_store : KnowledgeBase.Store :=
  store_after KnowledgeBase.NoFault (within_second 0) six_bolts wf1 None
    KnowledgeBase.empty_store.

(** The row with key [n] written for a "bolt" in the second [t]. *)
Definition bolt_row (n : Z) (t : nat) : KnowledgeBase.ItemRow :=
  {| KnowledgeBase.id := n;
     KnowledgeBase.source_item := named "bolt";
     KnowledgeBase.normalized_name := str "bolt";
     KnowledgeBase.created_at := t;
     KnowledgeBase.updated_at := t;
     KnowledgeBase.workflow_id := wf1;
     KnowledgeBase.source_document := None |}.

(** The empty store after six calls, one second apart, each inserting one
    "bolt". *)
Definition six_calls_store : KnowledgeBase.Store :=
  fold_left
    (fun db t =>
       store_after KnowledgeBase.NoFault (within_second t) [named "bolt"] wf1
         None db)
    [0; 1; 2; 3; 4; 5] KnowledgeBase.empty_store.

(** The empty store after a material whose name is punctuation only. *)
Definition dashes_store : KnowledgeBase.Store :=
  store_after KnowledgeBase.NoFault ticking [named "---"] wf1 None
    KnowledgeBase.empty_store.

Definition dashes_row : KnowledgeBase.ItemRow :=
  {| KnowledgeBase.id := 1;
     KnowledgeBase.source_item := named "---";
     KnowledgeBase.normalized_name := [];
     KnowledgeBase.created_at := 0;
     KnowledgeBase.updated_at := 0;
     KnowledgeBase.workflow_id := wf1;
     KnowledgeBase.source_document := None |}.

(** The empty store after one material. *)
Definition bolt_store : KnowledgeBase.Store :=
  store_after KnowledgeBase.NoFault ticking [named "bolt"] wf1 None
    KnowledgeBase.empty_store.

(** A recorded match of the item [original]. *)
Definition match_of (n : Z) (original : Z) : KnowledgeBase.MatchRow :=
  {| KnowledgeBase.mr_id := n;
     KnowledgeBase.original_item_id := Some original;
     KnowledgeBase.matched_item_id := None;
     KnowledgeBase.mr_confidence_score := None;
     KnowledgeBase.mr_match_type := None;
     KnowledgeBase.mr_supplier_description := None;
     KnowledgeBase.mr_supplier_part_number := None;
     KnowledgeBase.mr_reasoning := None;
     KnowledgeBase.mr_created_at := 0;
     KnowledgeBase.mr_workflow_id := None |}.

(** A store of four items, one of them matched twice. *)
Definition four_items_store : KnowledgeBase.Store :=
  let db :=
    store_after KnowledgeBase.NoFault ticking
      [named "bolt"; named "nut"; named "washer"; named "rivet"] wf1 None
      KnowledgeBase.empty_store in
  {| KnowledgeBase.items := KnowledgeBase.items db;
     KnowledgeBase.item_matches := [match_of 1 2; match_of 2 2];
     KnowledgeBase.items_seq := KnowledgeBase.items_seq db |}.

(** The trace of a batch, and the ids its insert returned. *)
Definition trace_of (clock : nat -> nat) (batch : list KnowledgeBase.Item)
    (supplier_bom : list ItemMatcher.SupplierItem) (workflow : pystr)
    (db : KnowledgeBase.Store)
  : list (list KnowledgeBase.KBMatch * ItemMatcher.MatchResult) :=
  snd (ItemMatcher.match_trace KnowledgeBase.NoFault
         (fun _ => KnowledgeBase.NoFault) clock batch supplier_bom workflow db).

Definition new_item_ids_of (clock : nat -> nat) (batch : list KnowledgeBase.Item)
    (supplier_bom : list ItemMatcher.SupplierItem) (workflow : pystr)
    (db : KnowledgeBase.Store) : list Z :=
  snd (fst (ItemMatcher.match_trace KnowledgeBase.NoFault
              (fun _ => KnowledgeBase.NoFault) clock batch supplier_bom
              workflow db)).

(** The demo material, as the matcher receives it. *)
Definition hex_bolt : KnowledgeBase.Item :=
  {| KnowledgeBase.qa_material_name := str "M6x20mm Hex Bolt";
     KnowledgeBase.part_number := Some (str "BOLT-M6-20-SS");
     KnowledgeBase.vendor_name := None;
     KnowledgeBase.qa_classification_label := None;
     KnowledgeBase.qa_confidence_level := None;
     KnowledgeBase.qc_process_step := None;
     KnowledgeBase.unit_of_measure := Some (str "pieces");
     KnowledgeBase.quantity := Some 4%float;
     KnowledgeBase.consumable_jigs_tools := true;
     KnowledgeBase.qa_excerpt := [];
     KnowledgeBase.category := str "fasteners" |}.

Definition stainless_bolt : ItemMatcher.SupplierItem :=
  {| ItemMatcher.description := str "hex bolt stainless";
     ItemMatcher.sup_part_number := Some (str "BOLT-M6-20-SS") |}.

(** Three common words out of eight. *)
Definition eight_words : ItemMatcher.SupplierItem :=
  {| ItemMatcher.description := str "a b c p q r s t";
     ItemMatcher.sup_part_number := None |}.

(** The characters of a list of sections, separators not counted. *)
Definition total_length (sections : list pystr) : nat :=
  fold_right (fun s n => length s + n) 0 sections.

(** The sections each chunk is joined from: the loop of
    [_split_into_extraction_chunks] without the joining. *)
Fixpoint chunk_groups (max_chunk_size : nat) (sections : list pystr)
    (current_chunk : list pystr) (current_length : nat) : list (list pystr) :=
  match sections with
  | [] =>
      match current_chunk with
      | [] => []
      | _ :: _ => [current_chunk]
      end
  | section :: rest =>
      if Nat.ltb max_chunk_size (current_length + length section)
         && match current_chunk with [] => false | _ :: _ => true end
      then current_chunk :: chunk_groups max_chunk_size rest [section] (length section)
      else chunk_groups max_chunk_size rest (current_chunk ++ [section])
             (current_length + length section)
  end.

(** The materials whose deduplication key is not among [keys]. *)
Definition not_seen (keys : list pystr)
    (materials : list ExtractionAgent.ExtractedMaterial)
  : list ExtractionAgent.ExtractedMaterial :=
  filter (fun m => negb (mem (ExtractionAgent.name_key m) keys)) materials.

(** The sum of the counts of a breakdown. *)
Definition breakdown_total
    (breakdown : list (ExtractionAgent.QAClassificationLabel * nat)) : nat :=
  fold_right (fun entry n => snd entry + n) 0 breakdown.

(** How often a label occurs among the materials. *)
Definition occurrences (l : ExtractionAgent.QAClassificationLabel)
    (materials : list ExtractionAgent.ExtractedMaterial) : nat :=
  ExtractionAgent.count_if
    (fun m => if ExtractionAgent.label_eq_dec
                   (ExtractionAgent.classification_label m) l
              then true else false)
    materials.

(** The count a breakdown holds for a label, 0 when it has no entry. *)
Fixpoint breakdown_get (l : ExtractionAgent.QAClassificationLabel)
    (breakdown : list (ExtractionAgent.QAClassificationLabel * nat)) : nat :=
  match breakdown with
  | [] => 0
  | (k, n) :: rest =>
      if ExtractionAgent.label_eq_dec k l then n else breakdown_get l rest
  end.

(** A string of whitespace only. *)
Definition blank (s : pystr) : Prop := Forall (fun c => isspace c = true) s.

(** The largest key table [items] ever had, as far as the store knows. *)
Definition high_water (db : KnowledgeBase.Store) : Z :=
  Z.max (KnowledgeBase.items_seq db)
    (KnowledgeBase.max_id (KnowledgeBase.items db)).

(** Every row holds the Normalizer's output for its material name. *)
Definition names_normalized (db : KnowledgeBase.Store) : Prop :=
  forall r, In r (KnowledgeBase.items db) ->
    KnowledgeBase.normalized_name r
    = normalize_material_name (Some (KnowledgeBase.material_name r)).

(** The result [match_items_with_knowledge_base] builds for an item when
    the store gives no candidate: the supplier BOM decides alone. *)
Definition supplier_only (item : KnowledgeBase.Item)
    (supplier_bom : list ItemMatcher.SupplierItem) : ItemMatcher.MatchResult :=
  let supplier_matches := ItemMatcher._find_supplier_matches item supplier_bom in
  let best_match := ItemMatcher._select_best_match item [] supplier_matches in
  {| ItemMatcher.res_item := item;
     ItemMatcher.knowledge_base_matches := 0;
     ItemMatcher.supplier_matches_count := length supplier_matches;
     ItemMatcher.has_previous_match := false;
     ItemMatcher.match_source :=
       match supplier_matches with
       | [] => ItemMatcher.no_match
       | _ :: _ => ItemMatcher.supplier_bom
       end;
     ItemMatcher.res_confidence_score :=
       match best_match with
       | Some b => ItemMatcher.bm_confidence_score b
       | None => 0%float
       end;
     ItemMatcher.res_supplier_description :=
       match best_match with
       | Some b => ItemMatcher.bm_supplier_description b
       | None => []
       end;
     ItemMatcher.res_supplier_part_number :=
       match best_match with
       | Some b => ItemMatcher.bm_supplier_part_number b
       | None => Some []
       end;
     ItemMatcher.res_reasoning :=
       ItemMatcher._generate_match_reasoning [] supplier_matches best_match |}.

(** An environment in which every call to the store fails at once. *)
Definition store_down (i : nat) : KnowledgeBase.Fault := KnowledgeBase.RaiseAt 0.

(** An environment in which the store opens and every SELECT fails. *)
Definition select_fails (i : nat) : KnowledgeBase.Fault := KnowledgeBase.RaiseAt 1.

(** Whether the lookup of a name logs an error. *)
Definition lookup_fails (fault : KnowledgeBase.Fault) (material : pystr)
    (db : KnowledgeBase.Store) : bool :=
  snd (KnowledgeBase.find_similar_items fault (Some material) db).

(** The result for a second "bolt" matched against the store that already
    holds one. *)
Definition bolt_result : ItemMatcher.MatchResult :=
  snd (ItemMatcher.match_one (fun _ => KnowledgeBase.NoFault) [stainless_bolt]
         (store_after KnowledgeBase.NoFault ticking [named "bolt"]
            (Some (str "wf-2")) None bolt_store)
         0 (named "bolt")).

(* ================================================================== *)
(** * Properties *)
(* ================================================================== *)

(** ** Characters and strings *)

Ltac each_char c := destruct c as [[] [] [] [] [] [] [] []]; vm_compute.

Lemma lower_char_idempotent (c : ascii) : lower_char (lower_char c) = lower_char c.
Proof. each_char c; reflexivity. Qed.

Lemma str_eqb_eq (s t : pystr) : PyStr.eqb s t = true <-> s = t.
Proof.
  revert t; induction s as [|c s IH]; intros [|d t]; simpl; split;
    try congruence; try reflexivity.
  - intros H. apply andb_true_iff in H as [H1 H2].
    apply Ascii.eqb_eq in H1. apply IH in H2. congruence.
  - intros H. injection H as -> ->. apply andb_true_iff. split.
    + apply Ascii.eqb_refl.
    + now apply IH.
Qed.

Lemma str_eqb_refl (s : pystr) : PyStr.eqb s s = true.
Proof. now apply str_eqb_eq. Qed.

Lemma mem_In (x : pystr) (l : list pystr) : mem x l = true <-> In x l.
Proof.
  unfold mem. rewrite existsb_exists. split.
  - intros (y & Hy & E). apply str_eqb_eq in E. now subst.
  - intros H. exists x. split; [assumption | apply str_eqb_refl].
Qed.

Lemma split_unfold (c : ascii) (s : pystr) :
  split (c :: s) =
  if isspace c then split s
  else match s with
       | [] => [[c]]
       | d :: _ =>
           if isspace d then [c] :: split s
           else match split s with
                | w :: ws => (c :: w) :: ws
                | [] => [[c]]
                end
       end.
Proof. reflexivity. Qed.

Lemma split_word_then (w t : pystr) (c : ascii) :
  isspace c = false -> Forall (fun d => isspace d = false) w -> boundary t ->
  split (c :: w ++ t) = (c :: w) :: split t.
Proof.
  revert c. induction w as [|e w IH]; intros c Hc Hw Ht.
  - simpl app. rewrite split_unfold, Hc. destruct t as [|d t']; [reflexivity|].
    simpl in Ht. rewrite Ht. reflexivity.
  - inversion Hw as [|? ? He Hw']; subst.
    rewrite <- app_comm_cons, split_unfold, Hc, He.
    rewrite (IH e He Hw' Ht). reflexivity.
Qed.

(** Every element of [split s] is a word made of characters of [s]. *)
Lemma split_words (s : pystr) :
  Forall (fun w => word w /\ forall c, In c w -> In c s) (split s).
Proof.
  induction s as [|c s IH]; [constructor|].
  assert (Hweak : Forall (fun w => word w /\ forall d, In d w -> In d (c :: s))
                         (split s)).
  { eapply Forall_impl; [|exact IH]. intros w [Hw Hin]. split; [assumption|].
    intros d Hd. right. now apply Hin. }
  rewrite split_unfold. destruct (isspace c) eqn:Hc; [assumption|].
  assert (Hone : word [c] /\ forall d, In d [c] -> In d (c :: s)).
  { split; [split; [discriminate | now constructor]|].
    intros d [<-|[]]. now left. }
  destruct s as [|e s']; [now constructor|].
  destruct (isspace e) eqn:He; [now constructor|].
  destruct (split (e :: s')) as [|w ws]; [now constructor|].
  inversion Hweak as [|? ? [[Hne Hsp] Hin] Hrest]; subst.
  constructor; [|assumption]. split.
  - split; [discriminate | now constructor].
  - intros d [<-|Hd]; [now left | now apply Hin].
Qed.

Lemma split_join (ws : list pystr) :
  Forall word ws -> split (join space ws) = ws.
Proof.
  induction ws as [|w ws IH]; intros H; [reflexivity|].
  inversion H as [|? ? [Hne Hsp] Hws]; subst.
  destruct w as [|c w]; [congruence|]. inversion Hsp as [|? ? Hc Hw]; subst.
  destruct ws as [|w2 ws'].
  - simpl join. rewrite <- (app_nil_r w) at 1.
    now rewrite split_word_then by (simpl; auto).
  - change (join space ((c :: w) :: w2 :: ws'))
      with (c :: w ++ " "%char :: join space (w2 :: ws')).
    rewrite split_word_then by (simpl; auto). f_equal.
    rewrite split_unfold. change (isspace " "%char) with true. cbv iota.
    now apply IH.
Qed.

Lemma lstrip_incl (s : pystr) (c : ascii) : In c (lstrip s) -> In c s.
Proof.
  induction s as [|d s IH]; simpl; [tauto|].
  destruct (isspace d); [intros H; right; now apply IH | tauto].
Qed.

Lemma strip_incl (s : pystr) (c : ascii) : In c (strip s) -> In c s.
Proof.
  unfold strip, rstrip. intros H. apply in_rev in H. apply lstrip_incl in H.
  apply in_rev in H. now apply lstrip_incl.
Qed.

Lemma lstrip_fixed (c : ascii) (s : pystr) :
  isspace c = false -> lstrip (c :: s) = c :: s.
Proof. intros H. simpl. now rewrite H. Qed.

Lemma join_ends (w : pystr) (ws : list pystr) :
  Forall word (w :: ws) ->
  (exists c t, join space (w :: ws) = c :: t /\ isspace c = false) /\
  (exists t c, join space (w :: ws) = t ++ [c] /\ isspace c = false).
Proof.
  revert w. induction ws as [|w2 ws IH]; intros w H;
    inversion H as [|? ? [Hne Hsp] Hws]; subst.
  - simpl. split.
    + destruct w as [|c t]; [congruence|]. exists c, t.
      inversion Hsp; subst; auto.
    + destruct (exists_last Hne) as (t & c & ->). exists t, c. split; [reflexivity|].
      rewrite Forall_forall in Hsp. apply Hsp. apply in_or_app. right. now left.
  - destruct (IH w2 Hws) as [_ (t & c & E & Hc)]. split.
    + destruct w as [|d u]; [congruence|]. simpl.
      eexists d, _. split; [reflexivity|]. inversion Hsp; subst; auto.
    + change (join space (w :: w2 :: ws))
        with (w ++ space ++ join space (w2 :: ws)).
      rewrite E. exists (w ++ space ++ t), c. split; [|assumption].
      now rewrite <- !app_assoc.
Qed.

Lemma strip_join (ws : list pystr) :
  Forall word ws -> strip (join space ws) = join space ws.
Proof.
  destruct ws as [|w ws]; intros H; [reflexivity|].
  destruct (join_ends H) as [(c & t & E & Hc) (t' & c' & E' & Hc')].
  unfold strip, rstrip. rewrite E, (@lstrip_fixed c t Hc), <- E, E'.
  rewrite rev_app_distr. simpl. rewrite Hc'.
  change (c' :: rev t') with (rev [c'] ++ rev t').
  now rewrite <- rev_app_distr, rev_involutive.
Qed.

Lemma Forall_join (P : ascii -> Prop) (sep : pystr) (ws : list pystr) :
  Forall P sep -> Forall (Forall P) ws -> Forall P (join sep ws).
Proof.
  intros Hsep. induction ws as [|w ws IH]; intros H; [constructor|].
  inversion H; subst. simpl. destruct ws; [assumption|].
  apply Forall_app. split; [assumption|]. apply Forall_app. split; auto.
Qed.

Lemma lower_settled (s : pystr) : Forall settled s -> lower s = s.
Proof.
  induction 1 as [|c s [_ Hc] _ IH]; [reflexivity|].
  unfold lower in *. simpl. now rewrite Hc, IH.
Qed.

Lemma filter_settled (s : pystr) : Forall settled s -> filter keep_char s = s.
Proof.
  induction 1 as [|c s [Hc _] _ IH]; [reflexivity|].
  simpl. now rewrite Hc, IH.
Qed.

(** The shape of every output of the Normalizer: words of settled
    characters, joined by single spaces. *)
Lemma normal_form (x : option pystr) :
  exists ws, normalize_material_name x = join space ws /\
             Forall word ws /\ Forall (Forall settled) ws.
Proof.
  destruct x as [[|c s]|]; try (exists []; repeat split; constructor).
  unfold normalize_material_name.
  set (t := filter keep_char (strip (lower (c :: s)))).
  exists (split t). split; [reflexivity|].
  pose proof (split_words t) as H. split.
  - eapply Forall_impl; [|exact H]. now intros w [Hw _].
  - eapply Forall_impl; [|exact H]. intros w [_ Hin].
    apply Forall_forall. intros d Hd. apply Hin in Hd. unfold t in Hd.
    apply filter_In in Hd as [Hd Hkeep]. split; [assumption|].
    apply strip_incl in Hd. unfold lower in Hd.
    apply in_map_iff in Hd as (d0 & <- & _). apply lower_char_idempotent.
Qed.

Lemma normalize_spec_fixed (ws : list pystr) :
  Forall word ws -> Forall (Forall settled) ws ->
  normalize_spec (join space ws) = join space ws.
Proof.
  intros Hw Hs. unfold normalize_spec.
  assert (Hall : Forall settled (join space ws)).
  { apply Forall_join; [|assumption]. repeat constructor. }
  now rewrite (lower_settled Hall), (strip_join Hw), (filter_settled Hall),
    (split_join Hw).
Qed.

Lemma normalize_is_spec (s : pystr) :
  normalize_material_name (Some s) = normalize_spec s.
Proof. destruct s; reflexivity. Qed.


(** ** Classifier *)

Import ExtractionAgent.

Lemma classify_table (material_data : dict) :
  outcome_of (_classify_material material_data)
  = classify_spec (flags_of material_data).
Proof.
  unfold _classify_material, classify_spec, flags_of, decision_table,
    first_match, outcome_of.
  cbn [consumable_jigs_tools has_part_number has_quantity has_specifications
       has_vendor kit_available pn_mismatch obsolete_pn].
  generalize (truthy (dict_get material_data (str "consumable_jigs_tools")
                        (JBool false))),
             (truthy (dict_get_opt material_data (str "part_number"))),
             (truthy (dict_get_opt material_data (str "quantity"))),
             (truthy (dict_get_opt material_data (str "specifications"))),
             (truthy (dict_get_opt material_data (str "vendor_name"))),
             (truthy (dict_get material_data (str "kit_available") (JBool false))),
             (truthy (dict_get material_data (str "pn_mismatch") (JBool false))),
             (truthy (dict_get material_data (str "obsolete_pn") (JBool false))).
  intros [] [] [] [] [] [] [] []; reflexivity.
Qed.

Lemma classify_spec_in_ten (f : Flags) : In (classify_spec f) ten_outcomes.
Proof.
  destruct f as [[] [] [] [] [] [] [] []]; vm_compute; tauto.
Qed.

(** C2. The classifier is the decision table read top down: its outcome is
    the outcome of the first rule whose condition holds, hence one of the ten
    (pairwise different) outcomes, a function of the flags alone, and rule 1
    whenever rule 1 applies, also when rule 5 applies as well.  Every
    combination of the eight flags is the flags of some material. *)
Theorem classify_first_matching_rule :
  forall material_data : dict,
    let f := flags_of material_data in
    let outcome := outcome_of (_classify_material material_data) in
    outcome = classify_spec f /\
    In outcome ten_outcomes /\
    NoDup ten_outcomes /\
    (forall g : Flags, flags_of (material_with g) = g) /\
    (forall other : dict,
       flags_of other = f -> _classify_material other = _classify_material material_data) /\
    (consumable_jigs_tools f && has_part_number f && has_quantity f
       && has_specifications f = true ->
     obsolete_pn f = true ->
     outcome = (CONSUMABLE_WITH_PN_SPEC_QTY, HIGH, GREEN)).
Proof.
  intros d f outcome. subst outcome. rewrite classify_table. fold f.
  split; [reflexivity|]. split; [apply classify_spec_in_ten|]. split.
  - unfold ten_outcomes. simpl.
    repeat (constructor; [simpl; intuition discriminate|]). constructor.
  - split; [now intros []|]. split.
    + intros other E. unfold f in E.
      pose proof (f_equal consumable_jigs_tools E) as E1.
      pose proof (f_equal has_part_number E) as E2.
      pose proof (f_equal has_quantity E) as E3.
      pose proof (f_equal has_specifications E) as E4.
      pose proof (f_equal has_vendor E) as E5.
      pose proof (f_equal kit_available E) as E6.
      pose proof (f_equal pn_mismatch E) as E7.
      pose proof (f_equal obsolete_pn E) as E8.
      cbn [flags_of consumable_jigs_tools has_part_number has_quantity
           has_specifications has_vendor kit_available pn_mismatch obsolete_pn]
        in E1, E2, E3, E4, E5, E6, E7, E8.
      unfold _classify_material.
      now rewrite E1, E2, E3, E4, E5, E6, E7, E8.
    + intros H1 _. unfold classify_spec, decision_table, first_match.
      now rewrite H1.
Qed.

Lemma classify_first_matching_rule_witness :
  outcome_of (_classify_material bolt_flagged_obsolete)
  = (CONSUMABLE_WITH_PN_SPEC_QTY, HIGH, GREEN).
Proof.
  apply (proj2 (proj2 (proj2 (proj2 (proj2
           (classify_first_matching_rule bolt_flagged_obsolete))))));
    reflexivity.
Defined.

Lemma truthy_without (key : string) (d : dict) :
  truthy (dict_get_opt (without key d) (str key)) = false.
Proof.
  unfold without, dict_get_opt. cbn [dict_get]. now rewrite str_eqb_refl.
Qed.

Lemma get_without_other (key other : string) (d : dict) (default : JValue) :
  PyStr.eqb (str key) (str other) = false ->
  dict_get (without key d) (str other) default = dict_get d (str other) default.
Proof. intros H. unfold without. cbn [dict_get]. now rewrite H. Qed.

(** C10. Presence is truthiness of the raw value: a zero quantity, an empty
    part number, an empty specifications mapping and an empty vendor string
    classify as the same material with that attribute null; so a consumable
    with a non-empty part number and quantity 0 is CONSUMABLE_NO_QTY, MEDIUM,
    AMBER. *)
Theorem classify_zero_quantity_as_absent
    (material_data : dict) (pn : pystr)
    (Hconsumable :
       truthy (dict_get material_data (str "consumable_jigs_tools") (JBool false))
       = true)
    (Hpn : dict_get_opt material_data (str "part_number") = JStr pn)
    (Hpn_nonempty : pn <> [])
    (Hqty : is_zero (dict_get_opt material_data (str "quantity")) = true) :
  outcome_of (_classify_material material_data)
  = (CONSUMABLE_NO_QTY, MEDIUM, AMBER) /\
  (forall d : dict,
     is_zero (dict_get_opt d (str "quantity")) = true ->
     _classify_material d = _classify_material (without "quantity" d)) /\
  (forall d : dict,
     dict_get_opt d (str "part_number") = JStr [] ->
     _classify_material d = _classify_material (without "part_number" d)) /\
  (forall d : dict,
     dict_get_opt d (str "specifications") = JDict [] ->
     _classify_material d = _classify_material (without "specifications" d)) /\
  (forall d : dict,
     dict_get_opt d (str "vendor_name") = JStr [] ->
     _classify_material d = _classify_material (without "vendor_name" d)).
Proof.
  assert (Hzero : forall v, is_zero v = true -> truthy v = false).
  { intros [] H; simpl in *; try discriminate; now rewrite H. }
  split.
  - unfold outcome_of, _classify_material.
    rewrite Hconsumable, Hpn, (Hzero _ Hqty).
    destruct pn; [congruence|]. reflexivity.
  - repeat split; intros d H; unfold _classify_material;
      rewrite truthy_without; unfold dict_get_opt in *;
      rewrite !get_without_other by reflexivity;
      try rewrite (Hzero _ H); try rewrite H; reflexivity.
Qed.

Lemma classify_zero_quantity_as_absent_witness :
  outcome_of (_classify_material bolt_without_quantity)
  = (CONSUMABLE_NO_QTY, MEDIUM, AMBER).
Proof.
  apply (proj1 (@classify_zero_quantity_as_absent bolt_without_quantity
                  (str "BOLT-M6-20-SS") eq_refl eq_refl
                  ltac:(discriminate) eq_refl)).
Defined.

(** Each of the ten outcomes is the outcome of some material. *)
Example every_outcome_is_produced :
  forall o : Outcome, In o ten_outcomes -> exists f : Flags, classify_spec f = o.
Proof.
  intros o H. simpl in H.
  repeat destruct H as [<-|H]; try contradiction.
  - now exists (mkFlags true true true true false false false false).
  - now exists (mkFlags true true true false false false false false).
  - now exists (mkFlags true true false false false false false false).
  - now exists (mkFlags true false false false false false false false).
  - now exists (mkFlags false false false false false false false true).
  - now exists (mkFlags false false false false false false true false).
  - now exists (mkFlags false false false false true true false false).
  - now exists (mkFlags false false false false true false false false).
  - now exists (mkFlags false false false false false true false false).
  - now exists (mkFlags false false false false false false false false).
Qed.

(** ** Deduplication of extracted materials *)

Lemma mem_false (x : pystr) (l : list pystr) : mem x l = false <-> ~ In x l.
Proof.
  rewrite <- mem_In. destruct (mem x l); split; congruence.
Qed.

Lemma dedup_loop_In (materials : list ExtractedMaterial) (seen : list pystr)
    (m : ExtractedMaterial) :
  In m (dedup_loop materials seen) ->
  In m materials /\ ~ In (name_key m) seen.
Proof.
  revert seen. induction materials as [|a rest IH]; intros seen; simpl; [tauto|].
  destruct (mem (name_key a) seen) eqn:E.
  - intros H. apply IH in H. tauto.
  - intros [<-|H].
    + split; [now left | now apply mem_false].
    + apply IH in H as [H1 H2]. split; [now right|].
      intros H3. apply H2. now right.
Qed.

Lemma dedup_loop_NoDup (materials : list ExtractedMaterial) (seen : list pystr) :
  NoDup (map name_key (dedup_loop materials seen)).
Proof.
  revert seen. induction materials as [|a rest IH]; intros seen; simpl;
    [constructor|].
  destruct (mem (name_key a) seen); [apply IH|].
  simpl. constructor; [|apply IH].
  intros H. apply in_map_iff in H as (m & E & H).
  apply dedup_loop_In in H as [_ H]. apply H. left. congruence.
Qed.











(** A null confidence score: the chunk's own materials are lost and the demo
    material stands in for them. *)
Example null_score_gives_demo :
  all_materials null_score = _create_demo_materials_chunk_enhanced /\
  confidence_score_of_data
    [ (str "name", JStr (str "nut")); (str "confidence_score", JNull) ] = None /\
  confidence_score_of_data
    [ (str "confidence_score", JStr (str " 8_0e-2 ")) ] = Some 0.8%float /\
  confidence_score_of_data [ (str "confidence_score", JStr (str "high")) ] = None /\
  confidence_score_of_data [ (str "name", JStr (str "nut")) ] = Some 0.5%float.
Proof. repeat split. Qed.

(** ** Order of the binary64 floats *)

Ltac compare_cases :=
  repeat match goal with
         | |- context [Z.compare ?a ?b] => destruct (Z.compare_spec a b)
         | |- context [Pos.compare_cont Eq ?a ?b] =>
             change (Pos.compare_cont Eq a b) with (Pos.compare a b);
             destruct (Pos.compare_spec a b)
         end.

Ltac rank_cases f g :=
  unfold is_number, lex_lt;
  destruct f as [[]|[]| |[] ? ?], g as [[]|[]| |[] ? ?]; simpl;
  compare_cases; simpl;
  repeat split; intros; subst;
  repeat match goal with
         | H : _ /\ _ |- _ => destruct H
         | H : _ \/ _ |- _ => destruct H
         end;
  try discriminate; try congruence; try lia;
  try match goal with H : (_, _, _) = (_, _, _) |- _ => inversion H; lia end;
  try (left; lia); try (right; lia); try (right; reflexivity).

Lemma SFltb_rank (f g : spec_float) :
  SFltb f g = true <->
  is_number f /\ is_number g /\ lex_lt (rank f) (rank g).
Proof. unfold SFltb, SFcompare. rank_cases f g. Qed.

Lemma SFeqb_rank (f g : spec_float) :
  SFeqb f g = true <-> is_number f /\ is_number g /\ rank f = rank g.
Proof. unfold SFeqb, SFcompare. rank_cases f g. Qed.

Lemma SFleb_rank (f g : spec_float) :
  SFleb f g = true <->
  is_number f /\ is_number g /\ (lex_lt (rank f) (rank g) \/ rank f = rank g).
Proof. unfold SFleb, SFcompare. rank_cases f g. Qed.

Lemma lex_lt_irrefl (a : Z * Z * Z) : ~ lex_lt a a.
Proof. destruct a as [[a1 a2] a3]. unfold lex_lt. lia. Qed.

Lemma lex_lt_trans (a b c : Z * Z * Z) : lex_lt a b -> lex_lt b c -> lex_lt a c.
Proof.
  destruct a as [[a1 a2] a3], b as [[b1 b2] b3], c as [[c1 c2] c3].
  unfold lex_lt. lia.
Qed.

Lemma lex_lt_total (a b : Z * Z * Z) : lex_lt a b \/ a = b \/ lex_lt b a.
Proof.
  destruct a as [[a1 a2] a3], b as [[b1 b2] b3]. unfold lex_lt.
  destruct (Z.lt_total a1 b1) as [H|[H|H]]; [lia | | lia].
  destruct (Z.lt_total a2 b2) as [H2|[H2|H2]]; [lia | | lia].
  destruct (Z.lt_total a3 b3) as [H3|[H3|H3]]; [lia | | lia].
  right. left. congruence.
Qed.


Lemma float_ltb_irrefl (x : float) : PrimFloat.ltb x x = false.
Proof.
  apply not_true_is_false. rewrite FloatAxioms.ltb_spec, SFltb_rank.
  intros (_ & _ & H). exact (@lex_lt_irrefl _ H).
Qed.

Lemma float_ltb_trans (x y z : float) :
  PrimFloat.ltb x y = true -> PrimFloat.ltb y z = true ->
  PrimFloat.ltb x z = true.
Proof.
  rewrite !FloatAxioms.ltb_spec, !SFltb_rank.
  intros (Hx & _ & H1) (_ & Hz & H2). repeat split; try assumption.
  exact (@lex_lt_trans _ _ _ H1 H2).
Qed.

Lemma float_ltb_asym (x y : float) :
  PrimFloat.ltb x y = true -> PrimFloat.ltb y x = false.
Proof.
  intros H. apply not_true_is_false. intros H'.
  pose proof (@float_ltb_trans _ _ _ H H') as E. now rewrite float_ltb_irrefl in E.
Qed.




(** ** Python's [max] and [sorted] *)

Section SortAndMax.

Variable A : Type.
Variable key : A -> float.

Lemma insert_desc_perm (x : A) (l : list A) :
  Permutation (insert_desc key x l) (x :: l).
Proof.
  induction l as [|y l IH]; simpl; [reflexivity|].
  destruct (PrimFloat.ltb (key x) (key y)); [|reflexivity].
  rewrite IH. apply perm_swap.
Qed.

Lemma sorted_reverse_perm (l : list A) : Permutation (sorted_reverse key l) l.
Proof.
  induction l as [|x l IH]; simpl; [reflexivity|].
  rewrite insert_desc_perm. now constructor.
Qed.





(** The running maximum is the start or above it, and never below an
    element it has passed. *)
Lemma max_from_highest (l : list A) (best : A) :
  In (max_from key best l) (best :: l) /\
  (max_from key best l = best \/
   PrimFloat.ltb (key best) (key (max_from key best l)) = true) /\
  forall x, In x l -> PrimFloat.ltb (key (max_from key best l)) (key x) = false.
Proof.
  revert best. induction l as [|y l IH]; intros best; simpl.
  - split; [now left|]. split; [now left | tauto].
  - destruct (PrimFloat.ltb (key best) (key y)) eqn:E.
    + destruct (IH y) as (Hin & Hy & Hl). split; [now right|]. split.
      * right. destruct Hy as [->|Hy]; [assumption|].
        exact (@float_ltb_trans _ _ _ E Hy).
      * intros x [<-|Hx]; [|auto].
        destruct Hy as [->|Hy]; [apply float_ltb_irrefl | now apply float_ltb_asym].
    + destruct (IH best) as (Hin & Hb & Hl).
      split; [destruct Hin; [now left | right; now right]|].
      split; [assumption|]. intros x [<-|Hx]; [|auto].
      destruct Hb as [->|Hb]; [assumption|].
      apply not_true_is_false. intros H.
      pose proof (@float_ltb_trans _ _ _ Hb H). congruence.
Qed.

Lemma py_max_highest (l : list A) (m : A) :
  py_max key l = Some m ->
  In m l /\ forall x, In x l -> PrimFloat.ltb (key m) (key x) = false.
Proof.
  destruct l as [|a l]; simpl; [discriminate|].
  intros H. injection H as <-.
  destruct (max_from_highest l a) as (Hin & Ha & Hl).
  split; [assumption|]. intros x [<-|Hx]; [|auto].
  destruct Ha as [->|Ha]; [apply float_ltb_irrefl | now apply float_ltb_asym].
Qed.

Lemma py_max_none (l : list A) : py_max key l = None <-> l = [].
Proof. destruct l; simpl; split; congruence. Qed.

End SortAndMax.

(** ** Supplier candidates *)

Import KnowledgeBase ItemMatcher.

Lemma intersection_nil_r (s : list pystr) : intersection s [] = [].
Proof. unfold intersection. induction s; simpl; auto. Qed.

Lemma confidence_of_spec (item : Item) (supplier : SupplierItem) :
  confidence_of (lower (qa_material_name item)) (part_number item) supplier
  = confidence_spec item supplier.
Proof.
  unfold confidence_of, confidence_spec, tokens.
  destruct (present (part_number item) && present (sup_part_number supplier)
            && opt_eqb (part_number item) (sup_part_number supplier));
    [reflexivity|].
  destruct (lower (qa_material_name item)) as [|c s] eqn:Em.
  - reflexivity.
  - destruct (lower (description supplier)) as [|d t] eqn:Ed.
    + simpl nonempty. simpl andb. cbv iota.
      change (set_of (split [])) with (@nil pystr).
      now rewrite intersection_nil_r.
    + simpl nonempty. simpl andb. cbv iota.
      destruct (intersection (set_of (split (c :: s))) (set_of (split (d :: t))));
        reflexivity.
Qed.

Lemma supplier_loop_scored (item : Item) (supplier_bom : list SupplierItem) :
  supplier_loop (lower (qa_material_name item)) (part_number item) supplier_bom
  = scored_candidates item supplier_bom.
Proof.
  unfold scored_candidates.
  induction supplier_bom as [|s rest IH]; [reflexivity|].
  simpl. rewrite confidence_of_spec, IH.
  now destruct (PrimFloat.ltb 0.3 (confidence_spec item s)).
Qed.

Lemma py_min_not_above (a x : float) : PrimFloat.ltb a (py_min a x) = false.
Proof.
  unfold py_min. destruct (PrimFloat.ltb x a) eqn:E.
  - now apply float_ltb_asym.
  - apply float_ltb_irrefl.
Qed.

Lemma match_type_by_part_number (item : Item) (supplier : SupplierItem) :
  match_type (candidate_of (confidence_spec item supplier) supplier)
  = (if same_part_number item supplier then PartNumber else Description).
Proof.
  unfold candidate_of, confidence_spec, same_part_number. cbn [match_type].
  destruct (present (part_number item) && present (sup_part_number supplier)
            && opt_eqb (part_number item) (sup_part_number supplier));
    [reflexivity|].
  match goal with |- context [Nat.ltb 0 ?n] => destruct (Nat.ltb 0 n) end.
  - now rewrite py_min_not_above.
  - reflexivity.
Qed.



(** ** Best-match selection *)

Lemma find_exact_some (kb_matches : list KBMatch) :
  existsb is_exact kb_matches = true ->
  exists k, find is_exact kb_matches = Some k /\ In k kb_matches /\
            kb_match_type k = Exact.
Proof.
  induction kb_matches as [|a l IH]; simpl; [discriminate|].
  destruct (is_exact a) eqn:E.
  - intros _. exists a. split; [reflexivity|]. split; [now left|].
    unfold is_exact in E. now destruct (kb_match_type a).
  - intros H. destruct (IH H) as (k & E1 & E2 & E3).
    exists k. split; [assumption|]. split; [now right | assumption].
Qed.

Lemma find_exact_none (kb_matches : list KBMatch) :
  existsb is_exact kb_matches = false -> find is_exact kb_matches = None.
Proof.
  induction kb_matches as [|a l IH]; simpl; [reflexivity|].
  destruct (is_exact a); [discriminate | exact IH].
Qed.

Lemma find_first_exact (kb_matches : list KBMatch) (k : KBMatch) :
  find is_exact kb_matches = Some k -> first_exact kb_matches k.
Proof.
  unfold first_exact. induction kb_matches as [|a l IH]; simpl; [discriminate|].
  destruct (is_exact a) eqn:E.
  - intros H. injection H as ->. exists [], l.
    split; [reflexivity|]. split; [|constructor].
    unfold is_exact in E. now destruct (kb_match_type k).
  - intros H. destruct (IH H) as (before & after & -> & Hk & Hbefore).
    exists (a :: before), after. split; [reflexivity|]. split; [assumption|].
    constructor; [|assumption].
    intros Ha. unfold is_exact in E. now rewrite Ha in E.
Qed.

Lemma exact_exists (kb_matches : list KBMatch) :
  (exists k, In k kb_matches /\ kb_match_type k = Exact) ->
  existsb is_exact kb_matches = true.
Proof.
  intros (k & Hin & Hk). apply existsb_exists. exists k.
  split; [assumption|]. unfold is_exact. now rewrite Hk.
Qed.

Lemma exact_none (kb_matches : list KBMatch) :
  (forall k, In k kb_matches -> kb_match_type k <> Exact) ->
  existsb is_exact kb_matches = false.
Proof.
  intros H. apply not_true_is_false. intros E.
  apply existsb_exists in E as (k & Hin & Hk).
  apply (H k Hin). unfold is_exact in Hk. now destruct (kb_match_type k).
Qed.

(** C3. Best-match selection: (a) when some knowledge-base candidate is of
    type EXACT, the first such candidate is selected and reported with its
    row id, material name and part number at confidence exactly 0.9, type
    EXACT, source knowledge base; (b) otherwise the highest-scoring supplier
    candidate is selected when its score exceeds 0.7 and reported with its
    own description, part number, score and type, source supplier BOM; (c)
    otherwise the highest-scoring knowledge-base candidate is selected and
    reported at confidence exactly 0.6 (so at most 0.6), type FUZZY, source
    knowledge base; (d) otherwise there is no best match.  The match source
    is HYBRID when both candidate lists are non-empty, else the non-empty
    one, else NO_MATCH, whatever the winner. *)
Theorem select_best_match_precedence :
  forall (item : Item) (kb_matches : list KBMatch)
         (supplier_matches : list Candidate),
    let best := _select_best_match item kb_matches supplier_matches in
    let some_exact := exists k, In k kb_matches /\ kb_match_type k = Exact in
    let none_exact := forall k, In k kb_matches -> kb_match_type k <> Exact in
    let top_supplier := py_max confidence_score supplier_matches in
    let supplier_wins :=
      match top_supplier with
      | Some s => PrimFloat.ltb 0.7 (confidence_score s)
      | None => false
      end in
    (some_exact ->
     exists k b, first_exact kb_matches k /\ best = Some b /\
       reports b (Some (id (kb_row k))) (material_name (kb_row k))
         (part_number (source_item (kb_row k))) 0.9 Exact from_knowledge_base) /\
    (forall s, top_supplier = Some s -> highest confidence_score supplier_matches s) /\
    (none_exact -> supplier_wins = true ->
     exists s b, top_supplier = Some s /\ best = Some b /\
       reports b None (supplier_description s) (supplier_part_number s)
         (confidence_score s) (match_type s) from_supplier_bom) /\
    (none_exact -> supplier_wins = false -> kb_matches <> [] ->
     exists k b, highest kb_confidence_score kb_matches k /\ best = Some b /\
       reports b (Some (id (kb_row k))) (material_name (kb_row k))
         (part_number (source_item (kb_row k))) 0.6 Fuzzy from_knowledge_base /\
       PrimFloat.leb (bm_confidence_score b) 0.6 = true) /\
    (none_exact -> supplier_wins = false -> kb_matches = [] -> best = None) /\
    _determine_match_source kb_matches supplier_matches
    = (if Nat.ltb 0 (length kb_matches) && Nat.ltb 0 (length supplier_matches)
       then hybrid
       else if Nat.ltb 0 (length kb_matches) then knowledge_base
       else if Nat.ltb 0 (length supplier_matches) then supplier_bom
       else no_match).
Proof.
  intros item kb sup best some_exact none_exact top_supplier supplier_wins.
  subst best some_exact none_exact top_supplier supplier_wins.
  unfold _select_best_match.
  split; [|split; [|split; [|split; [|split]]]];
    [ | | | | | now destruct kb, sup ].
  - intros H. apply (@exact_exists kb) in H.
    destruct (find_exact_some _ H) as (k & E & Hin & Hk).
    exists k. rewrite E. eexists. split; [now apply find_first_exact|].
    split; [reflexivity|]. repeat split.
  - intros s H. unfold highest. now apply py_max_highest in H.
  - intros H Hs. rewrite (find_exact_none _ (@exact_none kb H)).
    destruct (py_max confidence_score sup) as [s|]; [|discriminate].
    exists s. rewrite Hs. eexists. split; [reflexivity|].
    split; [reflexivity|]. repeat split.
  - intros H Hs Hkb. rewrite (find_exact_none _ (@exact_none kb H)).
    assert (E : (match py_max confidence_score sup with
                 | Some best_supplier =>
                     if PrimFloat.ltb 0.7 (confidence_score best_supplier)
                     then Some (best_of_supplier best_supplier)
                     else fallback_kb kb
                 | None => fallback_kb kb
                 end) = fallback_kb kb).
    { destruct (py_max confidence_score sup); [now rewrite Hs | reflexivity]. }
    rewrite E. unfold fallback_kb.
    destruct (py_max kb_confidence_score kb) as [k|] eqn:Ek.
    + exists k. eexists. split; [now apply py_max_highest|].
      split; [reflexivity|]. repeat split.
    + apply py_max_none in Ek. contradiction.
  - intros H Hs ->. simpl.
    destruct (py_max confidence_score sup); [now rewrite Hs | reflexivity].
Qed.

(** ** Knowledge store *)

Lemma insert_loop_rows (batch : list Item) :
  forall (clock : nat -> nat) (k : nat) (workflow document : option pystr)
         (db : Store),
  exists db' rows,
    insert_loop NoFault clock k batch workflow document db
    = Some (db', map id rows) /\
    items db' = items db ++ rows /\
    item_matches db' = item_matches db /\
    length rows = length batch /\
    forall i item, nth_error batch i = Some item ->
      exists row, nth_error rows i = Some row /\
                  source_item row = item /\
                  normalized_name row
                  = normalize_material_name (Some (qa_material_name item)) /\
                  workflow_id row = workflow.
Proof.
  induction batch as [|a rest IH]; intros clock k workflow document db.
  - exists db, []. simpl. rewrite app_nil_r. repeat split.
    intros [|i] item H; discriminate.
  - cbn [insert_loop raises]. unfold insert_item.
    set (row := {| id := next_id db; source_item := a |}).
    set (db1 := {| items := items db ++ [row] |}).
    destruct (IH clock (S k) workflow document db1)
      as (db' & rows & E & Hitems & Hm & Hlen & Hrows).
    rewrite E. exists db', (row :: rows). repeat split.
    + rewrite Hitems. unfold db1. cbn [items]. now rewrite <- app_assoc.
    + rewrite Hm. reflexivity.
    + simpl. now rewrite Hlen.
    + intros [|i] item H; simpl in H.
      * injection H as <-. exists row. repeat split.
      * destruct (Hrows i item H) as (r & H1 & H2). exists r. now split.
Qed.

Lemma insert_loop_fault_free (fault : Fault) (batch : list Item) :
  forall (clock : nat -> nat) (k : nat) (workflow document : option pystr)
         (db : Store) (r : Store * list Z),
    insert_loop fault clock k batch workflow document db = Some r ->
    insert_loop NoFault clock k batch workflow document db = Some r.
Proof.
  induction batch as [|a rest IH]; intros clock k workflow document db r;
    [trivial|].
  cbn [insert_loop]. destruct (raises fault (S k)); [discriminate|].
  cbn [raises]. destruct (insert_item (clock k) a workflow document db) as [db1 i].
  destruct (insert_loop fault clock (S k) rest workflow document db1)
    as [[db2 ids]|] eqn:E; [|discriminate].
  now rewrite (IH _ _ _ _ _ _ E).
Qed.

(** What a call of [add_items] can do: log an error, return the empty list
    and leave the store as it was; or log nothing and do what the call
    without fault does. *)
Lemma add_items_cases (fault : Fault) (clock : nat -> nat) (batch : list Item)
    (workflow document : option pystr) (db : Store) :
  add_items fault clock batch workflow document db = (db, [], true) \/
  (snd (add_items fault clock batch workflow document db) = false /\
   add_items fault clock batch workflow document db
   = add_items NoFault clock batch workflow document db).
Proof.
  unfold add_items. destruct batch as [|a rest]; [now right|].
  destruct (raises fault 0); [now left|]. cbn [raises].
  destruct (insert_loop fault clock 0 (a :: rest) workflow document db)
    as [[db' ids]|] eqn:E; [|now left].
  rewrite (insert_loop_fault_free _ _ _ _ _ _ _ E).
  destruct (raises fault (S (length (a :: rest)))); [now left | now right].
Qed.

(** Without fault every position of the batch gets its row and its id. *)
Lemma add_items_positions (clock : nat -> nat) (batch : list Item)
    (workflow document : option pystr) (db : Store) :
  error_logged NoFault clock batch workflow document db = false /\
  length (ids_returned NoFault clock batch workflow document db) = length batch /\
  forall i item, nth_error batch i = Some item ->
    exists row,
      row_of_position (store_after NoFault clock batch workflow document db)
        (ids_returned NoFault clock batch workflow document db)
        workflow i item row.
Proof.
  unfold error_logged, ids_returned, store_after, add_items.
  destruct batch as [|a rest].
  - repeat split. intros [|i] item H; discriminate.
  - cbn [raises].
    destruct (insert_loop_rows (a :: rest) clock 0 workflow document db)
      as (db' & rows & E & Hitems & _ & Hlen & Hrows).
    rewrite E. cbn [fst snd]. split; [reflexivity|]. split.
    + now rewrite length_map.
    + intros i item H. destruct (Hrows i item H) as (row & H1 & H2 & H3 & H4).
      exists row. unfold row_of_position. repeat split; try assumption.
      * rewrite Hitems. apply in_or_app. right. eapply nth_error_In; eauto.
      * rewrite nth_error_map, H1. reflexivity.
Qed.

Lemma insert_newest_perm (r : ItemRow) (l : list ItemRow) :
  Permutation (insert_newest r l) (r :: l).
Proof.
  induction l as [|y l IH]; simpl; [reflexivity|].
  destruct (Nat.ltb (created_at r) (created_at y)); [|reflexivity].
  rewrite IH. apply perm_swap.
Qed.

Lemma order_by_created_at_desc_perm (l : list ItemRow) :
  Permutation (order_by_created_at_desc l) l.
Proof.
  induction l as [|r l IH]; simpl; [reflexivity|].
  rewrite insert_newest_perm. now constructor.
Qed.

Lemma insert_newest_sorted (r : ItemRow) (l : list ItemRow) :
  newest_first l -> newest_first (insert_newest r l).
Proof.
  unfold newest_first. induction 1 as [|y l Hs IH Hy]; simpl.
  - constructor; constructor.
  - destruct (Nat.ltb (created_at r) (created_at y)) eqn:E.
    + apply Nat.ltb_lt in E. constructor; [assumption|].
      apply Forall_forall. intros z Hz.
      apply (Permutation_in _ (insert_newest_perm r l)) in Hz.
      destruct Hz as [<-|Hz]; [lia|].
      rewrite Forall_forall in Hy. now apply Hy.
    + apply Nat.ltb_ge in E. constructor; [now constructor|].
      constructor; [assumption|].
      apply Forall_forall. intros z Hz. rewrite Forall_forall in Hy.
      specialize (Hy z Hz). lia.
Qed.

Lemma order_by_created_at_desc_sorted (l : list ItemRow) :
  newest_first (order_by_created_at_desc l).
Proof.
  induction l as [|r l IH]; simpl; [constructor|].
  now apply insert_newest_sorted.
Qed.

Lemma firstn_incl (A : Type) (n : nat) (l : list A) (x : A) :
  In x (firstn n l) -> In x l.
Proof.
  revert l. induction n as [|n IH]; intros [|a l]; simpl; try tauto.
  intros [->|H]; [now left | right; now apply IH].
Qed.

Lemma firstn_sorted (n : nat) (l : list ItemRow) :
  newest_first l -> newest_first (firstn n l).
Proof.
  unfold newest_first. revert l.
  induction n as [|n IH]; intros l H; [constructor|].
  destruct H as [|a l Hs Ha]; simpl; [constructor|].
  constructor; [now apply IH|].
  apply Forall_forall. intros z Hz. apply firstn_incl in Hz.
  rewrite Forall_forall in Ha. now apply Ha.
Qed.

(** What the SELECT of [find_similar_items] returns. *)
Lemma select_exact_rows (q : pystr) (db : Store) :
  (forall r, In r (select_exact q db) ->
             normalized_name r = q /\ In r (items db)) /\
  length (select_exact q db) <= 5 /\
  newest_first (select_exact q db) /\
  (length (same_name_rows q db) <= 5 ->
   forall r, In r (items db) -> normalized_name r = q ->
             In r (select_exact q db)).
Proof.
  unfold select_exact. fold (same_name_rows q db). repeat split.
  - apply firstn_incl in H.
    apply (Permutation_in _ (order_by_created_at_desc_perm _)) in H.
    apply filter_In in H as [_ H]. now apply str_eqb_eq.
  - apply firstn_incl in H.
    apply (Permutation_in _ (order_by_created_at_desc_perm _)) in H.
    now apply filter_In in H as [H _].
  - apply firstn_le_length.
  - apply firstn_sorted, order_by_created_at_desc_sorted.
  - intros Hfew r Hr Hq. rewrite firstn_all2.
    + apply (Permutation_in _
               (Permutation_sym (order_by_created_at_desc_perm _))).
      apply filter_In. split; [assumption | now apply str_eqb_eq].
    + now rewrite (Permutation_length (order_by_created_at_desc_perm _)).
Qed.

Lemma rows_found_select (material : option pystr) (db : Store) :
  normalize_material_name material <> [] ->
  rows_found NoFault material db
  = select_exact (normalize_material_name material) db.
Proof.
  intros H. unfold rows_found, find_similar_items. cbn [raises].
  destruct (normalize_material_name material) as [|c q]; [congruence|].
  cbn [nonempty fst]. rewrite map_map. cbn [as_exact kb_row]. apply map_id.
Qed.

Lemma rows_found_empty_query (fault : Fault) (material : option pystr)
    (db : Store) :
  normalize_material_name material = [] -> rows_found fault material db = [].
Proof.
  intros H. unfold rows_found, find_similar_items. rewrite H.
  now destruct (raises fault 0).
Qed.

(** The row written for a material is found again by the material's name,
    provided the normalized name is not empty and is shared by at most five
    rows of the store. *)
Lemma inserted_row_is_found
    (db : Store) (clock : nat -> nat) (batch : list Item)
    (workflow document : option pystr) (i : nat) (item : Item) (query : pystr)
    (Hitem : nth_error batch i = Some item)
    (Hquery : normalize_material_name (Some query)
              = normalize_material_name (Some (qa_material_name item)))
    (Hnonempty : normalize_material_name (Some query) <> [])
    (Hfew : length (same_name_rows (normalize_material_name (Some query))
                      (store_after NoFault clock batch workflow document db))
            <= 5) :
  exists row,
    row_of_position (store_after NoFault clock batch workflow document db)
      (ids_returned NoFault clock batch workflow document db)
      workflow i item row /\
    In row (rows_found NoFault (Some query)
              (store_after NoFault clock batch workflow document db)).
Proof.
  set (db' := store_after NoFault clock batch workflow document db) in *.
  rewrite (@rows_found_select _ db' Hnonempty).
  destruct (add_items_positions clock batch workflow document db)
    as (_ & _ & Hpos).
  destruct (Hpos i item Hitem) as (row & Hrow). fold db' in Hrow.
  exists row. split; [assumption|].
  destruct Hrow as (Hr & _ & _ & Hn & _).
  apply (select_exact_rows (normalize_material_name (Some query)) db');
    [exact Hfew | assumption | congruence].
Qed.

Lemma firstn_leaves_older (n : nat) (l : list ItemRow) (x : ItemRow) :
  newest_first l -> In x l -> ~ In x (firstn n l) ->
  length (firstn n l) = n /\
  forall y, In y (firstn n l) -> created_at x <= created_at y.
Proof.
  unfold newest_first. revert l.
  induction n as [|n IH]; intros l Hsorted Hin Hout; [now split|].
  destruct Hsorted as [|a l Hs Ha]; [destruct Hin|].
  cbn [firstn] in *.
  assert (Hx : In x l).
  { destruct Hin as [->|Hin]; [|assumption]. exfalso. apply Hout. now left. }
  destruct (IH l Hs Hx) as [Hlen Hold].
  { intros H. apply Hout. now right. }
  split; [simpl; now rewrite Hlen|].
  intros y [<-|Hy]; [|now apply Hold].
  rewrite Forall_forall in Ha. now apply Ha.
Qed.

(** The rows the SELECT leaves out are no newer than the five it returns. *)
Lemma select_exact_newest (q : pystr) (db : Store) (r : ItemRow) :
  In r (items db) -> normalized_name r = q -> ~ In r (select_exact q db) ->
  length (select_exact q db) = 5 /\
  forall r', In r' (select_exact q db) -> created_at r <= created_at r'.
Proof.
  unfold select_exact. intros Hin Hq Hout.
  apply firstn_leaves_older; [apply order_by_created_at_desc_sorted | | exact Hout].
  apply (Permutation_in _ (Permutation_sym (order_by_created_at_desc_perm _))).
  apply filter_In. split; [assumption | now apply str_eqb_eq].
Qed.

(** C7, as the code has it.  A lookup normalizes the query and, for every
    store and every query, returns only rows of the store whose normalized
    name is the normalized query, at most five of them, newest first; a row
    of that name it leaves out is no newer than any of the five it returns;
    a query whose normalized form is empty finds nothing.  After a batch is
    inserted, a lookup by a name whose normalized form is that of an
    inserted material, is not empty and is shared by at most five rows of
    the store, returns the row written for that material. *)
Theorem find_exact_round_trip :
  forall (db : Store) (query : option pystr),
    let q := normalize_material_name query in
    let found := rows_found NoFault query db in
    (forall r, In r found -> normalized_name r = q /\ In r (items db)) /\
    length found <= 5 /\
    newest_first found /\
    (q = [] -> found = []) /\
    (forall r, q <> [] -> In r (items db) -> normalized_name r = q ->
       ~ In r found ->
       length found = 5 /\
       forall r', In r' found -> created_at r <= created_at r') /\
    (forall (db0 : Store) (clock : nat -> nat) (batch : list Item)
            (workflow document : option pystr) (i : nat) (item : Item),
       db = store_after NoFault clock batch workflow document db0 ->
       nth_error batch i = Some item ->
       normalize_material_name (Some (qa_material_name item)) = q ->
       q <> [] ->
       length (same_name_rows q db) <= 5 ->
       exists row,
         row_of_position db
           (ids_returned NoFault clock batch workflow document db0)
           workflow i item row /\
         In row found).
Proof.
  intros db query q found. subst q found.
  destruct (normalize_material_name query) as [|c q'] eqn:Eq.
  - rewrite (@rows_found_empty_query NoFault query db Eq).
    split; [intros r []|]. split; [simpl; lia|]. split; [constructor|].
    split; [reflexivity|]. split; congruence.
  - assert (Hq : normalize_material_name query <> []) by now rewrite Eq.
    rewrite (@rows_found_select query db Hq), Eq.
    destruct (select_exact_rows (c :: q') db) as (Hin & Hlen & Hsorted & Hall).
    split; [exact Hin|]. split; [exact Hlen|]. split; [exact Hsorted|].
    split; [discriminate|]. split.
    + intros r _ Hr Hname Hout. now apply select_exact_newest.
    + intros db0 clock batch workflow document i item -> Hitem Hname _ Hfew.
      destruct (add_items_positions clock batch workflow document db0)
        as (_ & _ & Hpos).
      destruct (Hpos i item Hitem) as (row & Hrow).
      exists row. split; [exact Hrow|].
      destruct Hrow as (Hr & _ & _ & Hn & _).
      apply Hall; [exact Hfew | exact Hr | congruence].
Qed.

Lemma find_exact_round_trip_witness :
  exists row,
    row_of_position
      (store_after NoFault (within_second 0) two_materials wf1 None empty_store)
      (ids_returned NoFault (within_second 0) two_materials wf1 None empty_store)
      wf1 0 (named "Hex Bolt") row /\
    In row
      (rows_found NoFault (Some (str "hex  bolt!"))
         (store_after NoFault (within_second 0) two_materials wf1 None
            empty_store)).
Proof.
  apply (proj2 (proj2 (proj2 (proj2 (proj2
           (find_exact_round_trip
              (store_after NoFault (within_second 0) two_materials wf1 None
                 empty_store)
              (Some (str "hex  bolt!")))))))
           empty_store (within_second 0) two_materials wf1 None 0
           (named "Hex Bolt")).
  - reflexivity.
  - reflexivity.
  - reflexivity.
  - vm_compute. discriminate.
  - vm_compute. lia.
Defined.

(** C7 fails as stated: of six materials of one name inserted by one call
    within one second, the last is not among the five rows a lookup by that
    name returns; of six inserted one second apart, the oldest is not; and a
    material whose normalized name is empty is never found. *)
Lemma find_exact_misses_inserted_rows :
  (In (bolt_row 6 0) (items six_bolts_store) /\
   normalized_name (bolt_row 6 0) = normalize_material_name (Some (str "bolt")) /\
   map id (rows_found NoFault (Some (str "bolt")) six_bolts_store)
   = [1; 2; 3; 4; 5]%Z /\
   ~ In (bolt_row 6 0) (rows_found NoFault (Some (str "bolt")) six_bolts_store)) /\
  (In (bolt_row 1 0) (items six_calls_store) /\
   normalized_name (bolt_row 1 0) = normalize_material_name (Some (str "bolt")) /\
   map id (rows_found NoFault (Some (str "bolt")) six_calls_store)
   = [6; 5; 4; 3; 2]%Z /\
   ~ In (bolt_row 1 0) (rows_found NoFault (Some (str "bolt")) six_calls_store)) /\
  (In dashes_row (items dashes_store) /\
   normalized_name dashes_row = normalize_material_name (Some (str "---")) /\
   rows_found NoFault (Some (str "---")) dashes_store = []).
Proof.
  split; [|split].
  - split; [vm_compute; tauto|]. split; [reflexivity|].
    split; [reflexivity|]. vm_compute.
    intros H. repeat destruct H as [H|H]; try discriminate H. exact H.
  - split; [vm_compute; tauto|]. split; [reflexivity|].
    split; [reflexivity|]. vm_compute.
    intros H. repeat destruct H as [H|H]; try discriminate H. exact H.
  - split; [vm_compute; now left|]. split; reflexivity.
Qed.

(** C6, as the code has it.  A failure is logged and turned into the empty
    list.  A lookup that fails returns what a lookup without matching rows
    returns.  An insert either logs an error, returns the empty list and
    leaves the store as it was, or logs nothing and returns one id per item,
    the id at each position being that of the row written for the item at
    that position. *)
Theorem store_failure_returns_empty_list :
  forall (fault : Fault) (clock : nat -> nat) (batch : list Item)
         (workflow document : option pystr) (material : option pystr)
         (db : Store),
    (snd (find_similar_items fault material db) = true ->
     fst (find_similar_items fault material db) = []) /\
    (raises fault 0 = true ->
     find_similar_items fault material db = ([], true)) /\
    (same_name_rows (normalize_material_name material) db = [] ->
     find_similar_items NoFault material db = ([], false)) /\
    (error_logged fault clock batch workflow document db = true ->
     ids_returned fault clock batch workflow document db = [] /\
     store_after fault clock batch workflow document db = db) /\
    (error_logged fault clock batch workflow document db = false ->
     length (ids_returned fault clock batch workflow document db)
     = length batch /\
     forall i item, nth_error batch i = Some item ->
       exists row,
         row_of_position (store_after fault clock batch workflow document db)
           (ids_returned fault clock batch workflow document db)
           workflow i item row).
Proof.
  intros fault clock batch workflow document material db.
  split; [|split; [|split; [|split]]].
  - unfold find_similar_items. destruct (raises fault 0); [reflexivity|].
    destruct (nonempty (normalize_material_name material)); [|discriminate].
    destruct (raises fault 1); [reflexivity | discriminate].
  - unfold find_similar_items. now intros ->.
  - intros H. unfold find_similar_items. cbn [raises].
    destruct (nonempty (normalize_material_name material)); [|reflexivity].
    unfold select_exact. fold (same_name_rows (normalize_material_name material) db).
    now rewrite H.
  - unfold error_logged, ids_returned, store_after.
    destruct (add_items_cases fault clock batch workflow document db)
      as [E|[E _]]; rewrite E; [now split | discriminate].
  - unfold error_logged, ids_returned, store_after.
    destruct (add_items_cases fault clock batch workflow document db)
      as [E|[_ E]]; rewrite E; [discriminate|]. intros _.
    destruct (add_items_positions clock batch workflow document db)
      as (_ & Hlen & Hpos). now split.
Qed.

(** C6 fails as stated: a lookup against a store that cannot be reached and
    a lookup that matches nothing return the same value, although the
    first would have found a row; and an insert that fails at its second row
    returns what an insert of nothing returns. *)
Lemma store_failure_looks_like_no_result :
  fst (find_similar_items (RaiseAt 0) (Some (str "bolt")) bolt_store)
  = fst (find_similar_items NoFault (Some (str "washer")) bolt_store) /\
  length (fst (find_similar_items NoFault (Some (str "bolt")) bolt_store)) = 1 /\
  ids_returned (RaiseAt 2) ticking two_materials wf1 None empty_store
  = ids_returned NoFault ticking [] wf1 None empty_store.
Proof. repeat split. Qed.

(** C9. [stats] counts the rows, the match rate is the matched items
    divided by the items times 100, and 0 when there is no item; after
    [clear] every counter and the match rate are 0. *)
Theorem stats_match_rate :
  forall db : Store,
    let s := get_processing_stats NoFault db in
    total_items s = length (items db) /\
    total_matches s = length (item_matches db) /\
    unique_matched_items s
    = count_distinct Z.eq_dec (map original_item_id (item_matches db)) /\
    match_rate s
    = (if Nat.ltb 0 (total_items s)
       then PyFloat (truediv (unique_matched_items s) (total_items s) * 100)
       else PyInt 0) /\
    (total_items s = 0 -> match_rate s = PyInt 0) /\
    (forall fault : Fault,
       get_processing_stats fault (clear_all_data NoFault db) = zero_stats) /\
    total_items zero_stats = 0 /\ total_workflows zero_stats = 0 /\
    total_matches zero_stats = 0 /\ unique_matched_items zero_stats = 0 /\
    match_rate zero_stats = PyInt 0.
Proof.
  intros db s. subst s. unfold get_processing_stats. cbn [raises orb].
  cbn [total_items total_matches unique_matched_items match_rate].
  repeat split.
  - intros H. now rewrite H.
  - intros fault. unfold clear_all_data. cbn [raises orb items item_matches].
    unfold get_processing_stats.
    destruct (raises fault 0 || raises fault 1 || raises fault 2
              || raises fault 3 || raises fault 4); reflexivity.
Qed.

(** One item of four is matched: 25 per cent. *)
Example stats_of_four_items :
  get_processing_stats NoFault four_items_store
  = {| total_items := 4; total_workflows := 1; total_matches := 2;
       unique_matched_items := 1; match_rate := PyFloat 25 |}.
Proof. reflexivity. Qed.

Import ItemMatcher.

Lemma match_loop_nth (find_fault : nat -> Fault) (supplier_bom : list SupplierItem)
    (db : Store) (batch : list Item) :
  forall (k i : nat) (item : Item),
    nth_error batch i = Some item ->
    nth_error (match_loop find_fault supplier_bom db k batch) i
    = Some (match_one find_fault supplier_bom db (k + i) item).
Proof.
  induction batch as [|a rest IH]; intros k [|i] item H; try discriminate.
  - simpl in *. injection H as <-. now rewrite Nat.add_0_r.
  - simpl in *. rewrite (IH (S k) i item H). f_equal. f_equal. lia.
Qed.

Lemma all_exact_first (rows : list ItemRow) (r : ItemRow) :
  find is_exact (map as_exact (r :: rows)) = Some (as_exact r).
Proof. reflexivity. Qed.

(** C1, on the code.  The batch is inserted before it is matched, so a
    material whose normalized name is not empty (and is shared by at most
    five rows) is matched against the record that was just created from it:
    that record is among its knowledge-base candidates, the material counts
    as previously matched, and its match is reported as an exact
    knowledge-base match at confidence 0.9. *)
Theorem batch_matches_material_against_own_record
    (db : Store) (clock : nat -> nat) (batch : list Item)
    (supplier_bom : list SupplierItem) (workflow : pystr)
    (i : nat) (item : Item)
    (Hitem : nth_error batch i = Some item)
    (Hnonempty :
       normalize_material_name (Some (qa_material_name item)) <> [])
    (Hfew :
       length (same_name_rows
                 (normalize_material_name (Some (qa_material_name item)))
                 (store_after NoFault clock batch (Some workflow) None db))
       <= 5) :
  exists (kb_matches : list KBMatch) (result : MatchResult) (row : ItemRow),
    nth_error (trace_of clock batch supplier_bom workflow db) i
    = Some (kb_matches, result) /\
    nth_error (new_item_ids_of clock batch supplier_bom workflow db) i
    = Some (id row) /\
    source_item row = item /\
    workflow_id row = Some workflow /\
    In (as_exact row) kb_matches /\
    has_previous_match result = true /\
    res_confidence_score result = 0.9%float /\
    res_reasoning result = ExactKnowledgeBase 0.9.
Proof.
  destruct (@inserted_row_is_found db clock batch (Some workflow) None i item
              (qa_material_name item) Hitem eq_refl Hnonempty Hfew)
    as (row & (Hin & Hid & Hsrc & Hnorm & Hwf) & Hfound).
  unfold trace_of, new_item_ids_of, match_trace.
  unfold store_after, ids_returned in *.
  destruct (add_items NoFault clock batch (Some workflow) None db)
    as [[db' ids] logged]. cbn [fst snd] in *.
  rewrite (@match_loop_nth _ supplier_bom db' batch 0 i item Hitem).
  eexists _, _, row. split; [reflexivity|].
  split; [assumption|]. split; [assumption|]. split; [assumption|].
  unfold match_one. cbn [fst snd has_previous_match res_confidence_score
                           res_reasoning].
  rewrite (@rows_found_select (Some (qa_material_name item)) db' Hnonempty)
    in Hfound.
  assert (E : fst (find_similar_items NoFault (Some (qa_material_name item)) db')
              = map as_exact
                  (select_exact
                     (normalize_material_name (Some (qa_material_name item)))
                     db')).
  { unfold find_similar_items. cbn [raises].
    destruct (normalize_material_name (Some (qa_material_name item)));
      [congruence | reflexivity]. }
  rewrite E.
  destruct (select_exact
              (normalize_material_name (Some (qa_material_name item))) db')
    as [|r rows]; [contradiction|].
  split; [now apply in_map|]. repeat split.
Qed.

Lemma batch_matches_material_against_own_record_witness :
  exists (kb_matches : list KBMatch) (result : MatchResult) (row : ItemRow),
    nth_error (trace_of ticking [named "bolt"] [] (str "wf-1") empty_store) 0
    = Some (kb_matches, result) /\
    nth_error (new_item_ids_of ticking [named "bolt"] [] (str "wf-1") empty_store) 0
    = Some (id row) /\
    source_item row = named "bolt" /\
    workflow_id row = Some (str "wf-1") /\
    In (as_exact row) kb_matches /\
    has_previous_match result = true /\
    res_confidence_score result = 0.9%float /\
    res_reasoning result = ExactKnowledgeBase 0.9.
Proof.
  apply (@batch_matches_material_against_own_record empty_store ticking
           [named "bolt"] [] (str "wf-1") 0 (named "bolt")).
  - reflexivity.
  - vm_compute. discriminate.
  - vm_compute. lia.
Defined.

(** The failing input of C1 evaluated: one new material, an empty store, an
    empty supplier BOM. *)
Example sole_material_finds_itself :
  new_item_ids_of ticking [named "bolt"] [] (str "wf-1") empty_store = [1%Z] /\
  map (fun p => map (fun m => id (kb_row m)) (fst p))
    (trace_of ticking [named "bolt"] [] (str "wf-1") empty_store)
  = [[1%Z]] /\
  map (fun p => (knowledge_base_matches (snd p), has_previous_match (snd p),
                 match_source (snd p), res_reasoning (snd p)))
    (trace_of ticking [named "bolt"] [] (str "wf-1") empty_store)
  = [(1, true, knowledge_base, ExactKnowledgeBase 0.9)].
Proof. repeat split. Qed.

(** ** Worked examples *)

Lemma select_best_match_precedence_witness :
  (exists k b,
     first_exact [as_exact (bolt_row 1 0)] k /\
     _select_best_match (named "bolt") [as_exact (bolt_row 1 0)]
       (_find_supplier_matches (named "bolt") [stainless_bolt])
     = Some b /\
     reports b (Some (id (kb_row k))) (material_name (kb_row k))
       (part_number (source_item (kb_row k))) 0.9 Exact from_knowledge_base) /\
  (exists s b,
     py_max confidence_score (_find_supplier_matches hex_bolt [stainless_bolt])
     = Some s /\
     _select_best_match hex_bolt [] (_find_supplier_matches hex_bolt [stainless_bolt])
     = Some b /\
     reports b None (supplier_description s) (supplier_part_number s)
       (confidence_score s) (match_type s) from_supplier_bom).
Proof.
  split.
  - apply (proj1 (select_best_match_precedence (named "bolt")
                    [as_exact (bolt_row 1 0)]
                    (_find_supplier_matches (named "bolt") [stainless_bolt]))).
    exists (as_exact (bolt_row 1 0)). split; [now left | reflexivity].
  - apply (proj1 (proj2 (proj2
             (select_best_match_precedence hex_bolt []
                (_find_supplier_matches hex_bolt [stainless_bolt]))))).
    + intros k [].
    + reflexivity.
Defined.

(** The first exact candidate is reported at 0.9, whatever the supplier BOM
    offers; a fuzzy candidate alone is reported at 0.6. *)
Example store_candidate_reported :
  option_map bm_confidence_score
    (_select_best_match hex_bolt [as_exact (bolt_row 1 0)]
       (_find_supplier_matches hex_bolt [stainless_bolt]))
  = Some 0.9%float /\
  option_map bm_confidence_score
    (_select_best_match hex_bolt
       [ {| kb_row := bolt_row 1 0; kb_match_type := Fuzzy;
            kb_confidence_score := 0.75 |} ] [])
  = Some 0.6%float.
Proof. split; reflexivity. Qed.

(** An equal part number makes a PART_NUMBER candidate of score 0.95, which
    is the best match. *)
Example part_number_candidate_wins :
  _find_supplier_matches hex_bolt [stainless_bolt]
  = [ {| supplier_description := str "hex bolt stainless";
         supplier_part_number := Some (str "BOLT-M6-20-SS");
         confidence_score := 0.95;
         match_type := PartNumber |} ] /\
  option_map bm_match_source
    (_select_best_match hex_bolt [] (_find_supplier_matches hex_bolt [stainless_bolt]))
  = Some from_supplier_bom.
Proof. split; reflexivity. Qed.

(** Nothing in the store, nothing in the supplier BOM. *)
Example nothing_to_match :
  _select_best_match hex_bolt [] [] = None /\
  _determine_match_source [] [] = no_match.
Proof. split; reflexivity. Qed.

(** Three common words out of eight score 3/8 x 0.8, which in binary64
    arithmetic is just above the constant 0.3: the candidate stays. *)
Example three_of_eight_stays :
  map confidence_score
    (_find_supplier_matches (named "a b c d e f g h") [eight_words])
  = [0.30000000000000004%float].
Proof. reflexivity. Qed.

(** ** Chunks of the translated text *)

Lemma cons_first_not_nil (c : ascii) (l : list pystr) : cons_first c l <> [].
Proof. destruct l; discriminate. Qed.

Lemma split_blank_lines_unfold (c d : ascii) (s : pystr) :
  split_blank_lines (c :: d :: s)
  = if (Ascii.eqb c newline && Ascii.eqb d newline)%bool
    then [] :: split_blank_lines s
    else cons_first c (split_blank_lines (d :: s)).
Proof. reflexivity. Qed.

Lemma split_blank_lines_not_nil (s : pystr) : split_blank_lines s <> [].
Proof.
  destruct s as [|c [|d s]]; try discriminate.
  rewrite split_blank_lines_unfold.
  destruct (Ascii.eqb c newline && Ascii.eqb d newline);
    [discriminate | apply cons_first_not_nil].
Qed.

Lemma join_cons_first (c : ascii) (l : list pystr) :
  l <> [] -> join blank_line (cons_first c l) = c :: join blank_line l.
Proof.
  destruct l as [|w [|w2 ws]]; [congruence | reflexivity | reflexivity].
Qed.

Lemma join_nil_first (l : list pystr) :
  l <> [] -> join blank_line ([] :: l) = newline :: newline :: join blank_line l.
Proof. destruct l; [congruence | reflexivity]. Qed.

Lemma join_split_blank_lines_upto (n : nat) :
  forall s : pystr, length s <= n -> join blank_line (split_blank_lines s) = s.
Proof.
  induction n as [|n IH]; intros [|c [|d s]] H; simpl in H; try reflexivity;
    try lia.
  rewrite split_blank_lines_unfold.
  destruct (Ascii.eqb c newline && Ascii.eqb d newline) eqn:E.
  - apply andb_true_iff in E as [Ec Ed].
    apply Ascii.eqb_eq in Ec, Ed. subst c d.
    rewrite join_nil_first by apply split_blank_lines_not_nil.
    rewrite IH by lia. reflexivity.
  - rewrite join_cons_first by apply split_blank_lines_not_nil.
    rewrite IH by (simpl; lia). reflexivity.
Qed.

(** Splitting at blank lines and joining again gives the text back. *)
Lemma join_split_blank_lines (s : pystr) :
  join blank_line (split_blank_lines s) = s.
Proof. now apply join_split_blank_lines_upto with (length s). Qed.

Lemma join_app (sep : pystr) (g l : list pystr) :
  g <> [] -> l <> [] ->
  join sep (g ++ l) = join sep g ++ sep ++ join sep l.
Proof.
  intros Hg Hl. induction g as [|w g IH]; [congruence|].
  destruct g as [|w2 g].
  - simpl. destruct l; [congruence | reflexivity].
  - change (join sep ((w :: w2 :: g) ++ l))
      with (w ++ sep ++ join sep ((w2 :: g) ++ l)).
    rewrite IH by discriminate.
    change (join sep (w :: w2 :: g)) with (w ++ sep ++ join sep (w2 :: g)).
    now rewrite <- !app_assoc.
Qed.

Lemma join_groups (sep : pystr) (groups : list (list pystr)) :
  Forall (fun g => g <> []) groups ->
  join sep (map (join sep) groups) = join sep (List.concat groups).
Proof.
  induction 1 as [|g groups Hg Hgroups IH]; [reflexivity|].
  destruct groups as [|g2 groups].
  - simpl. now rewrite app_nil_r.
  - change (join sep (map (join sep) (g :: g2 :: groups)))
      with (join sep g ++ sep ++ join sep (map (join sep) (g2 :: groups))).
    rewrite IH. cbn [List.concat].
    rewrite (@join_app sep g (g2 ++ List.concat groups));
      [reflexivity | assumption |].
    inversion Hgroups as [|? ? H2 _]; subst.
    destruct g2; [congruence | discriminate].
Qed.

Lemma chunk_loop_groups (max_chunk_size : nat) (sections : list pystr) :
  forall (current_chunk : list pystr) (current_length : nat),
    chunk_loop max_chunk_size sections current_chunk current_length
    = map (join blank_line)
        (chunk_groups max_chunk_size sections current_chunk current_length).
Proof.
  induction sections as [|section rest IH]; intros cur len; simpl.
  - now destruct cur.
  - destruct (Nat.ltb max_chunk_size (len + length section)
              && match cur with [] => false | _ :: _ => true end);
      simpl; now rewrite IH.
Qed.

Lemma total_length_snoc (sections : list pystr) (s : pystr) :
  total_length (sections ++ [s]) = total_length sections + length s.
Proof.
  induction sections as [|w sections IH]; simpl; [lia|].
  fold (total_length (sections ++ [s])) (total_length sections). lia.
Qed.

(** The groups are the sections, in order, none of them empty; a group of
    several sections holds at most [max_chunk_size] characters. *)
Lemma chunk_groups_partition (max_chunk_size : nat) (sections : list pystr) :
  forall (current_chunk : list pystr) (current_length : nat),
    current_length = total_length current_chunk ->
    (length current_chunk <= 1 \/ total_length current_chunk <= max_chunk_size) ->
    let groups :=
      chunk_groups max_chunk_size sections current_chunk current_length in
    List.concat groups = current_chunk ++ sections /\
    Forall (fun g => g <> [] /\
                     (length g = 1 \/ total_length g <= max_chunk_size)) groups.
Proof.
  induction sections as [|section rest IH]; intros cur len Hlen Hcur; simpl.
  - destruct cur as [|w cur]; [split; [reflexivity | constructor]|].
    split; [reflexivity|]. constructor; [|constructor].
    split; [discriminate|]. simpl in *. destruct Hcur as [H|H]; [left; lia | now right].
  - destruct (Nat.ltb max_chunk_size (len + length section)) eqn:E.
    + destruct cur as [|w cur].
      * cbn [andb]. apply IH.
        -- simpl in *. lia.
        -- left. simpl. lia.
      * cbn [andb].
        destruct (IH [section] (length section)) as [H1 H2].
        -- simpl. lia.
        -- left. simpl. lia.
        -- split.
           ++ cbn [List.concat]. rewrite H1. reflexivity.
           ++ constructor; [|exact H2]. split; [discriminate|].
              simpl in *. destruct Hcur as [H|H]; [left; lia | now right].
    + apply Nat.ltb_ge in E. cbn [andb].
      destruct (IH (cur ++ [section]) (len + length section)) as [H1 H2].
      * rewrite total_length_snoc. lia.
      * right. rewrite total_length_snoc. lia.
      * split; [|exact H2]. rewrite H1. now rewrite <- app_assoc.
Qed.

Lemma length_join_blank_line (g : list pystr) :
  g <> [] ->
  length (join blank_line g) = total_length g + 2 * (length g - 1).
Proof.
  induction g as [|w g IH]; [congruence|]. intros _.
  destruct g as [|w2 g]; [simpl; lia|].
  change (join blank_line (w :: w2 :: g))
    with (w ++ blank_line ++ join blank_line (w2 :: g)).
  rewrite !length_app, IH by discriminate. simpl. lia.
Qed.

(** X1. The chunks of a text are never none, and joined by blank lines they
    are the text again: no character is lost, added or moved. *)
Theorem chunks_rejoin :
  forall (text : pystr) (max_chunk_size : nat),
    _split_into_extraction_chunks text max_chunk_size <> [] /\
    join blank_line (_split_into_extraction_chunks text max_chunk_size) = text.
Proof.
  intros text max_chunk_size. unfold _split_into_extraction_chunks.
  destruct (Nat.leb (length text) max_chunk_size); [split; [discriminate | reflexivity]|].
  rewrite chunk_loop_groups.
  destruct (@chunk_groups_partition max_chunk_size (split_blank_lines text) [] 0)
    as [Hconcat Hgroups]; [reflexivity | left; simpl; lia |].
  simpl app in Hconcat. split.
  - intros H. apply map_eq_nil in H. rewrite H in Hconcat.
    symmetry in Hconcat. now apply split_blank_lines_not_nil in Hconcat.
  - rewrite join_groups.
    + rewrite Hconcat. apply join_split_blank_lines.
    + eapply Forall_impl; [|exact Hgroups]. now intros g [H _].
Qed.

Lemma chunk_groups_head (max_chunk_size : nat) (sections : list pystr) :
  forall (current_chunk : list pystr) (current_length : nat),
    current_chunk <> [] ->
    exists more rest,
      chunk_groups max_chunk_size sections current_chunk current_length
      = (current_chunk ++ more) :: rest.
Proof.
  induction sections as [|section sections IH]; intros cur len Hcur; simpl.
  - destruct cur; [congruence|]. exists [], []. now rewrite app_nil_r.
  - destruct (Nat.ltb max_chunk_size (len + length section)
              && match cur with [] => false | _ :: _ => true end).
    + eexists [], _. now rewrite app_nil_r.
    + destruct (IH (cur ++ [section]) (len + length section))
        as (more & rest & E); [now destruct cur|].
      exists (section :: more), rest. now rewrite E, <- app_assoc.
Qed.

(** A chunk is closed only when the next section does not fit. *)
Lemma chunk_groups_greedy (max_chunk_size : nat) (sections : list pystr) :
  forall (current_chunk : list pystr) (current_length : nat),
    current_length = total_length current_chunk ->
    forall before g s g' after,
      chunk_groups max_chunk_size sections current_chunk current_length
      = before ++ g :: (s :: g') :: after ->
      max_chunk_size < total_length g + length s.
Proof.
  induction sections as [|section sections IH]; intros cur len Hlen;
    intros before g s g' after; simpl.
  - destruct cur; destruct before as [|b [|b' before]]; discriminate.
  - destruct (Nat.ltb max_chunk_size (len + length section)) eqn:E;
      destruct cur as [|w cur]; cbn [andb].
    + apply IH. simpl in *. lia.
    + destruct before as [|b before]; cbn [app]; intros H; injection H as <- H.
      * destruct (@chunk_groups_head max_chunk_size sections [section]
                    (length section)) as (more & rest & E'); [discriminate|].
        rewrite E' in H. injection H as <- _ _.
        apply Nat.ltb_lt in E. lia.
      * apply (IH [section] (length section)) in H; [exact H | simpl; lia].
    + apply IH. rewrite total_length_snoc. lia.
    + apply IH. rewrite total_length_snoc. lia.
Qed.

Lemma total_length_le (sections : list pystr) :
  sections <> [] -> total_length sections <= length (join blank_line sections).
Proof. intros H. rewrite (length_join_blank_line H). lia. Qed.

(** X2. The chunks are the sections of the text, taken in order and in
    groups, each group joined by blank lines.  No group is empty; a group of
    several sections holds at most [max_chunk_size] characters of sections
    (the separators are not counted), a group of one section may be of any
    length; and a group ends before a section only if that section would
    bring it over [max_chunk_size]. *)
Theorem chunk_sizes :
  forall (text : pystr) (max_chunk_size : nat),
    exists groups : list (list pystr),
      List.concat groups = split_blank_lines text /\
      _split_into_extraction_chunks text max_chunk_size
      = map (join blank_line) groups /\
      Forall (fun g => g <> [] /\
                       (length g = 1 \/ total_length g <= max_chunk_size) /\
                       length (join blank_line g)
                       = total_length g + 2 * (length g - 1)) groups /\
      (forall before g s g' after,
         groups = before ++ g :: (s :: g') :: after ->
         max_chunk_size < total_length g + length s) /\
      (length text <= max_chunk_size -> groups = [split_blank_lines text]).
Proof.
  intros text max_chunk_size. unfold _split_into_extraction_chunks.
  destruct (Nat.leb (length text) max_chunk_size) eqn:E.
  - apply Nat.leb_le in E. exists [split_blank_lines text].
    pose proof (@split_blank_lines_not_nil text) as Hne.
    split; [simpl; now rewrite app_nil_r|].
    split; [simpl; now rewrite join_split_blank_lines|].
    split; [|split; [|reflexivity]].
    2:{ intros [|b [|b' before]] g s g' after; discriminate. }
    constructor; [|constructor]. split; [exact Hne|].
    split; [|now apply length_join_blank_line].
    right. pose proof (total_length_le Hne) as H.
    rewrite join_split_blank_lines in H. lia.
  - apply Nat.leb_gt in E.
    exists (chunk_groups max_chunk_size (split_blank_lines text) [] 0).
    destruct (@chunk_groups_partition max_chunk_size (split_blank_lines text) [] 0)
      as [Hconcat Hgroups]; [reflexivity | left; simpl; lia |].
    split; [exact Hconcat|]. split; [apply chunk_loop_groups|].
    split; [|split; [|lia]].
    + eapply Forall_impl; [|exact Hgroups]. intros g [Hne Hsize].
      split; [exact Hne|]. split; [exact Hsize|].
      now apply length_join_blank_line.
    + intros before g s g' after H.
      now apply (@chunk_groups_greedy max_chunk_size (split_blank_lines text)
                   [] 0 eq_refl before g s g' after).
Qed.

(** Three sections of one, one and two characters with room for three: the
    first two share a chunk, the third does not fit. *)
Example chunks_of_three_sections :
  _split_into_extraction_chunks
    [ "a"%char; newline; newline; "b"%char; newline; newline;
      "c"%char; "d"%char ] 3
  = [ [ "a"%char; newline; newline; "b"%char ]; str "cd" ].
Proof. reflexivity. Qed.

(** ** More on deduplication *)

Lemma mem_app (x : pystr) (a b : list pystr) :
  mem x (a ++ b) = mem x a || mem x b.
Proof. unfold mem. apply existsb_app. Qed.

Lemma dedup_loop_not_seen (materials : list ExtractedMaterial) :
  forall acc seen : list pystr,
    dedup_loop materials (acc ++ seen)
    = dedup_loop (not_seen seen materials) acc.
Proof.
  unfold not_seen.
  induction materials as [|m rest IH]; intros acc seen; [reflexivity|].
  cbn [dedup_loop filter]. rewrite mem_app.
  destruct (mem (name_key m) seen) eqn:Es.
  - rewrite orb_true_r. cbn [negb]. apply IH.
  - rewrite orb_false_r. cbn [negb dedup_loop].
    destruct (mem (name_key m) acc); [apply IH|].
    f_equal. apply (IH (name_key m :: acc) seen).
Qed.

Lemma not_seen_ext (keys keys' : list pystr) (materials : list ExtractedMaterial) :
  (forall k, In k keys <-> In k keys') ->
  not_seen keys materials = not_seen keys' materials.
Proof.
  intros H. unfold not_seen. apply filter_ext. intros m. f_equal.
  destruct (mem (name_key m) keys) eqn:E, (mem (name_key m) keys') eqn:E';
    try reflexivity.
  - apply mem_In, H, mem_In in E. congruence.
  - apply mem_In, H, mem_In in E'. congruence.
Qed.

Lemma dedup_loop_app (first second : list ExtractedMaterial) :
  forall seen : list pystr,
    dedup_loop (first ++ second) seen
    = dedup_loop first seen
      ++ dedup_loop (not_seen (map name_key first ++ seen) second) [].
Proof.
  induction first as [|m rest IH]; intros seen.
  - simpl. apply (dedup_loop_not_seen second [] seen).
  - cbn [app dedup_loop map]. destruct (mem (name_key m) seen) eqn:E.
    + rewrite IH. f_equal. f_equal. apply not_seen_ext. intros k.
      apply mem_In in E. rewrite !in_app_iff. simpl. rewrite in_app_iff.
      split; [tauto|]. intros [<-|H]; tauto.
    + rewrite IH. cbn [app]. f_equal. f_equal. f_equal.
      apply not_seen_ext. intros k. rewrite !in_app_iff. simpl.
      rewrite in_app_iff. tauto.
Qed.

Lemma dedup_loop_distinct (materials : list ExtractedMaterial) :
  forall seen : list pystr,
    NoDup (map name_key materials) ->
    (forall m, In m materials -> ~ In (name_key m) seen) ->
    dedup_loop materials seen = materials.
Proof.
  induction materials as [|m rest IH]; intros seen Hnd Hseen; [reflexivity|].
  cbn [dedup_loop]. inversion Hnd as [|? ? Hm Hrest]; subst.
  assert (E : mem (name_key m) seen = false).
  { apply mem_false. apply Hseen. now left. }
  rewrite E. f_equal. apply IH; [assumption|].
  intros m' Hm' [Hk|Hk].
  - apply Hm. rewrite Hk. now apply in_map.
  - apply (Hseen m'); [now right | assumption].
Qed.

(** X3. Deduplication is idempotent, leaves a batch without duplicate keys
    as it is, and works from left to right: the result for two batches one
    after the other is the result for the first, followed by the result for
    those materials of the second whose key the first does not have. *)
Theorem deduplicate_twice_and_in_order :
  forall first second : list ExtractedMaterial,
    _deduplicate_materials (_deduplicate_materials first)
    = _deduplicate_materials first /\
    (NoDup (map name_key first) -> _deduplicate_materials first = first) /\
    _deduplicate_materials (first ++ second)
    = _deduplicate_materials first
      ++ _deduplicate_materials (not_seen (map name_key first) second).
Proof.
  intros first second. unfold _deduplicate_materials.
  assert (Hdistinct : forall l, NoDup (map name_key l) -> dedup_loop l [] = l).
  { intros l H. apply dedup_loop_distinct; [assumption | intros ? ? []]. }
  split; [|split].
  - apply Hdistinct, dedup_loop_NoDup.
  - apply Hdistinct.
  - rewrite dedup_loop_app. now rewrite app_nil_r.
Qed.

(** ** Summaries of a batch of materials *)

Lemma count_paths (materials : list ExtractedMaterial) :
  count_if (is_path GREEN) materials + count_if (is_path AMBER) materials
  + count_if (is_path RED) materials = length materials.
Proof.
  unfold count_if, is_path.
  induction materials as [|m rest IH]; [reflexivity|].
  simpl. destruct (action_path_rag m); simpl; lia.
Qed.

Lemma bump_get (l k : QAClassificationLabel)
    (breakdown : list (QAClassificationLabel * nat)) :
  breakdown_get k (bump l breakdown)
  = (if label_eq_dec l k then 1 else 0) + breakdown_get k breakdown.
Proof.
  induction breakdown as [|[k' n] rest IH]; simpl.
  - destruct (label_eq_dec l k); reflexivity.
  - destruct (label_eq_dec k' l) as [->|Hne]; simpl.
    + destruct (label_eq_dec l k); reflexivity.
    + destruct (label_eq_dec k' k) as [->|Hk].
      * destruct (label_eq_dec l k); [congruence | reflexivity].
      * exact IH.
Qed.

Lemma bump_total (l : QAClassificationLabel)
    (breakdown : list (QAClassificationLabel * nat)) :
  breakdown_total (bump l breakdown) = S (breakdown_total breakdown).
Proof.
  induction breakdown as [|[k n] rest IH]; [reflexivity|].
  simpl. destruct (label_eq_dec k l); simpl; [lia|].
  fold (breakdown_total (bump l rest)) (breakdown_total rest). lia.
Qed.

Lemma bump_keys (l : QAClassificationLabel)
    (breakdown : list (QAClassificationLabel * nat)) :
  NoDup (map fst breakdown) ->
  NoDup (map fst (bump l breakdown)) /\
  (forall k, In k (map fst (bump l breakdown)) <->
             k = l \/ In k (map fst breakdown)) /\
  (forall k n, In (k, n) (bump l breakdown) -> 0 < n \/ In (k, n) breakdown).
Proof.
  induction breakdown as [|[k' n'] rest IH]; intros Hnd.
  - simpl. split; [repeat constructor; intros []|]. split.
    + intros k. simpl. intuition.
    + intros k n [H|[]]. injection H as <- <-. left. lia.
  - inversion Hnd as [|? ? Hk Hrest]; subst.
    destruct (IH Hrest) as (H1 & H2 & H3).
    cbn [bump]. destruct (label_eq_dec k' l) as [->|Hne].
    + split; [exact Hnd|]. split.
      * intros k. simpl. intuition congruence.
      * intros k n [H|H]; [injection H as <- <-; left; lia | right; now right].
    + split; [|split].
      * simpl. constructor; [|assumption].
        intros H. apply H2 in H as [H|H]; [congruence | contradiction].
      * intros k. simpl. rewrite H2. intuition congruence.
      * intros k n [H|H]; [right; now left|].
        apply H3 in H as [H|H]; [now left | right; now right].
Qed.

Lemma fold_bump (materials : list ExtractedMaterial) :
  forall breakdown : list (QAClassificationLabel * nat),
    NoDup (map fst breakdown) ->
    (forall k n, In (k, n) breakdown -> 0 < n) ->
    let result :=
      fold_left (fun b m => bump (classification_label m) b) materials breakdown in
    NoDup (map fst result) /\
    (forall k n, In (k, n) result -> 0 < n) /\
    breakdown_total result = length materials + breakdown_total breakdown /\
    forall k, breakdown_get k result
              = occurrences k materials + breakdown_get k breakdown.
Proof.
  induction materials as [|m rest IH]; intros breakdown Hnd Hpos.
  - simpl. repeat split; auto.
  - cbn [fold_left].
    destruct (@bump_keys (classification_label m) breakdown Hnd) as (H1 & _ & H3).
    destruct (IH (bump (classification_label m) breakdown) H1) as (R1 & R2 & R3 & R4).
    { intros k n H. apply H3 in H as [H|H]; [assumption | eauto]. }
    split; [assumption|]. split; [assumption|]. split.
    + rewrite R3, bump_total. simpl. lia.
    + intros k. rewrite R4, bump_get. unfold occurrences, count_if. simpl.
      destruct (label_eq_dec (classification_label m) k); simpl; lia.
Qed.

(** X4. In the summary of a batch the green, amber and red counts add up to
    the number of materials, and so do the counts of the breakdown by label;
    the breakdown has one entry per label that occurs, holding how often it
    occurs, and no entry with count 0. *)
Theorem classification_summary_adds_up :
  forall materials : list ExtractedMaterial,
    let summary := _generate_classification_summary materials in
    total_materials summary = length materials /\
    green_materials summary + amber_materials summary + red_materials summary
    = total_materials summary /\
    breakdown_total (classification_breakdown summary) = total_materials summary /\
    NoDup (map fst (classification_breakdown summary)) /\
    (forall l, breakdown_get l (classification_breakdown summary)
               = occurrences l materials) /\
    (forall l n, In (l, n) (classification_breakdown summary) -> 0 < n).
Proof.
  intros materials summary. subst summary.
  unfold _generate_classification_summary.
  destruct materials as [|m rest].
  - simpl. repeat split; try constructor. intros l n [].
  - set (materials := m :: rest).
    cbn [total_materials green_materials amber_materials red_materials
         classification_breakdown].
    destruct (@fold_bump materials []) as (R1 & R2 & R3 & R4);
      [constructor | intros ? ? [] |].
    split; [reflexivity|]. split; [apply count_paths|].
    split; [rewrite R3; simpl; lia|]. split; [assumption|].
    split; [|assumption]. intros l. rewrite R4. simpl. lia.
Qed.

Section DistributionFacts.

Variable confidence_score_of : ExtractedMaterial -> float.

Lemma float_leb_ltb_split (x a : float) :
  PrimFloat.eqb x x = true -> PrimFloat.eqb a a = true ->
  PrimFloat.ltb x a = negb (PrimFloat.leb a x).
Proof.
  rewrite !FloatAxioms.eqb_spec, FloatAxioms.ltb_spec, FloatAxioms.leb_spec.
  rewrite !SFeqb_rank. intros (Hx & _ & _) (Ha & _ & _).
  destruct (lex_lt_total (rank (Prim2SF x)) (rank (Prim2SF a))) as [H|[H|H]].
  - assert (E : SFltb (Prim2SF x) (Prim2SF a) = true) by (apply SFltb_rank; tauto).
    rewrite E. symmetry. apply negb_true_iff, not_true_is_false.
    rewrite SFleb_rank. intros (_ & _ & [H'|H']).
    + exact (@lex_lt_irrefl _ (@lex_lt_trans _ _ _ H H')).
    + rewrite H' in H. exact (@lex_lt_irrefl _ H).
  - assert (E : SFleb (Prim2SF a) (Prim2SF x) = true).
    { apply SFleb_rank. repeat split; auto. }
    rewrite E. apply not_true_is_false. rewrite SFltb_rank.
    intros (_ & _ & H'). rewrite H in H'. exact (@lex_lt_irrefl _ H').
  - assert (E : SFleb (Prim2SF a) (Prim2SF x) = true).
    { apply SFleb_rank. repeat split; auto. }
    rewrite E. apply not_true_is_false. rewrite SFltb_rank.
    intros (_ & _ & H'). exact (@lex_lt_irrefl _ (@lex_lt_trans _ _ _ H H')).
Qed.

Lemma float_leb_trans (x y z : float) :
  PrimFloat.leb x y = true -> PrimFloat.leb y z = true ->
  PrimFloat.leb x z = true.
Proof.
  rewrite !FloatAxioms.leb_spec, !SFleb_rank.
  intros (Hx & _ & H1) (_ & Hz & H2). repeat split; try assumption.
  destruct H1 as [H1|H1], H2 as [H2|H2].
  - left. exact (@lex_lt_trans _ _ _ H1 H2).
  - left. now rewrite <- H2.
  - left. now rewrite H1.
  - right. congruence.
Qed.

(** A score that is a number falls into exactly one of the three classes;
    a score that is not falls into none. *)
Lemma one_class (x : float) :
  (if PrimFloat.leb 0.8 x then 1 else 0)
  + (if PrimFloat.leb 0.6 x && PrimFloat.ltb x 0.8 then 1 else 0)
  + (if PrimFloat.ltb x 0.6 then 1 else 0)
  = (if PrimFloat.eqb x x then 1 else 0).
Proof.
  destruct (PrimFloat.eqb x x) eqn:Hx.
  - rewrite (@float_leb_ltb_split x 0.8%float Hx eq_refl),
            (@float_leb_ltb_split x 0.6%float Hx eq_refl).
    destruct (PrimFloat.leb 0.8 x) eqn:E8.
    + rewrite (@float_leb_trans 0.6%float 0.8%float x eq_refl E8). reflexivity.
    + destruct (PrimFloat.leb 0.6 x); reflexivity.
  - assert (Hnan : forall a, PrimFloat.leb a x = false /\ PrimFloat.ltb x a = false).
    { intros a. split; apply not_true_is_false.
      - rewrite FloatAxioms.leb_spec, SFleb_rank. intros (_ & H & _).
        apply not_true_iff_false in Hx. apply Hx.
        rewrite FloatAxioms.eqb_spec, SFeqb_rank. tauto.
      - rewrite FloatAxioms.ltb_spec, SFltb_rank. intros (H & _ & _).
        apply not_true_iff_false in Hx. apply Hx.
        rewrite FloatAxioms.eqb_spec, SFeqb_rank. tauto. }
    destruct (Hnan 0.8%float) as [-> ->], (Hnan 0.6%float) as [-> ->].
    reflexivity.
Qed.

(** X5. The three confidence classes count every material whose score is a
    number exactly once, and a material whose score is NaN not at all. *)
Theorem confidence_distribution_counts_numbers :
  forall materials : list ExtractedMaterial,
    let d := _calculate_confidence_distribution confidence_score_of materials in
    high d + medium d + low d
    = count_if (fun m => PrimFloat.eqb (confidence_score_of m)
                           (confidence_score_of m)) materials /\
    high d + medium d + low d <= length materials.
Proof.
  intros materials d. subst d.
  assert (E : high (_calculate_confidence_distribution confidence_score_of materials)
              + medium (_calculate_confidence_distribution confidence_score_of materials)
              + low (_calculate_confidence_distribution confidence_score_of materials)
              = count_if (fun m => PrimFloat.eqb (confidence_score_of m)
                                     (confidence_score_of m)) materials).
  { unfold _calculate_confidence_distribution.
    destruct materials as [|m0 rest]; [reflexivity|].
    cbn [high medium low]. generalize (m0 :: rest). clear. intros l.
    unfold count_if. induction l as [|m l IH]; [reflexivity|].
    cbn [filter]. pose proof (one_class (confidence_score_of m)) as H.
    destruct (PrimFloat.leb 0.8 (confidence_score_of m)),
             (PrimFloat.leb 0.6 (confidence_score_of m)
              && PrimFloat.ltb (confidence_score_of m) 0.8),
             (PrimFloat.ltb (confidence_score_of m) 0.6),
             (PrimFloat.eqb (confidence_score_of m) (confidence_score_of m));
      simpl in *; lia. }
  split; [exact E|]. rewrite E. unfold count_if. apply filter_length_le.
Qed.

End DistributionFacts.

(** ** More on the Normalizer *)

Lemma In_join (sep : pystr) (ws : list pystr) (c : ascii) :
  In c (join sep ws) -> In c sep \/ exists w, In w ws /\ In c w.
Proof.
  induction ws as [|w ws IH]; [intros []|].
  destruct ws as [|w2 ws].
  - simpl. intros H. right. exists w. split; [now left | assumption].
  - change (join sep (w :: w2 :: ws)) with (w ++ sep ++ join sep (w2 :: ws)).
    rewrite !in_app_iff. intros [H|[H|H]].
    + right. exists w. split; [now left | assumption].
    + now left.
    + destruct (IH H) as [H'|(w' & Hw' & Hc)]; [now left|].
      right. exists w'. split; [now right | assumption].
Qed.

(** X6. A normalized name consists of lower-case letters, digits and single
    spaces: every character is a space or an alphanumeric character that
    lower-casing leaves alone, the name neither starts nor ends with
    whitespace, and its words are separated by exactly one space. *)
Theorem normalized_name_shape :
  forall x : option pystr,
    let y := normalize_material_name x in
    (forall c, In c y ->
       c = " "%char \/
       (isalnum c = true /\ isspace c = false /\ lower_char c = c)) /\
    strip y = y /\
    lower y = y /\
    join space (split y) = y.
Proof.
  intros x y. subst y. destruct (normal_form x) as (ws & -> & Hw & Hs).
  split; [|split; [|split]].
  - intros c H. apply In_join in H as [[<-|[]]|(w & Hin & Hc)]; [now left|].
    right. rewrite Forall_forall in Hw, Hs.
    destruct (Hw w Hin) as [_ Hsp]. rewrite Forall_forall in Hsp.
    specialize (Hs w Hin). rewrite Forall_forall in Hs.
    destruct (Hs c Hc) as [Hkeep Hlow]. pose proof (Hsp c Hc) as Hnsp.
    unfold keep_char in Hkeep. rewrite Hnsp, orb_false_r in Hkeep. auto.
  - now apply strip_join.
  - apply lower_settled. apply Forall_join; [repeat constructor | assumption].
  - now rewrite split_join.
Qed.

Lemma isspace_lower_char (c : ascii) : isspace (lower_char c) = isspace c.
Proof. each_char c; reflexivity. Qed.

Lemma lower_idempotent (s : pystr) : lower (lower s) = lower s.
Proof.
  unfold lower. rewrite map_map. apply map_ext. apply lower_char_idempotent.
Qed.

Lemma lstrip_blank_app (a s : pystr) : blank a -> lstrip (a ++ s) = lstrip s.
Proof.
  induction 1 as [|c a Hc _ IH]; [reflexivity|]. simpl. now rewrite Hc.
Qed.

Lemma lstrip_blank (a : pystr) : blank a -> lstrip a = [].
Proof.
  intros H. rewrite <- (app_nil_r a). now rewrite lstrip_blank_app.
Qed.

Lemma blank_rev (a : pystr) : blank a -> blank (rev a).
Proof. unfold blank. apply Forall_rev. Qed.

Lemma rstrip_app_blank (s b : pystr) : blank b -> rstrip (s ++ b) = rstrip s.
Proof.
  intros H. unfold rstrip. rewrite rev_app_distr.
  now rewrite lstrip_blank_app by now apply blank_rev.
Qed.

Lemma lstrip_app_cases (s b : pystr) :
  blank b ->
  (lstrip s = [] /\ lstrip (s ++ b) = []) \/ lstrip (s ++ b) = lstrip s ++ b.
Proof.
  intros Hb. induction s as [|c s IH].
  - left. split; [reflexivity | now apply lstrip_blank].
  - simpl. destruct (isspace c); [exact IH | now right].
Qed.

Lemma strip_blank_around (a s b : pystr) :
  blank a -> blank b -> strip (a ++ s ++ b) = strip s.
Proof.
  intros Ha Hb. unfold strip. rewrite lstrip_blank_app by assumption.
  destruct (lstrip_app_cases s Hb) as [[E1 E2]|E].
  - now rewrite E1, E2.
  - rewrite E. now apply rstrip_app_blank.
Qed.

Lemma lower_blank (a : pystr) : blank a -> blank (lower a).
Proof.
  unfold blank, lower. intros H. apply Forall_map.
  eapply Forall_impl; [|exact H]. intros c Hc. now rewrite isspace_lower_char.
Qed.

(** X7. The Normalizer ignores case and surrounding whitespace: a name, its
    lower-cased form, and the name with whitespace put before and after it
    all have the same normalized name. *)
Theorem normalize_ignores_case_and_margins
    (s before after : pystr)
    (Hbefore : blank before) (Hafter : blank after) :
  normalize_material_name (Some (lower s)) = normalize_material_name (Some s) /\
  normalize_material_name (Some (before ++ s ++ after))
  = normalize_material_name (Some s).
Proof.
  rewrite !normalize_is_spec. unfold normalize_spec. split.
  - now rewrite lower_idempotent.
  - unfold lower. rewrite !map_app. fold (lower before) (lower s) (lower after).
    now rewrite strip_blank_around by now apply lower_blank.
Qed.

Lemma normalize_ignores_case_and_margins_witness :
  normalize_material_name (Some (lower (str "Hex Bolt")))
  = normalize_material_name (Some (str "Hex Bolt")) /\
  normalize_material_name (Some (str "  " ++ str "Hex Bolt" ++ str " "))
  = normalize_material_name (Some (str "Hex Bolt")).
Proof.
  apply (@normalize_ignores_case_and_margins (str "Hex Bolt") (str "  ") (str " "));
    repeat constructor.
Defined.

(** ** More on the knowledge store *)

Lemma max_id_nonneg (rows : list ItemRow) : (0 <= max_id rows)%Z.
Proof. induction rows as [|r rows IH]; simpl; lia. Qed.

Lemma max_id_app (rows rows' : list ItemRow) :
  max_id (rows ++ rows') = Z.max (max_id rows) (max_id rows').
Proof.
  induction rows as [|r rows IH]; simpl.
  - pose proof (max_id_nonneg rows'). lia.
  - fold (max_id (rows ++ rows')). rewrite IH. lia.
Qed.

Lemma max_id_bound (rows : list ItemRow) (r : ItemRow) :
  In r rows -> (id r <= max_id rows)%Z.
Proof.
  induction rows as [|a rows IH]; [intros []|].
  simpl. fold (max_id rows). intros [->|H]; [lia|].
  specialize (IH H). lia.
Qed.

(** What the INSERT loop does to the store when nothing fails. *)
Lemma insert_loop_appends (batch : list Item) :
  forall (clock : nat -> nat) (k : nat) (workflow document : option pystr)
         (db db' : Store) (ids : list Z),
    insert_loop NoFault clock k batch workflow document db = Some (db', ids) ->
    exists rows,
      items db' = items db ++ rows /\
      item_matches db' = item_matches db /\
      map id rows = ids /\
      map source_item rows = batch /\
      Forall (fun r => workflow_id r = workflow /\
                       source_document r = document /\
                       updated_at r = created_at r /\
                       normalized_name r
                       = normalize_material_name (Some (material_name r))) rows /\
      StronglySorted Z.lt ids /\
      Forall (fun i => (high_water db < i)%Z) ids /\
      (high_water db <= high_water db')%Z.
Proof.
  induction batch as [|a rest IH]; intros clock k workflow document db db' ids.
  - simpl. intros H. injection H as <- <-. exists []. rewrite app_nil_r.
    repeat split; try constructor. lia.
  - cbn [insert_loop raises]. unfold insert_item.
    set (row := {| id := next_id db; source_item := a |}).
    set (db1 := {| items := items db ++ [row] |}).
    destruct (insert_loop NoFault clock (S k) rest workflow document db1)
      as [[db2 ids']|] eqn:E; [|discriminate].
    intros H. injection H as <- <-.
    destruct (IH _ _ _ _ _ _ _ E)
      as (rows & H1 & H2 & H3 & H4 & H5 & H6 & H7 & H8).
    assert (Hw : high_water db1 = next_id db).
    { unfold high_water, db1. cbn [items items_seq]. rewrite max_id_app.
      simpl. unfold next_id. pose proof (max_id_nonneg (items db)). lia. }
    exists (row :: rows). repeat split.
    + rewrite H1. unfold db1. cbn [items]. now rewrite <- app_assoc.
    + now rewrite H2.
    + simpl. now rewrite H3.
    + simpl. now rewrite H4.
    + constructor; [repeat split | assumption].
    + constructor; [assumption|].
      eapply Forall_impl; [|exact H7]. intros i Hi. rewrite Hw in Hi.
      unfold row. cbn [id]. exact Hi.
    + constructor.
      * unfold next_id, high_water. lia.
      * eapply Forall_impl; [|exact H7]. intros i Hi. rewrite Hw in Hi.
        unfold next_id, high_water in *. lia.
    + rewrite Hw in H8. unfold next_id, high_water in *. lia.
Qed.

Ltac nothing_appended :=
  exists []; cbn [fst snd]; rewrite app_nil_r;
  split; [reflexivity|]; split; [reflexivity|]; split; [reflexivity|];
  split; [now left|]; split; [constructor|]; split; [constructor|];
  split; [constructor | lia].

(** The same for [add_items], whatever the environment does. *)
Lemma add_items_appends (fault : Fault) (clock : nat -> nat) (batch : list Item)
    (workflow document : option pystr) (db : Store) :
  exists rows,
    items (store_after fault clock batch workflow document db)
    = items db ++ rows /\
    item_matches (store_after fault clock batch workflow document db)
    = item_matches db /\
    map id rows = ids_returned fault clock batch workflow document db /\
    (rows = [] \/ map source_item rows = batch) /\
    Forall (fun r => workflow_id r = workflow /\
                     source_document r = document /\
                     updated_at r = created_at r /\
                     normalized_name r
                     = normalize_material_name (Some (material_name r))) rows /\
    StronglySorted Z.lt (ids_returned fault clock batch workflow document db) /\
    Forall (fun i => (high_water db < i)%Z)
      (ids_returned fault clock batch workflow document db) /\
    (high_water db
     <= high_water (store_after fault clock batch workflow document db))%Z.
Proof.
  unfold store_after, ids_returned.
  destruct (add_items_cases fault clock batch workflow document db)
    as [E|[_ E]]; rewrite E.
  - nothing_appended.
  - clear E. unfold add_items. destruct batch as [|a rest].
    + nothing_appended.
    + cbn [raises].
      destruct (insert_loop NoFault clock 0 (a :: rest) workflow document db)
        as [[db' ids]|] eqn:E.
      * destruct (insert_loop_appends _ _ _ _ _ _ E)
          as (rows & H1 & H2 & H3 & H4 & H5 & H6 & H7 & H8).
        exists rows. cbn [fst snd]. repeat split; try assumption. now right.
      * nothing_appended.
Qed.

(** X8. Keys are fresh and increasing: the ids [add_items] returns are
    strictly increasing and larger than every id in the store and than the
    AUTOINCREMENT counter; if the ids of the store were pairwise different,
    they still are afterwards. *)
Theorem add_items_ids_fresh :
  forall (fault : Fault) (clock : nat -> nat) (batch : list Item)
         (workflow document : option pystr) (db : Store),
    let ids := ids_returned fault clock batch workflow document db in
    let db' := store_after fault clock batch workflow document db in
    StronglySorted Z.lt ids /\
    (forall i r, In i ids -> In r (items db) -> (id r < i)%Z) /\
    (forall i, In i ids -> (items_seq db < i)%Z) /\
    (NoDup (map id (items db)) -> NoDup (map id (items db'))).
Proof.
  intros fault clock batch workflow document db ids db'. subst ids db'.
  destruct (add_items_appends fault clock batch workflow document db)
    as (rows & H1 & _ & H3 & _ & _ & H6 & H7 & _).
  rewrite Forall_forall in H7.
  assert (Hfresh : forall i r,
            In i (ids_returned fault clock batch workflow document db) ->
            In r (items db) -> (id r < i)%Z).
  { intros i r Hi Hr. specialize (H7 i Hi). apply max_id_bound in Hr.
    unfold high_water in H7. lia. }
  split; [assumption|]. split; [assumption|]. split.
  - intros i Hi. specialize (H7 i Hi). unfold high_water in H7. lia.
  - intros Hnd. rewrite H1, map_app, H3. apply NoDup_app; [assumption | |].
    + clear - H6. induction H6 as [|i l _ IH Hi]; constructor; [|assumption].
      intros Hin. rewrite Forall_forall in Hi. specialize (Hi i Hin). lia.
    + intros i Hi Hi'. apply in_map_iff in Hi as (r & <- & Hr).
      specialize (Hfresh _ r Hi' Hr). lia.
Qed.

(** X9. [add_items] only appends: the rows the store held stay, in their
    order and unchanged, in front of the new ones; table [item_matches] is
    not touched; and each new row carries the workflow and the document of
    the call and the normalized form of its own material name. *)
Theorem add_items_appends_only :
  forall (fault : Fault) (clock : nat -> nat) (batch : list Item)
         (workflow document : option pystr) (db : Store),
    let db' := store_after fault clock batch workflow document db in
    let ids := ids_returned fault clock batch workflow document db in
    exists rows,
      items db' = items db ++ rows /\
      item_matches db' = item_matches db /\
      map id rows = ids /\
      (rows = [] \/ map source_item rows = batch) /\
      forall r, In r rows ->
        workflow_id r = workflow /\ source_document r = document /\
        updated_at r = created_at r /\
        normalized_name r = normalize_material_name (Some (material_name r)).
Proof.
  intros fault clock batch workflow document db db' ids. subst db' ids.
  destruct (add_items_appends fault clock batch workflow document db)
    as (rows & H1 & H2 & H3 & H4 & H5 & _).
  exists rows. repeat split; try assumption;
    rewrite Forall_forall in H5; now apply H5.
Qed.

Lemma rows_found_rows (fault : Fault) (material : option pystr) (db : Store)
    (r : ItemRow) :
  In r (rows_found fault material db) ->
  In r (items db) /\
  normalized_name r = normalize_material_name material /\
  normalize_material_name material <> [].
Proof.
  unfold rows_found, find_similar_items.
  destruct (raises fault 0); [intros []|].
  destruct (normalize_material_name material) as [|c q] eqn:E; [intros []|].
  cbn [nonempty]. destruct (raises fault 1); [intros []|].
  cbn [fst]. rewrite map_map. cbn [as_exact kb_row]. rewrite map_id.
  intros H. destruct (select_exact_rows (c :: q) db) as (Hin & _).
  destruct (Hin r H) as [H1 H2]. repeat split; [assumption | assumption |].
  discriminate.
Qed.

(** X10. Every row holds the normalized form of its own material name: the
    empty store has this property, [add_items] and [clear_all_data] keep it,
    and then a lookup returns only rows whose material name normalizes to
    what the query normalizes to. *)
Theorem normalized_names_kept
    (db : Store) (Hdb : names_normalized db) :
  names_normalized empty_store /\
  (forall fault clock batch workflow document,
     names_normalized (store_after fault clock batch workflow document db)) /\
  (forall fault, names_normalized (clear_all_data fault db)) /\
  (forall fault material r,
     In r (rows_found fault material db) ->
     normalize_material_name (Some (material_name r))
     = normalize_material_name material).
Proof.
  split; [intros r []|]. split; [|split].
  - intros fault clock batch workflow document r Hr.
    destruct (add_items_appends fault clock batch workflow document db)
      as (rows & H1 & _ & _ & _ & H5 & _).
    rewrite H1 in Hr. apply in_app_iff in Hr as [Hr|Hr]; [now apply Hdb|].
    rewrite Forall_forall in H5. now apply H5.
  - intros fault r. unfold clear_all_data.
    destruct (raises fault 0 || raises fault 1 || raises fault 2 || raises fault 3);
      [apply Hdb | intros []].
  - intros fault material r Hr. apply rows_found_rows in Hr as (Hin & Hn & _).
    rewrite <- Hn. symmetry. now apply Hdb.
Qed.

Lemma normalized_names_kept_witness :
  names_normalized empty_store /\
  (forall fault clock batch workflow document,
     names_normalized (store_after fault clock batch workflow document bolt_store)) /\
  (forall fault, names_normalized (clear_all_data fault bolt_store)) /\
  (forall fault material r,
     In r (rows_found fault material bolt_store) ->
     normalize_material_name (Some (material_name r))
     = normalize_material_name material).
Proof.
  apply (@normalized_names_kept bolt_store).
  intros r H. vm_compute in H. destruct H as [<-|[]]. reflexivity.
Defined.

Lemma find_by_normalized_name (fault : Fault) (m1 m2 : option pystr) (db : Store) :
  normalize_material_name m1 = normalize_material_name m2 ->
  find_similar_items fault m1 db = find_similar_items fault m2 db.
Proof. intros H. unfold find_similar_items. now rewrite H. Qed.

Lemma normalize_fixed (x : option pystr) :
  normalize_material_name (Some (normalize_material_name x))
  = normalize_material_name x.
Proof.
  destruct (normal_form x) as (ws & -> & Hw & Hs).
  rewrite normalize_is_spec. now apply normalize_spec_fixed.
Qed.

(** X11. A lookup depends on the query through its normalized name only:
    looking up a name, its normalized form, its lower-cased form or the name
    with whitespace around it returns the same list. *)
Theorem find_ignores_spelling
    (fault : Fault) (db : Store) (s before after : pystr)
    (Hbefore : blank before) (Hafter : blank after) :
  find_similar_items fault (Some (normalize_material_name (Some s))) db
  = find_similar_items fault (Some s) db /\
  find_similar_items fault (Some (lower s)) db
  = find_similar_items fault (Some s) db /\
  find_similar_items fault (Some (before ++ s ++ after)) db
  = find_similar_items fault (Some s) db.
Proof.
  split; [|split]; apply find_by_normalized_name.
  - apply normalize_fixed.
  - rewrite !normalize_is_spec. unfold normalize_spec.
    now rewrite lower_idempotent.
  - rewrite !normalize_is_spec. unfold normalize_spec.
    unfold lower. rewrite !map_app. fold (lower before) (lower s) (lower after).
    now rewrite strip_blank_around by now apply lower_blank.
Qed.

Lemma find_ignores_spelling_witness :
  find_similar_items NoFault
    (Some (normalize_material_name (Some (str "Bolt")))) bolt_store
  = find_similar_items NoFault (Some (str "Bolt")) bolt_store /\
  find_similar_items NoFault (Some (lower (str "Bolt"))) bolt_store
  = find_similar_items NoFault (Some (str "Bolt")) bolt_store /\
  find_similar_items NoFault (Some (str " " ++ str "Bolt" ++ str "  ")) bolt_store
  = find_similar_items NoFault (Some (str "Bolt")) bolt_store.
Proof.
  apply (@find_ignores_spelling NoFault bolt_store (str "Bolt") (str " ") (str "  "));
    repeat constructor.
Defined.

(** X12. After [clear_all_data] both tables are empty and every lookup
    returns nothing, but the keys of the deleted rows are not given out
    again: the ids of a later insert are larger than all of them. *)
Theorem clear_forgets_rows_not_keys :
  forall (db : Store) (fault : Fault) (clock : nat -> nat) (batch : list Item)
         (workflow document material : option pystr),
    let cleared := clear_all_data NoFault db in
    items cleared = [] /\
    item_matches cleared = [] /\
    fst (find_similar_items fault material cleared) = [] /\
    (forall i r,
       In i (ids_returned fault clock batch workflow document cleared) ->
       In r (items db) -> (id r < i)%Z).
Proof.
  intros db fault clock batch workflow document material cleared.
  split; [reflexivity|]. split; [reflexivity|]. split.
  - unfold find_similar_items. destruct (raises fault 0); [reflexivity|].
    destruct (nonempty (normalize_material_name material)); [|reflexivity].
    destruct (raises fault 1); reflexivity.
  - intros i r Hi Hr.
    destruct (add_items_appends fault clock batch workflow document cleared)
      as (_ & _ & _ & _ & _ & _ & _ & H7 & _).
    rewrite Forall_forall in H7. specialize (H7 i Hi).
    apply max_id_bound in Hr. unfold high_water, cleared in H7.
    cbn [clear_all_data raises orb items items_seq max_id fold_right] in H7.
    lia.
Qed.

Lemma count_distinct_le (A : Type) (eq_dec : forall x y : A, {x = y} + {x <> y})
    (column : list (option A)) :
  count_distinct eq_dec column <= length column.
Proof.
  unfold count_distinct.
  transitivity (length (non_null column)).
  - apply NoDup_incl_length; [apply NoDup_nodup|].
    intros x Hx. now apply nodup_In in Hx.
  - induction column as [|[x|] column IH]; simpl; lia.
Qed.

(** X13. The statistics are consistent: there are no more workflows than
    items and no more matched items than matches; an insert that succeeds
    adds the size of the batch to the number of items and leaves the number
    of matches alone, an insert that fails changes nothing. *)
Theorem stats_bounds_and_growth :
  forall (fault : Fault) (clock : nat -> nat) (batch : list Item)
         (workflow document : option pystr) (db : Store),
    let before := get_processing_stats NoFault db in
    let after :=
      get_processing_stats NoFault
        (store_after fault clock batch workflow document db) in
    total_workflows before <= total_items before /\
    unique_matched_items before <= total_matches before /\
    total_matches after = total_matches before /\
    unique_matched_items after = unique_matched_items before /\
    total_items after
    = total_items before
      + length (ids_returned fault clock batch workflow document db) /\
    (error_logged fault clock batch workflow document db = false ->
     total_items after = total_items before + length batch) /\
    (error_logged fault clock batch workflow document db = true ->
     after = before).
Proof.
  intros fault clock batch workflow document db before after.
  subst before after. unfold get_processing_stats. cbn [raises orb].
  cbn [total_workflows total_items unique_matched_items total_matches].
  destruct (add_items_appends fault clock batch workflow document db)
    as (rows & H1 & H2 & H3 & _).
  split; [|split; [|split; [|split; [|split; [|split]]]]].
  - rewrite <- (length_map workflow_id (items db)). apply count_distinct_le.
  - rewrite <- (length_map original_item_id (item_matches db)).
    apply count_distinct_le.
  - now rewrite H2.
  - now rewrite H2.
  - rewrite H1, length_app, <- H3, length_map. reflexivity.
  - unfold error_logged, store_after.
    destruct (add_items_cases fault clock batch workflow document db)
      as [E|[_ E]]; rewrite E; [discriminate|]. intros _.
    destruct (add_items_positions clock batch workflow document db)
      as (_ & Hlen & _).
    fold (store_after NoFault clock batch workflow document db).
    destruct (add_items_appends NoFault clock batch workflow document db)
      as (rows' & H1' & _ & H3' & _).
    rewrite H1', length_app, <- Hlen, <- H3', length_map. reflexivity.
  - unfold error_logged, store_after.
    destruct (add_items_cases fault clock batch workflow document db)
      as [E|[E _]]; rewrite E; [reflexivity | discriminate].
Qed.

(** X14. The statistics of a store that cannot be read, of a knowledge base
    that could not be created, of an empty store and of a cleared store are
    the same dictionary: all counters and the match rate are 0. *)
Theorem stats_of_nothing :
  forall (fault other : Fault) (db : Store),
    (raises fault 0 || raises fault 1 || raises fault 2 || raises fault 3
     || raises fault 4 = true ->
     get_knowledge_base_stats fault (Some db) = zero_stats) /\
    get_knowledge_base_stats other None = zero_stats /\
    get_knowledge_base_stats NoFault (Some empty_store) = zero_stats /\
    get_knowledge_base_stats other (Some (clear_all_data NoFault db)) = zero_stats.
Proof.
  intros fault other db. unfold get_knowledge_base_stats.
  split; [|split; [|split]]; try reflexivity.
  - unfold get_processing_stats. now intros ->.
  - unfold get_processing_stats, clear_all_data. cbn [raises orb items item_matches].
    destruct (raises other 0 || raises other 1 || raises other 2
              || raises other 3 || raises other 4); reflexivity.
Qed.

(** ** More on the matcher *)

Lemma match_loop_items (find_fault : nat -> Fault) (supplier_bom : list SupplierItem)
    (db : Store) (batch : list Item) :
  forall k, map (fun p => res_item (snd p))
              (match_loop find_fault supplier_bom db k batch) = batch.
Proof.
  induction batch as [|a rest IH]; intros k; [reflexivity|].
  simpl. now rewrite IH.
Qed.

(** X15. A batch always yields one result per item, in the order of the
    batch and each carrying its item, whatever the store does: no failure of
    the insert or of a lookup removes or reorders a result. *)
Theorem one_result_per_item :
  forall (add_fault : Fault) (find_fault : nat -> Fault) (clock : nat -> nat)
         (extracted_items : list Item) (supplier_bom : list SupplierItem)
         (workflow : pystr) (db : Store),
    map res_item
      (match_items_with_knowledge_base add_fault find_fault clock
         extracted_items supplier_bom workflow db)
    = extracted_items /\
    length (match_items_with_knowledge_base add_fault find_fault clock
              extracted_items supplier_bom workflow db)
    = length extracted_items.
Proof.
  intros add_fault find_fault clock extracted_items supplier_bom workflow db.
  assert (E : map res_item
                (match_items_with_knowledge_base add_fault find_fault clock
                   extracted_items supplier_bom workflow db)
              = extracted_items).
  { unfold match_items_with_knowledge_base, match_trace.
    destruct (add_items add_fault clock extracted_items (Some workflow) None db)
      as [[db' ids] logged]. cbn [snd]. rewrite map_map.
    apply match_loop_items. }
  split; [exact E|]. rewrite <- E at 2. now rewrite length_map.
Qed.

Lemma rows_of_as_exact (rows : list ItemRow) :
  map kb_row (map as_exact rows) = rows.
Proof. rewrite map_map. cbn [as_exact kb_row]. apply map_id. Qed.

(** Every candidate the store returns is of type exact. *)
Lemma find_all_exact (fault : Fault) (material : option pystr) (db : Store) :
  fst (find_similar_items fault material db)
  = map as_exact (rows_found fault material db) /\
  length (rows_found fault material db) <= 5.
Proof.
  unfold rows_found, find_similar_items.
  destruct (raises fault 0); [split; [reflexivity | simpl; lia]|].
  destruct (nonempty (normalize_material_name material));
    [|split; [reflexivity | simpl; lia]].
  destruct (raises fault 1); [split; [reflexivity | simpl; lia]|].
  cbn [fst]. rewrite rows_of_as_exact.
  split; [reflexivity|]. apply select_exact_rows.
Qed.

(** X16. What the store finds always wins.  For each item of a batch either
    the store returned no candidate, or the result is the first candidate the
    store returned, reported as an exact knowledge-base match at confidence
    0.9, whatever the supplier BOM holds; the "similar item" fall-back at
    confidence 0.6 never occurs. *)
Theorem store_candidate_always_wins :
  forall (find_fault : nat -> Fault) (supplier_bom : list SupplierItem)
         (db : Store) (i : nat) (item : Item),
    let kb_matches := fst (match_one find_fault supplier_bom db i item) in
    let result := snd (match_one find_fault supplier_bom db i item) in
    length kb_matches <= 5 /\
    (kb_matches = [] \/
     exists row rest,
       kb_matches = as_exact row :: rest /\
       has_previous_match result = true /\
       res_confidence_score result = 0.9%float /\
       res_supplier_description result = material_name row /\
       res_supplier_part_number result = part_number (source_item row) /\
       res_reasoning result = ExactKnowledgeBase 0.9 /\
       (match_source result = knowledge_base \/ match_source result = hybrid)) /\
    (forall c, res_reasoning result <> SimilarKnowledgeBase c).
Proof.
  intros find_fault supplier_bom db i item kb_matches result.
  subst kb_matches result. unfold match_one. cbn [fst snd].
  destruct (find_all_exact (find_fault i) (Some (qa_material_name item)) db)
    as [E Hlen].
  rewrite E. rewrite length_map. split; [assumption|].
  destruct (rows_found (find_fault i) (Some (qa_material_name item)) db)
    as [|row rows].
  - split; [now left|]. intros c. cbn [map res_reasoning].
    unfold _select_best_match. cbn [find fallback_kb py_max].
    destruct (py_max confidence_score (_find_supplier_matches item supplier_bom))
      as [s|]; [|discriminate].
    destruct (PrimFloat.ltb 0.7 (confidence_score s)); discriminate.
  - split.
    + right. exists row, (map as_exact rows). cbn [map].
      split; [reflexivity|]. repeat split.
      cbn [match_source]. unfold _determine_match_source.
      destruct (_find_supplier_matches item supplier_bom); [now left | now right].
    + intros c. discriminate.
Qed.

Lemma failed_lookup_finds_nothing (fault : Fault) (material : pystr)
    (db : Store) :
  lookup_fails fault material db = true ->
  forall other : Store, fst (find_similar_items fault (Some material) other) = [].
Proof.
  unfold lookup_fails, find_similar_items. intros H other.
  destruct (raises fault 0); [reflexivity|].
  destruct (nonempty (normalize_material_name (Some material)));
    [|discriminate].
  destruct (raises fault 1); [reflexivity | discriminate].
Qed.

Lemma empty_store_finds_nothing (material : option pystr) :
  fst (find_similar_items NoFault material empty_store) = [].
Proof.
  unfold find_similar_items. cbn [raises].
  now destruct (nonempty (normalize_material_name material)).
Qed.

(** X17. When the lookup of an item fails, at the connection or at the
    SELECT, the item is matched as if the store held nothing: the result is
    the one the supplier BOM alone gives, the same as for a working store
    that is empty; it does not depend on the store, reports no previous
    match, and never names the knowledge base as source. *)
Theorem lookup_failure_leaves_supplier_only
    (find_fault : nat -> Fault) (supplier_bom : list SupplierItem)
    (db : Store) (i : nat) (item : Item)
    (Hfails : lookup_fails (find_fault i) (qa_material_name item) db = true) :
  match_one find_fault supplier_bom db i item
  = ([], supplier_only item supplier_bom) /\
  match_one find_fault supplier_bom db i item
  = match_one (fun _ => NoFault) supplier_bom empty_store i item /\
  (forall other : Store,
     match_one find_fault supplier_bom other i item
     = match_one find_fault supplier_bom db i item) /\
  has_previous_match (snd (match_one find_fault supplier_bom db i item)) = false /\
  knowledge_base_matches (snd (match_one find_fault supplier_bom db i item)) = 0 /\
  (match_source (snd (match_one find_fault supplier_bom db i item))
   = ItemMatcher.supplier_bom \/
   match_source (snd (match_one find_fault supplier_bom db i item)) = no_match).
Proof.
  assert (E : forall s, match_one find_fault supplier_bom s i item
                        = ([], supplier_only item supplier_bom)).
  { intros s. unfold match_one.
    rewrite (@failed_lookup_finds_nothing (find_fault i) (qa_material_name item)
               db Hfails s).
    unfold supplier_only. reflexivity. }
  split; [apply E|]. split.
  { rewrite E. unfold match_one. rewrite empty_store_finds_nothing.
    unfold supplier_only. reflexivity. }
  split; [intros other; now rewrite !E|].
  rewrite E. cbn [snd]. unfold supplier_only.
  cbn [has_previous_match knowledge_base_matches match_source].
  split; [reflexivity|]. split; [reflexivity|].
  destruct (_find_supplier_matches item supplier_bom); [now right | now left].
Qed.

Lemma lookup_failure_leaves_supplier_only_witness :
  match_one select_fails [stainless_bolt] bolt_store 0 hex_bolt
  = ([], supplier_only hex_bolt [stainless_bolt]) /\
  match_one select_fails [stainless_bolt] bolt_store 0 hex_bolt
  = match_one (fun _ => NoFault) [stainless_bolt] empty_store 0 hex_bolt /\
  (forall other : Store,
     match_one select_fails [stainless_bolt] other 0 hex_bolt
     = match_one select_fails [stainless_bolt] bolt_store 0 hex_bolt) /\
  has_previous_match
    (snd (match_one select_fails [stainless_bolt] bolt_store 0 hex_bolt))
  = false /\
  knowledge_base_matches
    (snd (match_one select_fails [stainless_bolt] bolt_store 0 hex_bolt))
  = 0 /\
  (match_source
     (snd (match_one select_fails [stainless_bolt] bolt_store 0 hex_bolt))
   = supplier_bom \/
   match_source
     (snd (match_one select_fails [stainless_bolt] bolt_store 0 hex_bolt))
   = no_match).
Proof.
  apply (@lookup_failure_leaves_supplier_only select_fails [stainless_bolt]
           bolt_store 0 hex_bolt).
  reflexivity.
Defined.

(** The same when the connection fails, and for a name without letters or
    digits a failing SELECT is never reached: the lookup does not fail. *)
Example lookup_failure_cases :
  lookup_fails (store_down 0) (str "M6x20mm Hex Bolt") bolt_store = true /\
  lookup_fails (select_fails 0) (str "M6x20mm Hex Bolt") bolt_store = true /\
  lookup_fails (select_fails 0) (str "---") bolt_store = false.
Proof. repeat split. Qed.

Lemma float_ltb_leb (x y : float) :
  PrimFloat.ltb x y = true -> PrimFloat.leb x y = true.
Proof.
  rewrite FloatAxioms.ltb_spec, FloatAxioms.leb_spec, SFltb_rank, SFleb_rank.
  tauto.
Qed.

Lemma py_min_at_most (x : float) : PrimFloat.leb (py_min 0.9 x) 0.9 = true.
Proof.
  unfold py_min. destruct (PrimFloat.ltb x 0.9) eqn:E.
  - now apply float_ltb_leb.
  - reflexivity.
Qed.

(** The score of a supplier item is 0.95 for an equal part number and at
    most 0.9 otherwise. *)
Lemma confidence_spec_range (item : Item) (supplier : SupplierItem) :
  (same_part_number item supplier = true /\
   confidence_spec item supplier = 0.95%float) \/
  (same_part_number item supplier = false /\
   PrimFloat.leb (confidence_spec item supplier) 0.9 = true).
Proof.
  unfold confidence_spec, same_part_number.
  destruct (present (part_number item) && present (sup_part_number supplier)
            && opt_eqb (part_number item) (sup_part_number supplier));
    [now left | right]. split; [reflexivity|].
  match goal with |- context [Nat.ltb 0 ?n] => destruct (Nat.ltb 0 n) end.
  - apply py_min_at_most.
  - reflexivity.
Qed.

Lemma result_candidates (item : Item) (supplier_bom : list SupplierItem)
    (c : Candidate) :
  In c (_find_supplier_matches item supplier_bom) <->
  exists s, In s supplier_bom /\
            PrimFloat.ltb 0.3 (confidence_spec item s) = true /\
            c = candidate_of (confidence_spec item s) s.
Proof.
  unfold _find_supplier_matches. rewrite supplier_loop_scored. split.
  - intros H. apply (Permutation_in _ (sorted_reverse_perm _ _)) in H.
    unfold scored_candidates in H. apply in_map_iff in H as (s & E & H).
    apply filter_In in H as [H1 H2]. exists s. now rewrite <- E.
  - intros (s & H1 & H2 & ->).
    apply (Permutation_in _ (Permutation_sym (sorted_reverse_perm _ _))).
    unfold scored_candidates. apply in_map_iff. exists s.
    split; [reflexivity|]. apply filter_In. now split.
Qed.


Lemma candidate_at_most
    (item : Item) (supplier_bom : list SupplierItem) (c : Candidate) :
  In c (_find_supplier_matches item supplier_bom) ->
  PrimFloat.leb (confidence_score c) 0.95 = true.
Proof.
  intros Hc. apply result_candidates in Hc as (s & Hs & Hscore & ->).
  cbn [candidate_of confidence_score].
  destruct (confidence_spec_range item s) as [[_ E]|[_ Hle]].
  - now rewrite E.
  - now apply (@float_leb_trans _ 0.9%float).
Qed.

Lemma match_loop_results (find_fault : nat -> Fault)
    (supplier_bom : list SupplierItem) (db : Store)
    (extracted_items : list Item) :
  forall (i : nat) (x : list KBMatch * MatchResult),
    In x (match_loop find_fault supplier_bom db i extracted_items) ->
    exists (j : nat) (item : Item),
      In item extracted_items /\
      x = match_one find_fault supplier_bom db j item.
Proof.
  induction extracted_items as [|item rest IH]; intros i x; simpl; [tauto|].
  intros [<-|H].
  - exists i, item. split; [now left | reflexivity].
  - destruct (IH _ _ H) as (j & it & Hin & E).
    exists j, it. split; [now right | assumption].
Qed.

(** X18. Every supplier candidate scores above 0.3 and at most 0.95; a
    candidate of type part_number scores exactly 0.95 and carries the part
    number of the item, a candidate of type description scores at most
    0.9. *)
Theorem supplier_scores_in_range
    (item : Item) (supplier_bom : list SupplierItem) (c : Candidate)
    (Hc : In c (_find_supplier_matches item supplier_bom)) :
  PrimFloat.ltb 0.3 (confidence_score c) = true /\
  PrimFloat.leb (confidence_score c) 0.95 = true /\
  (match_type c = PartNumber ->
   confidence_score c = 0.95%float /\
   supplier_part_number c = part_number item) /\
  (match_type c = Description ->
   PrimFloat.leb (confidence_score c) 0.9 = true) /\
  (match_type c = PartNumber \/ match_type c = Description).
Proof.
  apply result_candidates in Hc as (s & Hs & Hscore & ->).
  rewrite match_type_by_part_number. cbn [confidence_score supplier_part_number].
  split; [assumption|].
  destruct (confidence_spec_range item s) as [[Hpn E]|[Hpn Hle]]; rewrite Hpn.
  - rewrite E. split; [reflexivity|]. split; [|split; [discriminate | now left]].
    intros _. split; [reflexivity|].
    unfold same_part_number in Hpn.
    apply andb_true_iff in Hpn as [Hpresent Hpn]. unfold opt_eqb in Hpn.
    destruct (part_number item) as [p|], (sup_part_number s) as [q|] eqn:Eq;
      try discriminate.
    apply str_eqb_eq in Hpn. cbn. now subst.
  - split; [|split; [discriminate | split; [now intros _ | now right]]].
    now apply (@float_leb_trans _ 0.9%float).
Qed.

Lemma supplier_scores_in_range_witness :
  PrimFloat.ltb 0.3 (confidence_score (candidate_of 0.95 stainless_bolt))
  = true /\
  PrimFloat.leb (confidence_score (candidate_of 0.95 stainless_bolt)) 0.95
  = true /\
  (match_type (candidate_of 0.95 stainless_bolt) = PartNumber ->
   confidence_score (candidate_of 0.95 stainless_bolt) = 0.95%float /\
   supplier_part_number (candidate_of 0.95 stainless_bolt)
   = part_number hex_bolt) /\
  (match_type (candidate_of 0.95 stainless_bolt) = Description ->
   PrimFloat.leb (confidence_score (candidate_of 0.95 stainless_bolt)) 0.9
   = true) /\
  (match_type (candidate_of 0.95 stainless_bolt) = PartNumber \/
   match_type (candidate_of 0.95 stainless_bolt) = Description).
Proof.
  apply (@supplier_scores_in_range hex_bolt [stainless_bolt]
           (candidate_of 0.95 stainless_bolt)).
  vm_compute. now left.
Defined.


(** X20. What a match result can report.  Every result of a batch is of one
    of three kinds: no match, with confidence 0 and an empty supplier
    description; an exact knowledge-base match at confidence 0.9; or a match
    from the supplier BOM, reported only when the store returned nothing for
    the item, whose confidence lies above 0.7 and is at most 0.95.  In each
    kind the reasoning sentence, the confidence and the previous-match flag
    agree. *)
Theorem reported_confidence_kinds
    (add_fault : Fault) (find_fault : nat -> Fault) (clock : nat -> nat)
    (extracted_items : list Item) (supplier_bom : list SupplierItem)
    (workflow : pystr) (db : Store) (r : MatchResult)
    (Hr : In r (match_items_with_knowledge_base add_fault find_fault clock
                  extracted_items supplier_bom workflow db)) :
  In (res_item r) extracted_items /\
  ((res_reasoning r = NoSuitableMatch /\
    res_confidence_score r = 0%float /\
    res_supplier_description r = [] /\
    has_previous_match r = false /\
    (match_source r = ItemMatcher.supplier_bom \/ match_source r = no_match)) \/
   (res_reasoning r = ExactKnowledgeBase 0.9 /\
    res_confidence_score r = 0.9%float /\
    has_previous_match r = true /\
    (match_source r = knowledge_base \/ match_source r = hybrid)) \/
   (res_reasoning r = CurrentSupplierBOM (res_confidence_score r) /\
    PrimFloat.ltb 0.7 (res_confidence_score r) = true /\
    PrimFloat.leb (res_confidence_score r) 0.95 = true /\
    has_previous_match r = false /\
    match_source r = ItemMatcher.supplier_bom)).
Proof.
  unfold match_items_with_knowledge_base, match_trace in Hr.
  destruct (add_items add_fault clock extracted_items (Some workflow) None db)
    as [[db' new_item_ids] logged].
  cbn [snd] in Hr. apply in_map_iff in Hr as (x & <- & Hx).
  apply match_loop_results in Hx as (j & item & Hin & ->).
  unfold match_one. cbn [snd res_item]. split; [assumption|].
  destruct (find_all_exact (find_fault j) (Some (qa_material_name item)) db')
    as [E _].
  rewrite E.
  destruct (rows_found (find_fault j) (Some (qa_material_name item)) db')
    as [|row rows]; cbn [map].
  - unfold _select_best_match. cbn [find fallback_kb py_max].
    destruct (py_max confidence_score (_find_supplier_matches item supplier_bom))
      as [s|] eqn:Es.
    + destruct (py_max_highest _ _ Es) as [Hs _].
      destruct (PrimFloat.ltb 0.7 (confidence_score s)) eqn:Ehigh.
      * right; right. cbn.
        split; [reflexivity|]. split; [assumption|].
        split; [now apply (candidate_at_most item supplier_bom)|].
        split; [reflexivity|].
        destruct (_find_supplier_matches item supplier_bom);
          [destruct Hs | reflexivity].
      * left. cbn. repeat split.
        destruct (_find_supplier_matches item supplier_bom);
          [now right | now left].
    + left. cbn. repeat split.
      destruct (_find_supplier_matches item supplier_bom);
        [now right | now left].
  - right; left. cbn. repeat split.
    destruct (_find_supplier_matches item supplier_bom); [now left | now right].
Qed.

Lemma reported_confidence_kinds_witness :
  In bolt_result
     (match_items_with_knowledge_base NoFault (fun _ => NoFault) ticking
        [named "bolt"] [stainless_bolt] (str "wf-2") bolt_store) /\
  In (res_item bolt_result) [named "bolt"] /\
  ((res_reasoning bolt_result = NoSuitableMatch /\
    res_confidence_score bolt_result = 0%float /\
    res_supplier_description bolt_result = [] /\
    has_previous_match bolt_result = false /\
    (match_source bolt_result = ItemMatcher.supplier_bom \/
     match_source bolt_result = no_match)) \/
   (res_reasoning bolt_result = ExactKnowledgeBase 0.9 /\
    res_confidence_score bolt_result = 0.9%float /\
    has_previous_match bolt_result = true /\
    (match_source bolt_result = knowledge_base \/
     match_source bolt_result = hybrid)) \/
   (res_reasoning bolt_result
    = CurrentSupplierBOM (res_confidence_score bolt_result) /\
    PrimFloat.ltb 0.7 (res_confidence_score bolt_result) = true /\
    PrimFloat.leb (res_confidence_score bolt_result) 0.95 = true /\
    has_previous_match bolt_result = false /\
    match_source bolt_result = ItemMatcher.supplier_bom)).
Proof.
  split; [vm_compute; now left|].
  apply (@reported_confidence_kinds NoFault (fun _ => NoFault) ticking
           [named "bolt"] [stainless_bolt] (str "wf-2") bolt_store bolt_result).
  vm_compute. now left.
Defined.

